(** * Workflow powerups for VASP and the LAMMPS workflow builders

    A shallow embedding of [matmethods/vasp/vasp_powerups.py] and
    [matmethods/lammps/workflows/core.py].

    Python objects are modelled as follows.
    - A keyword-argument dictionary is a [gmap string pyval].
    - A FireTask is a dictionary subclass; it is a record of its
      serialization name ([_fw_name]) and of its parameters.  Its
      serialized form ([to_dict]) carries the same two components, so one
      type serves for the object and for the entry of [spec["_tasks"]].
    - A Firework has its in-memory task list [tasks] and its settings
      map [spec]; the three keys the powerups touch ([_tasks],
      [_priority], [_trackers]) are fields of the record, a missing key
      is [None], and all other keys are kept in [spec_rest].
    - Exceptions are values of an error monad. *)

From Stdlib Require Import ZArith.
From stdpp Require Import base list strings gmap.

Open Scope string_scope.
Open Scope list_scope.

(** ** Python values and exceptions *)

#[local] Unset Elimination Schemes.
Inductive pyval : Type :=
  | PNone
  | PBool (b : bool)
  | PInt (z : Z)
  | PStr (s : string)
  | PList (l : list pyval)
  | PDict (d : list (string * pyval)).
#[local] Set Elimination Schemes.

Inductive exn : Type :=
  | KeyError (k : string)
  | IndexError.

Inductive result (A : Type) : Type :=
  | Ok (a : A)
  | Raise (e : exn).

Arguments Ok {A} a.
Arguments Raise {A} e.

Definition rbind {A B : Type} (m : result A) (k : A -> result B) : result B :=
  match m with
  | Ok a => k a
  | Raise e => Raise e
  end.

Notation "x <~ m ;; k" := (rbind m (fun x => k))
  (at level 100, m at next level, right associativity).

(** A [for] loop whose body may raise: the state is threaded through
    the iterations, the first exception leaves the loop. *)
Fixpoint for_each {A S : Type} (body : S -> A -> result S) (xs : list A) (s : S)
  : result S :=
  match xs with
  | [] => Ok s
  | x :: xs' => s' <~ body s x ;; for_each body xs' s'
  end.

(** [enumerate(xs)] *)
Definition enumerate {A : Type} (xs : list A) : list (nat * A) :=
  imap (fun i x => (i, x)) xs.

(** [xs[i]] for a non-negative index. *)
Definition list_getitem {A : Type} (xs : list A) (i : nat) : result A :=
  match xs !! i with
  | Some x => Ok x
  | None => Raise IndexError
  end.

(** [xs[i] = v] for a non-negative index: Python raises out of range. *)
Definition list_setitem {A : Type} (xs : list A) (i : nat) (v : A) : result (list A) :=
  if decide (i < length xs) then Ok (<[i := v]> xs) else Raise IndexError.

(** [xs.insert(i, v)]: a negative index counts from the end, and the
    position is clamped to [0 .. len(xs)]. *)
Definition list_insert_at {A : Type} (i : Z) (v : A) (xs : list A) : list A :=
  let n := Z.of_nat (length xs) in
  let i1 := if decide (i < 0)%Z then (i + n)%Z else i in
  let i2 := if decide (i1 < 0)%Z then 0%Z else i1 in
  let i3 := if decide (n < i2)%Z then n else i2 in
  let k := Z.to_nat i3 in
  take k xs ++ v :: drop k xs.

(** [d[k]] on a dictionary. *)
Definition dict_getitem (d : gmap string pyval) (k : string) : result pyval :=
  match d !! k with
  | Some v => Ok v
  | None => Raise (KeyError k)
  end.

(** [k in d] on a dictionary. *)
Definition dict_contains (k : string) (d : gmap string pyval) : bool :=
  match d !! k with
  | Some _ => true
  | None => false
  end.

(** [needle in hay] on strings. *)
Fixpoint str_in (needle hay : string) : bool :=
  String.prefix needle hay ||
  match hay with
  | EmptyString => false
  | String _ hay' => str_in needle hay'
  end.

(** ** Tasks, Fireworks, Workflows *)

Record task : Type := Task {
  fw_name : string;
  params : gmap string pyval
}.

Record Tracker : Type := mkTracker {
  filename : string;
  nlines : Z;
  allow_zipped : bool
}.

Record fw_spec : Type := Spec {
  spec_tasks : list task;
  spec_priority : option Z;
  spec_trackers : option (list Tracker);
  spec_rest : gmap string pyval
}.

Record Firework : Type := mkFirework {
  fw_id : Z;
  name : string;
  tasks : list task;
  spec : fw_spec
}.

(** [links] maps a parent id to the ids of its children. *)
Record Workflow : Type := mkWorkflow {
  fws : list Firework;
  links : list (Z * list Z);
  wf_name : string
}.

(** The nested mapping produced by [Workflow.to_dict()]. *)
Record FwDict : Type := mkFwDict {
  d_fw_id : Z;
  d_name : string;
  d_spec : fw_spec
}.

Record WfDict : Type := mkWfDict {
  d_fws : list FwDict;
  d_links : list (Z * list Z);
  d_wf_name : string
}.

Definition fw_to_dict (fw : Firework) : FwDict :=
  {| d_fw_id := fw_id fw; d_name := name fw; d_spec := spec fw |}.

(** [Firework.from_dict] rebuilds the task objects from [spec["_tasks"]].
    Only this structure is embedded.  On loading, the library also decodes
    values (a string shaped like a timestamp becomes a date); the
    embedding does not follow that, so [fw_from_dict] after [fw_to_dict]
    need not be what the library returns on such values.  Properties of
    data that a powerup leaves alone are therefore stated about the
    mapping that is handed to [from_dict], or relative to
    [from_dict (to_dict wf)], never as equality with the input object. *)
Definition fw_from_dict (d : FwDict) : Firework :=
  {| fw_id := d_fw_id d; name := d_name d;
     tasks := spec_tasks (d_spec d); spec := d_spec d |}.

Definition to_dict (wf : Workflow) : WfDict :=
  {| d_fws := fw_to_dict <$> fws wf; d_links := links wf; d_wf_name := wf_name wf |}.

(** [Workflow.from_dict]: the Fireworks are rebuilt one by one, links
    and name are taken over (structure only, as for [fw_from_dict]). *)
Definition from_dict (d : WfDict) : Workflow :=
  {| fws := fw_from_dict <$> d_fws d; links := d_links d; wf_name := d_wf_name d |}.

(** [Workflow.root_fw_ids]: the ids that are nobody's child. *)
Definition child_ids (wf : Workflow) : list Z :=
  mjoin (snd <$> links wf).

Definition root_fw_ids (wf : Workflow) : list Z :=
  filter (fun i => i ∉ child_ids wf) (fw_id <$> fws wf).

(** The invariant of a Firework built by its constructor:
    [spec["_tasks"]] mirrors the in-memory task list. *)
Definition fw_mirrored (fw : Firework) : Prop :=
  spec_tasks (spec fw) = tasks fw.

Definition wf_mirrored (wf : Workflow) : Prop :=
  Forall fw_mirrored (fws wf).

Definition with_spec_tasks (ts : list task) (s : fw_spec) : fw_spec :=
  {| spec_tasks := ts; spec_priority := spec_priority s;
     spec_trackers := spec_trackers s; spec_rest := spec_rest s |}.

Definition with_spec_priority (p : Z) (s : fw_spec) : fw_spec :=
  {| spec_tasks := spec_tasks s; spec_priority := Some p;
     spec_trackers := spec_trackers s; spec_rest := spec_rest s |}.

Definition with_spec_trackers (tr : list Tracker) (s : fw_spec) : fw_spec :=
  {| spec_tasks := spec_tasks s; spec_priority := spec_priority s;
     spec_trackers := Some tr; spec_rest := spec_rest s |}.

Definition fw_with_spec (s : fw_spec) (fw : Firework) : Firework :=
  {| fw_id := fw_id fw; name := name fw; tasks := tasks fw; spec := s |}.

Definition fwd_with_spec (s : fw_spec) (d : FwDict) : FwDict :=
  {| d_fw_id := d_fw_id d; d_name := d_name d; d_spec := s |}.

Definition wf_with_fws (l : list Firework) (wf : Workflow) : Workflow :=
  {| fws := l; links := links wf; wf_name := wf_name wf |}.

Definition wfd_with_fws (l : list FwDict) (d : WfDict) : WfDict :=
  {| d_fws := l; d_links := d_links d; d_wf_name := d_wf_name d |}.

(** [wf_dict["fws"][idx_fw]["spec"]["_tasks"][idx_t] = v] *)
Definition set_task_entry (d : WfDict) (idx_fw idx_t : nat) (v : task) : result WfDict :=
  fwd <~ list_getitem (d_fws d) idx_fw ;;
  ts <~ list_setitem (spec_tasks (d_spec fwd)) idx_t v ;;
  Ok (wfd_with_fws (<[idx_fw := fwd_with_spec (with_spec_tasks ts (d_spec fwd)) fwd]> (d_fws d)) d).

(** ** The task classes the powerups construct *)

(** Modelled from the spec: the classes [RunVaspCustodian], [RunVaspFake]
    and [ModifyIncar] are defined in modules of the repository that are
    not part of the sources at hand; each is a FireTask that keeps its
    keyword arguments as parameters and is serialized under its
    qualified class name. *)
Definition RunVaspCustodian (kwargs : gmap string pyval) : task :=
  Task "{{matmethods.vasp.firetasks.run_calc.RunVaspCustodian}}" kwargs.

Definition RunVaspFake (fake_dir : string) : task :=
  Task "{{matmethods.vasp.tests.vasp_fake.RunVaspFake}}" {[ "fake_dir" := PStr fake_dir ]}.

Definition ModifyIncar (kwargs : gmap string pyval) : task :=
  Task "{{matmethods.vasp.firetasks.write_inputs.ModifyIncar}}" kwargs.

(** [FileWriteTask(files_to_write=files)] of the workflow framework. *)
Definition FileWriteTask (files : list pyval) : task :=
  Task "FileWriteTask" {[ "files_to_write" := PList files ]}.

(** ** vasp_powerups.py *)

Section Powerups.

(** [fake_dirs] is a dictionary of the repository's test module, from
    job-type label to directory; it is kept as the list of its items in
    iteration order.  [dict_repr] is Python's [repr] of a dictionary and
    [get_slug] the framework's slug function. *)
Variable fake_dirs : list (string * string).
Variable dict_repr : gmap string pyval -> string.
Variable get_slug : string -> string.

(** [fake_dirs[k]] *)
Fixpoint items_getitem (items : list (string * string)) (k : string) : result string :=
  match items with
  | [] => Raise (KeyError k)
  | (k', v) :: items' => if decide (k' = k) then Ok v else items_getitem items' k
  end.

(** [str(task)]: a FireTask prints as [<_fw_name>:{parameters}]. *)
Definition str_task (t : task) : string :=
  "<" +:+ fw_name t +:+ ">:" +:+ dict_repr (params t).

Definition is_runvasp_task (t : task) : bool :=
  if str_in "RunVasp" (str_task t) then true else false.

Definition get_runvasp_fws_and_tasks (workflow : Workflow) : list (nat * nat) :=
  foldl (fun fws_and_tasks '(idx_fw, fw) =>
    foldl (fun fws_and_tasks job_type =>
      if str_in job_type (name fw) then
        foldl (fun fws_and_tasks '(idx_t, t) =>
          if is_runvasp_task t
          then fws_and_tasks ++ [(idx_fw, idx_t)]
          else fws_and_tasks)
          fws_and_tasks (enumerate (tasks fw))
      else fws_and_tasks)
      fws_and_tasks (fake_dirs.*1))
    [] (enumerate (fws workflow)).

(** [child_priority or root_priority]: an absent argument is [None],
    and [None] and [0] are the false values. *)
Definition or_default (child_priority : option Z) (root_priority : Z) : Z :=
  match child_priority with
  | Some c => if decide (c = 0%Z) then root_priority else c
  | None => root_priority
  end.

Definition decorate_priority (original_wf : Workflow) (root_priority : Z)
    (child_priority : option Z) : Workflow :=
  let child_priority := or_default child_priority root_priority in
  let root_fw_ids := root_fw_ids original_wf in
  wf_with_fws
    ((fun fw =>
        if decide (fw_id fw ∈ root_fw_ids)
        then fw_with_spec (with_spec_priority root_priority (spec fw)) fw
        else fw_with_spec (with_spec_priority child_priority (spec fw)) fw)
     <$> fws original_wf)
    original_wf.

(** [fw_name_filter is None or fw_name_filter in name] *)
Definition passes_filter (fw_name_filter : option string) (nm : string) : bool :=
  match fw_name_filter with
  | None => true
  | Some f => str_in f nm
  end.

Definition use_custodian_step (fw_name_filter : option string)
    (custodian_params : gmap string pyval) (wf_dict : WfDict) (p : nat * nat)
    : result WfDict :=
  let '(idx_fw, idx_t) := p in
  ok <~ match fw_name_filter with
        | None => Ok true
        | Some f => fwd <~ list_getitem (d_fws wf_dict) idx_fw ;; Ok (str_in f (d_name fwd))
        end ;;
  if ok : bool then
    if dict_contains "vasp_cmd" custodian_params then
      set_task_entry wf_dict idx_fw idx_t (RunVaspCustodian custodian_params)
    else
      fwd <~ list_getitem (d_fws wf_dict) idx_fw ;;
      t <~ list_getitem (spec_tasks (d_spec fwd)) idx_t ;;
      vasp_cmd <~ dict_getitem (params t) "vasp_cmd" ;;
      set_task_entry wf_dict idx_fw idx_t
        (RunVaspCustodian (<["vasp_cmd" := vasp_cmd]> custodian_params))
  else Ok wf_dict.

Definition use_custodian (original_wf : Workflow) (fw_name_filter : option string)
    (custodian_params : option (gmap string pyval)) : result Workflow :=
  let custodian_params :=
    match custodian_params with Some p => p | None => ∅ end in
  let wf_dict := to_dict original_wf in
  let vasp_fws_and_tasks := get_runvasp_fws_and_tasks original_wf in
  wf_dict <~ for_each (use_custodian_step fw_name_filter custodian_params)
               vasp_fws_and_tasks wf_dict ;;
  Ok (from_dict wf_dict).

Definition make_fake_workflow (original_wf : Workflow) : result Workflow :=
  let wf_dict := to_dict original_wf in
  wf_dict <~ for_each (fun wf_dict '(idx_fw, fw) =>
    for_each (fun wf_dict job_type =>
      if str_in job_type (name fw) then
        for_each (fun wf_dict '(idx_t, t) =>
          if is_runvasp_task t then
            fake_dir <~ items_getitem fake_dirs job_type ;;
            set_task_entry wf_dict idx_fw idx_t (RunVaspFake fake_dir)
          else Ok wf_dict)
          (enumerate (tasks fw)) wf_dict
      else Ok wf_dict)
      (fake_dirs.*1) wf_dict)
    (enumerate (fws original_wf)) wf_dict ;;
  Ok (from_dict wf_dict).

Definition marker_task (fw_name_ : string) (use_slug : bool) : task :=
  let fname := "FW--" +:+ fw_name_ in
  let fname := if use_slug then get_slug fname else fname in
  FileWriteTask [PDict [("filename", PStr fname); ("contents", PStr "")]].

Definition decorate_write_name (original_wf : Workflow) (use_slug : bool) : Workflow :=
  wf_with_fws
    ((fun fw =>
        fw_with_spec
          (with_spec_tasks
             (list_insert_at 0 (marker_task (name fw) use_slug) (spec_tasks (spec fw)))
             (spec fw)) fw)
     <$> fws original_wf)
    original_wf.

Definition tracker1 : Tracker := mkTracker "OUTCAR" 25 true.
Definition tracker2 : Tracker := mkTracker "OSZICAR" 25 true.

Definition add_trackers_step (wf_dict : WfDict) (p : nat * nat) : result WfDict :=
  let '(idx_fw, idx_t) := p in
  fwd <~ list_getitem (d_fws wf_dict) idx_fw ;;
  let trackers :=
    match spec_trackers (d_spec fwd) with
    | Some old => old ++ [tracker1; tracker2]
    | None => [tracker1; tracker2]
    end in
  Ok (wfd_with_fws
        (<[idx_fw := fwd_with_spec (with_spec_trackers trackers (d_spec fwd)) fwd]>
           (d_fws wf_dict)) wf_dict).

Definition add_trackers (original_wf : Workflow) : result Workflow :=
  let wf_dict := to_dict original_wf in
  wf_dict <~ for_each add_trackers_step (get_runvasp_fws_and_tasks original_wf) wf_dict ;;
  Ok (from_dict wf_dict).

Definition add_modify_incar_step (modify_incar_params : gmap string pyval)
    (fw_name_filter : option string) (wf : Workflow) (p : nat * nat) : result Workflow :=
  let '(idx_fw, idx_t) := p in
  ok <~ match fw_name_filter with
        | None => Ok true
        | Some f => fw <~ list_getitem (fws wf) idx_fw ;; Ok (str_in f (name fw))
        end ;;
  if ok : bool then
    fw <~ list_getitem (fws wf) idx_fw ;;
    let ts := list_insert_at (Z.of_nat idx_t - 1) (ModifyIncar modify_incar_params)
                (spec_tasks (spec fw)) in
    Ok (wf_with_fws (<[idx_fw := fw_with_spec (with_spec_tasks ts (spec fw)) fw]> (fws wf)) wf)
  else Ok wf.

Definition add_modify_incar (original_wf : Workflow)
    (modify_incar_params : gmap string pyval) (fw_name_filter : option string)
    : result Workflow :=
  for_each (add_modify_incar_step modify_incar_params fw_name_filter)
    (get_runvasp_fws_and_tasks original_wf) original_wf.

Definition add_modify_incar_envchk (original_wf : Workflow)
    (fw_name_filter : option string) : result Workflow :=
  add_modify_incar original_wf {[ "key_update" := PStr ">>incar_update<<" ]} fw_name_filter.

End Powerups.

(** ** The scan, as the specification words it

    For every Firework, for every known job-type label, for every task
    index, test the task-level predicate; collect the matching pairs.
    [scan_triples] also keeps the label under which a pair was found. *)

Section Scan.

Variable fake_dirs : list (string * string).
Variable dict_repr : gmap string pyval -> string.

Definition run_indices (ts : list task) : list nat :=
  enumerate ts ≫= fun '(idx_t, t) =>
    if is_runvasp_task dict_repr t then [idx_t] else [].

Definition matching_labels (nm : string) : list string :=
  filter (fun job_type => str_in job_type nm = true) (fake_dirs.*1).

Definition scan_triples (wf : Workflow) : list (nat * string * nat) :=
  enumerate (fws wf) ≫= fun '(idx_fw, fw) =>
    matching_labels (name fw) ≫= fun job_type =>
      run_indices (tasks fw) ≫= fun idx_t => [(idx_fw, job_type, idx_t)].

Definition scan_pairs (wf : Workflow) : list (nat * nat) :=
  (fun '(idx_fw, _, idx_t) => (idx_fw, idx_t)) <$> scan_triples wf.

(** How often a Firework index occurs in the pair list. *)
Definition matches_of (wf : Workflow) (idx_fw : nat) : nat :=
  length (filter (fun p => p.1 = idx_fw) (get_runvasp_fws_and_tasks fake_dirs dict_repr wf)).

(** The tracker list of a settings map; a missing key reads as empty. *)
Definition trackers_of (s : fw_spec) : list Tracker :=
  default [] (spec_trackers s).

(** The tracker property with "exactly once per Firework", as a
    statement about one workflow. *)
Definition trackers_appended_once (wf : Workflow) : Prop :=
  exists wf', add_trackers fake_dirs dict_repr wf = Ok wf' /\
    forall i fw fw', fws wf !! i = Some fw -> fws wf' !! i = Some fw' ->
      if decide (matches_of wf i = 0)
      then spec_trackers (spec fw') = spec_trackers (spec fw)
      else trackers_of (spec fw') = trackers_of (spec fw) ++ [tracker1; tracker2].

End Scan.

(** ** lammps/workflows/core.py *)

Module Lammps.

Inductive task (lammps_input : Type) : Type :=
  | WritelammpsInputFromDictInput (lammps_dict_input : lammps_input) (input_file : string)
  | RunLammpsDirect (lammps_cmd : string).

Arguments WritelammpsInputFromDictInput {lammps_input} _ _.
Arguments RunLammpsDirect {lammps_input} _.

Record Firework (lammps_input : Type) : Type := mkFirework {
  tasks : list (task lammps_input);
  name : string
}.

Arguments mkFirework {lammps_input} _ _.
Arguments tasks {lammps_input} _.
Arguments name {lammps_input} _.

Record Workflow (lammps_input : Type) : Type := mkWorkflow {
  fws : list (Firework lammps_input);
  wf_name : string
}.

Arguments mkWorkflow {lammps_input} _ _.
Arguments fws {lammps_input} _.
Arguments wf_name {lammps_input} _.

Section Builders.

(** The input objects and their two constructors belong to the
    simulation-input library; a constructor may raise. *)
Context {lammps_input : Type}.
Variable DictLammpsInput_from_file :
  string -> string -> pyval -> string -> gmap string pyval -> bool -> result lammps_input.
Variable NVTLammpsInput :
  pyval -> string -> gmap string pyval -> bool -> result lammps_input.

Definition wf_from_input_template (job_name input_template_file : string)
    (lammps_data : pyval) (data_filename : string) (user_settings : gmap string pyval)
    (is_forcefield : option bool) (input_filename lammps_bin : option string)
    : result (Workflow lammps_input) :=
  let is_forcefield := default false is_forcefield in
  let input_filename := default "lammps.inp" input_filename in
  let lammps_bin := default "lammps" lammps_bin in
  lammps_dict_input <~ DictLammpsInput_from_file job_name input_template_file
                         lammps_data data_filename user_settings is_forcefield ;;
  let task1 := WritelammpsInputFromDictInput lammps_dict_input input_filename in
  let task2 := RunLammpsDirect (lammps_bin +:+ " -in " +:+ input_filename) in
  let fw1 := mkFirework [task1; task2] "Run lammps" in
  Ok (mkWorkflow [fw1] ("LAMMPS Wflow from input template " +:+ input_template_file)).

Definition nvt_wf (data_input : pyval) (input_filename data_filename : option string)
    (user_lammps_settings : option (gmap string pyval)) (is_forcefield : option bool)
    (lammps_bin : option string) : result (Workflow lammps_input) :=
  let input_filename := default "nvt.inp" input_filename in
  let data_filename := default "in.data" data_filename in
  let user_lammps_settings := default ∅ user_lammps_settings in
  let is_forcefield := default false is_forcefield in
  let lammps_bin := default "lammps" lammps_bin in
  lammps_dict_input <~ NVTLammpsInput data_input data_filename
                         user_lammps_settings is_forcefield ;;
  let task1 := WritelammpsInputFromDictInput lammps_dict_input input_filename in
  let task2 := RunLammpsDirect (lammps_bin +:+ " -in " +:+ input_filename) in
  let fw1 := mkFirework [task1; task2] "Run lammps" in
  Ok (mkWorkflow [fw1] "LAMMPS NVT").

End Builders.

End Lammps.

(** ** Sample data *)

Module Sample.

Definition dirs (dir_A dir_B : string) : list (string * string) :=
  [("structure optimization", dir_A); ("static", dir_B)].

Definition fake_dirs : list (string * string) := dirs "dir_A" "dir_B".

(** A stand-in for [repr] of a dictionary: it prints the keys. *)
Definition dict_repr (d : gmap string pyval) : string :=
  "{" +:+ String.concat ", " ((map_to_list d).*1) +:+ "}".

Definition RunVaspDirect (vasp_cmd : string) : task :=
  Task "{{matmethods.vasp.firetasks.run_calc.RunVaspDirect}}" {[ "vasp_cmd" := PStr vasp_cmd ]}.

(** A run task that carries no command. *)
Definition RunVaspBare : task :=
  Task "{{matmethods.vasp.firetasks.run_calc.RunVaspDirect}}" ∅.

Definition WriteVaspFromIOSet : task :=
  Task "{{matmethods.vasp.firetasks.write_inputs.WriteVaspFromIOSet}}" ∅.

Definition VaspToDbTask : task :=
  Task "{{matmethods.vasp.firetasks.parse_outputs.VaspToDbTask}}" ∅.

(** [Firework(tasks, name=nm, fw_id=i)] *)
Definition firework (i : Z) (nm : string) (ts : list task) : Firework :=
  mkFirework i nm ts (Spec ts None None ∅).

Definition PassCalcLocs : task :=
  Task "{{matmethods.common.firetasks.glue_tasks.PassCalcLocs}}" ∅.

(** Optimization, then a static run that starts with the run task. *)
Definition wf_relax_static : Workflow :=
  mkWorkflow
    [firework 1 "structure optimization" [WriteVaspFromIOSet; RunVaspDirect "vasp"; VaspToDbTask];
     firework 2 "static" [RunVaspDirect "vasp"; PassCalcLocs; VaspToDbTask]]
    [(1%Z, [2%Z])] "relax and static".

(** One Firework that runs VASP twice. *)
Definition wf_double_run : Workflow :=
  mkWorkflow
    [firework 1 "static" [WriteVaspFromIOSet; RunVaspDirect "vasp"; RunVaspDirect "vasp"]]
    [] "double run".

Definition wf_bare_run : Workflow :=
  mkWorkflow [firework 1 "static" [WriteVaspFromIOSet; RunVaspBare]] [] "bare run".

Definition wf_no_run : Workflow :=
  mkWorkflow [firework 1 "static" [WriteVaspFromIOSet; VaspToDbTask];
              firework 2 "band structure" [RunVaspDirect "vasp"]] [(1%Z, [2%Z])] "no run".

(** What [use_custodian] returns on [wf_relax_static] under the filter
    "static". *)
Definition custodian_static : Workflow :=
  match use_custodian fake_dirs dict_repr wf_relax_static (Some "static") None with
  | Ok wf => wf
  | Raise _ => wf_relax_static
  end.

Definition from_file_ok (job_name input_template_file : string) (lammps_data : pyval)
    (data_filename : string) (user_settings : gmap string pyval) (is_forcefield : bool)
    : result string :=
  if decide (input_template_file = "") then Raise (KeyError "template")
  else Ok (job_name +:+ ":" +:+ input_template_file).

Definition nvt_ok (lammps_data : pyval) (data_filename : string)
    (user_settings : gmap string pyval) (is_forcefield : bool) : result string :=
  Ok ("NVT:" +:+ data_filename).

End Sample.

(** ** Views of a serialized workflow used in the statements *)

(** [wf_dict["fws"][i]["spec"]["_tasks"][j]], when it exists. *)
Definition entry (d : WfDict) (i j : nat) : option task :=
  d_fws d !! i ≫= fun fwd => spec_tasks (d_spec fwd) !! j.

(** The serialized workflow [d] has the Fireworks of [wf], under the
    same names, and a run task in [spec["_tasks"]] exactly at the
    indices where the task list of [wf] has one. *)
Definition follows (dict_repr : gmap string pyval -> string) (wf : Workflow) (d : WfDict)
  : Prop :=
  Forall2 (fun fw fwd =>
             name fw = d_name fwd /\
             is_runvasp_task dict_repr <$> tasks fw
             = is_runvasp_task dict_repr <$> spec_tasks (d_spec fwd))
    (fws wf) (d_fws d).

(** The serialized workflow [d] has the Fireworks of [wf], under the
    same names, and an entry in [spec["_tasks"]] for every index of the
    task list of [wf]. *)
Definition covers (wf : Workflow) (d : WfDict) : Prop :=
  Forall2 (fun fw fwd =>
             name fw = d_name fwd /\
             length (tasks fw) <= length (spec_tasks (d_spec fwd)))
    (fws wf) (d_fws d).

(** No serialized task list is shorter than the task list: every index
    of a task is an index of [spec["_tasks"]].  It holds of the mirrored
    workflows, and still after entries have been inserted into
    [spec["_tasks"]]. *)
Definition tasks_serialized (wf : Workflow) : Prop :=
  Forall (fun fw => length (tasks fw) <= length (spec_tasks (spec fw))) (fws wf).

(** Every entry of [d] is the entry of [d0] or a task that carries a
    "vasp_cmd" parameter, and the Fireworks have the names they have in
    [d0]. *)
Definition entries_kept_or_commanded (d0 d : WfDict) : Prop :=
  d_name <$> d_fws d = d_name <$> d_fws d0 /\
  forall i j, entry d i j = entry d0 i j \/
              exists t, entry d i j = Some t /\ is_Some (params t !! "vasp_cmd").

(** The entry [make_fake_workflow] writes for a job-type label. *)
Definition fake_entry (fake_dirs : list (string * string)) (job_type : string)
  : option task :=
  match items_getitem fake_dirs job_type with
  | Ok fake_dir => Some (RunVaspFake fake_dir)
  | Raise _ => None
  end.

(** The entry [(i, j)] after the assignments for the triples [ps], made
    in their order, when it was [e] before: each triple for [(i, j)]
    overwrites it. *)
Definition final_entry (fake_dirs : list (string * string))
    (ps : list (nat * string * nat)) (i j : nat) (e : option task) : option task :=
  foldl (fun e '(idx_fw, job_type, idx_t) =>
           if decide ((idx_fw, idx_t) = (i, j)) then fake_entry fake_dirs job_type else e)
    e ps.

(** The body of the innermost loop of [make_fake_workflow], for one
    triple of the scan. *)
Definition make_fake_step (fake_dirs : list (string * string)) (d : WfDict)
    (p : nat * string * nat) : result WfDict :=
  let '(idx_fw, job_type, idx_t) := p in
  fake_dir <~ items_getitem fake_dirs job_type ;;
  set_task_entry d idx_fw idx_t (RunVaspFake fake_dir).

(** The Firework rebuilt by [from_dict] after its serialized task list
    has become [ts]. *)
Definition with_tasks (ts : list task) (fw : Firework) : Firework :=
  {| fw_id := fw_id fw; name := name fw; tasks := ts;
     spec := with_spec_tasks ts (spec fw) |}.

(** The settings map after one iteration of the loop of [add_trackers]. *)
Definition extend_trackers (s : fw_spec) : fw_spec :=
  with_spec_trackers (default [] (spec_trackers s) ++ [tracker1; tracker2]) s.

(** ** Views and sample data for the further properties *)

(** The task list after the insertions of [add_modify_incar] for the
    matched task indices [js], in their order. *)
Definition insert_modify_incar (modify_incar_params : gmap string pyval)
    (js : list nat) (ts : list task) : list task :=
  foldl (fun ts idx_t =>
           list_insert_at (Z.of_nat idx_t - 1) (ModifyIncar modify_incar_params) ts)
    ts js.

(** The task indices of the pairs of Firework [idx_fw] in a pair list. *)
Definition task_indices_of (ps : list (nat * nat)) (idx_fw : nat) : list nat :=
  (filter (fun p => p.1 = idx_fw) ps).*2.

Module Cases.

(** A Firework whose name contains both job-type labels. *)
Definition wf_two_labels : Workflow :=
  mkWorkflow
    [Sample.firework 1 "static after structure optimization"
       [Sample.WriteVaspFromIOSet; Sample.RunVaspDirect "vasp"; Sample.VaspToDbTask]]
    [] "two labels".

(** A single Firework with the run task in second place. *)
Definition wf_static : Workflow :=
  mkWorkflow
    [Sample.firework 1 "static"
       [Sample.WriteVaspFromIOSet; Sample.RunVaspDirect "vasp_std"; Sample.VaspToDbTask]]
    [] "static".

(** A single Firework that starts with the run task. *)
Definition wf_run_first : Workflow :=
  mkWorkflow
    [Sample.firework 1 "static"
       [Sample.RunVaspDirect "vasp_std"; Sample.PassCalcLocs; Sample.VaspToDbTask]]
    [] "run first".

Definition incar_params : gmap string pyval :=
  {[ "key_update" := PStr ">>incar_update<<" ]}.

Definition handler_params : gmap string pyval :=
  {[ "handler_lvl" := PInt 2 ]}.

(** What [add_modify_incar] returns for the three sample workflows. *)
Definition modified (wf : Workflow) (F : option string) : Workflow :=
  match add_modify_incar Sample.fake_dirs Sample.dict_repr wf incar_params F with
  | Ok wf' => wf'
  | Raise _ => wf
  end.

(** What [make_fake_workflow] returns for [wf_two_labels]. *)
Definition faked_two_labels : Workflow :=
  match make_fake_workflow Sample.fake_dirs Sample.dict_repr wf_two_labels with
  | Ok wf' => wf'
  | Raise _ => wf_two_labels
  end.

(** [use_custodian] on [wf_static] with a handler level. *)
Definition custodian_handler : Workflow :=
  match use_custodian Sample.fake_dirs Sample.dict_repr wf_static None
          (Some handler_params) with
  | Ok wf' => wf'
  | Raise _ => wf_static
  end.

(** [make_fake_workflow] after it. *)
Definition faked_custodian : Workflow :=
  match make_fake_workflow Sample.fake_dirs Sample.dict_repr custodian_handler with
  | Ok wf' => wf'
  | Raise _ => custodian_handler
  end.

Definition raising_from_file (job_name input_template_file : string) (lammps_data : pyval)
    (data_filename : string) (user_settings : gmap string pyval) (is_forcefield : bool)
    : result string :=
  Raise (KeyError input_template_file).

Definition raising_nvt (lammps_data : pyval) (data_filename : string)
    (user_settings : gmap string pyval) (is_forcefield : bool) : result string :=
  Raise (KeyError data_filename).

End Cases.

(** * Properties *)

(** ** Strings *)

Lemma string_app_cons (c : Ascii.ascii) (a b : string) :
  String c a +:+ b = String c (a +:+ b).
Proof. reflexivity. Qed.

Lemma string_app_nil (b : string) : "" +:+ b = b.
Proof. reflexivity. Qed.

Lemma string_app_assoc (a b c : string) : (a +:+ b) +:+ c = a +:+ b +:+ c.
Proof.
  induction a as [|x a IH]; [done|]. by rewrite !string_app_cons, IH.
Qed.

Lemma prefix_app (s h : string) :
  String.prefix s h = true <-> exists b, h = s +:+ b.
Proof.
  revert h. induction s as [|a s IH]; intros h.
  - split; [intros _; by exists h | intros _; by destruct h].
  - destruct h as [|c h]; simpl.
    + split; [done | by intros [b ?]].
    + destruct (Ascii.ascii_dec a c) as [->|Hne].
      * rewrite IH. split; intros [b Hb]; exists b;
          rewrite string_app_cons in *; congruence.
      * split; [done | intros [b Hb]; rewrite string_app_cons in Hb; congruence].
Qed.

Lemma str_in_app (s h : string) :
  str_in s h = true <-> exists a b, h = a +:+ s +:+ b.
Proof.
  induction h as [|c h IH]; cbn [str_in].
  - rewrite orb_false_r, prefix_app. split.
    + intros [b Hb]. by exists "", b.
    + intros (a & b & Hab). destruct a; [by exists b | done].
  - rewrite orb_true_iff, prefix_app, IH. split.
    + intros [[b Hb] | (a & b & Hab)].
      * by exists "", b.
      * exists (String c a), b. by rewrite string_app_cons, Hab.
    + intros (a & b & Hab). destruct a as [|c' a].
      * left. by exists b.
      * right. exists a, b. rewrite string_app_cons in Hab. congruence.
Qed.

Lemma str_in_app_l (s a b : string) : str_in s a = true -> str_in s (a +:+ b) = true.
Proof.
  rewrite !str_in_app. intros (x & y & ->). exists x, (y +:+ b).
  by rewrite !string_app_assoc.
Qed.

Lemma str_in_app_r (s a b : string) : str_in s b = true -> str_in s (a +:+ b) = true.
Proof.
  rewrite !str_in_app. intros (x & y & ->). exists (a +:+ x), y.
  by rewrite !string_app_assoc.
Qed.

(** ** Loops *)

Lemma foldl_append {A B : Type} (g : list B -> A -> list B) (f : A -> list B)
    (xs : list A) (acc : list B) :
  (forall acc x, g acc x = acc ++ f x) ->
  foldl g acc xs = acc ++ (xs ≫= f).
Proof.
  intros Hg. revert acc. induction xs as [|x xs IH]; intros acc; simpl.
  - by rewrite app_nil_r.
  - rewrite IH, Hg. by rewrite <- app_assoc.
Qed.

Lemma for_each_app {A S : Type} (body : S -> A -> result S) (xs ys : list A) (s : S) :
  for_each body (xs ++ ys) s = (s' <~ for_each body xs s ;; for_each body ys s').
Proof.
  revert s. induction xs as [|x xs IH]; intros s; simpl; [done|].
  destruct (body s x); simpl; [apply IH | done].
Qed.

Lemma for_each_bind {A B S : Type} (body : S -> B -> result S) (g : S -> A -> result S)
    (f : A -> list B) (xs : list A) (s : S) :
  (forall s x, g s x = for_each body (f x) s) ->
  for_each g xs s = for_each body (xs ≫= f) s.
Proof.
  intros Hg. revert s. induction xs as [|x xs IH]; intros s; simpl; [done|].
  rewrite for_each_app, Hg. destruct (for_each body (f x) s); simpl; [apply IH | done].
Qed.

Lemma elem_of_enumerate {A : Type} (xs : list A) (i : nat) (x : A) :
  (i, x) ∈ enumerate xs <-> xs !! i = Some x.
Proof.
  unfold enumerate. rewrite elem_of_lookup_imap. split.
  - intros (j & y & Heq & Hj). by simplify_eq.
  - intros Hi. by exists i, x.
Qed.

Lemma bind_filter {A B : Type} (P : A -> Prop) `{!forall x, Decision (P x)}
    (f : A -> list B) (xs : list A) :
  (xs ≫= fun x => if decide (P x) then f x else []) = filter P xs ≫= f.
Proof.
  induction xs as [|x xs IH]; [done|].
  rewrite filter_cons, bind_cons, IH. by destruct (decide (P x)).
Qed.

Lemma fmap_bind {A B C : Type} (g : B -> C) (f : A -> list B) (xs : list A) :
  g <$> (xs ≫= f) = xs ≫= fun x => g <$> f x.
Proof.
  induction xs as [|x xs IH]; [done|]. by rewrite !bind_cons, fmap_app, IH.
Qed.

Lemma bind_assoc {A B C : Type} (f : A -> list B) (g : B -> list C) (xs : list A) :
  (xs ≫= f) ≫= g = xs ≫= fun x => f x ≫= g.
Proof.
  induction xs as [|x xs IH]; [done|]. by rewrite !bind_cons, bind_app, IH.
Qed.

(** ** The scan *)

Section ScanFacts.

Variable fake_dirs : list (string * string).
Variable dict_repr : gmap string pyval -> string.

Lemma is_runvasp_task_str_in (t : task) :
  is_runvasp_task dict_repr t = str_in "RunVasp" (str_task dict_repr t).
Proof. unfold is_runvasp_task. by destruct (str_in _ _). Qed.

Lemma elem_of_run_indices (ts : list task) (j : nat) :
  j ∈ run_indices dict_repr ts <->
  exists t, ts !! j = Some t /\ is_runvasp_task dict_repr t = true.
Proof.
  unfold run_indices. rewrite list_elem_of_bind. split.
  - intros ([j' t] & Hin & Hjt). apply elem_of_enumerate in Hjt.
    exists t. destruct (is_runvasp_task dict_repr t); [|by apply elem_of_nil in Hin].
    apply list_elem_of_singleton in Hin. by subst.
  - intros (t & Hj & Ht). exists (j, t). rewrite elem_of_enumerate.
    split; [|done]. rewrite Ht. by apply list_elem_of_singleton.
Qed.

Lemma elem_of_matching_labels (nm job_type : string) :
  job_type ∈ matching_labels fake_dirs nm <->
  job_type ∈ fake_dirs.*1 /\ str_in job_type nm = true.
Proof. unfold matching_labels. rewrite list_elem_of_filter. tauto. Qed.

Lemma pairs_scan_pairs (wf : Workflow) :
  get_runvasp_fws_and_tasks fake_dirs dict_repr wf = scan_pairs fake_dirs dict_repr wf.
Proof.
  unfold get_runvasp_fws_and_tasks, scan_pairs, scan_triples.
  rewrite (foldl_append _ (fun '(idx_fw, fw) =>
    matching_labels fake_dirs (name fw) ≫= fun _ =>
      run_indices dict_repr (tasks fw) ≫= fun idx_t => [(idx_fw, idx_t)])).
  - rewrite app_nil_l, fmap_bind. apply list_bind_ext; [|done].
    intros [idx_fw fw]. rewrite fmap_bind. apply list_bind_ext; [|done].
    intros job_type. by rewrite fmap_bind.
  - intros acc [idx_fw fw].
    rewrite (foldl_append _ (fun job_type =>
      if decide (str_in job_type (name fw) = true)
      then run_indices dict_repr (tasks fw) ≫= fun idx_t => [(idx_fw, idx_t)]
      else [])).
    + f_equal. unfold matching_labels. apply bind_filter.
    + intros acc' job_type. destruct (decide _) as [->|Hne].
      * rewrite (foldl_append _ (fun '(idx_t, t) =>
          if is_runvasp_task dict_repr t then [(idx_fw, idx_t)] else [])).
        -- f_equal. unfold run_indices. rewrite bind_assoc.
           apply list_bind_ext; [|done]. intros [idx_t t].
           by destruct (is_runvasp_task dict_repr t).
        -- intros acc'' [idx_t t].
           destruct (is_runvasp_task dict_repr t); [done | by rewrite app_nil_r].
      * apply not_true_is_false in Hne. by rewrite Hne, app_nil_r.
Qed.

Lemma elem_of_scan_triples (wf : Workflow) (i j : nat) (job_type : string) :
  (i, job_type, j) ∈ scan_triples fake_dirs dict_repr wf <->
  exists fw t, fws wf !! i = Some fw /\ tasks fw !! j = Some t /\
    is_runvasp_task dict_repr t = true /\
    job_type ∈ fake_dirs.*1 /\ str_in job_type (name fw) = true.
Proof.
  unfold scan_triples. rewrite list_elem_of_bind. split.
  - intros ([i' fw] & Hin & Hfw). apply elem_of_enumerate in Hfw.
    apply list_elem_of_bind in Hin as (job' & Hin & Hjob).
    apply list_elem_of_bind in Hin as (j' & Hin & Hj).
    apply list_elem_of_singleton in Hin. simplify_eq.
    apply elem_of_matching_labels in Hjob as [? ?].
    apply elem_of_run_indices in Hj as (t & ? & ?). by exists fw, t.
  - intros (fw & t & Hfw & Ht & Hrun & Hjob & Hnm). exists (i, fw).
    rewrite elem_of_enumerate. split; [|done].
    apply list_elem_of_bind. exists job_type.
    rewrite elem_of_matching_labels. split; [|done].
    apply list_elem_of_bind. exists j. rewrite elem_of_run_indices.
    split; [by apply list_elem_of_singleton | by exists t].
Qed.

Lemma elem_of_pairs (wf : Workflow) (i j : nat) :
  (i, j) ∈ get_runvasp_fws_and_tasks fake_dirs dict_repr wf <->
  exists fw t job_type, fws wf !! i = Some fw /\ tasks fw !! j = Some t /\
    is_runvasp_task dict_repr t = true /\
    job_type ∈ fake_dirs.*1 /\ str_in job_type (name fw) = true.
Proof.
  rewrite pairs_scan_pairs. unfold scan_pairs. rewrite list_elem_of_fmap. split.
  - intros ([[i' job_type] j'] & Heq & Hin). simplify_eq.
    apply elem_of_scan_triples in Hin as (fw & t & ?). by exists fw, t, job_type.
  - intros (fw & t & job_type & H). exists (i, job_type, j). split; [done|].
    apply elem_of_scan_triples. by exists fw, t.
Qed.

(** C6: [get_runvasp_fws_and_tasks] is the full scan without
    short-circuiting: its result is the list of all pairs
    (firework-index, task-index), one for every Firework, every job-type
    label contained in the Firework's name and every task whose string
    representation contains "RunVasp", in the order of the scan; a pair
    is in the result exactly when such a Firework, label and task exist. *)
Theorem get_runvasp_fws_and_tasks_full_scan (wf : Workflow) :
  get_runvasp_fws_and_tasks fake_dirs dict_repr wf
  = (enumerate (fws wf) ≫= fun '(idx_fw, fw) =>
       fake_dirs.*1 ≫= fun job_type =>
         if str_in job_type (name fw) then
           enumerate (tasks fw) ≫= fun '(idx_t, t) =>
             if str_in "RunVasp" (str_task dict_repr t) then [(idx_fw, idx_t)] else []
         else [])
  /\ forall i j,
       (i, j) ∈ get_runvasp_fws_and_tasks fake_dirs dict_repr wf <->
       exists fw t job_type, fws wf !! i = Some fw /\ tasks fw !! j = Some t /\
         str_in "RunVasp" (str_task dict_repr t) = true /\
         job_type ∈ fake_dirs.*1 /\ str_in job_type (name fw) = true.
Proof.
  split.
  - rewrite pairs_scan_pairs. unfold scan_pairs, scan_triples.
    rewrite fmap_bind. apply list_bind_ext; [|done]. intros [idx_fw fw].
    rewrite fmap_bind. unfold matching_labels.
    rewrite <- (bind_filter (fun job_type => str_in job_type (name fw) = true)).
    apply list_bind_ext; [|done]. intros job_type.
    destruct (decide _) as [->|Hne]; [|by apply not_true_is_false in Hne; rewrite Hne].
    rewrite fmap_bind. unfold run_indices. rewrite bind_assoc.
    apply list_bind_ext; [|done]. intros [idx_t t].
    rewrite <- is_runvasp_task_str_in.
    by destruct (is_runvasp_task dict_repr t).
  - intros i j. rewrite elem_of_pairs.
    by setoid_rewrite is_runvasp_task_str_in.
Qed.

End ScanFacts.

(** ** Assignment to an entry of the serialized task list *)

Lemma set_task_entry_Ok (d d' : WfDict) (i j : nat) (v : task) :
  set_task_entry d i j v = Ok d' <->
  exists fwd, d_fws d !! i = Some fwd /\ j < length (spec_tasks (d_spec fwd)) /\
    d' = wfd_with_fws
           (<[i := fwd_with_spec (with_spec_tasks (<[j := v]> (spec_tasks (d_spec fwd)))
                                    (d_spec fwd)) fwd]> (d_fws d)) d.
Proof.
  unfold set_task_entry, list_getitem, list_setitem.
  destruct (d_fws d !! i) as [fwd|]; simpl.
  - destruct (decide (j < length (spec_tasks (d_spec fwd)))); simpl; split.
    + intros [= <-]. by exists fwd.
    + intros (? & [= <-] & _ & ->). done.
    + done.
    + intros (? & [= <-] & ? & _). done.
  - split; [done | by intros (? & ? & _)].
Qed.

Lemma set_task_entry_Raise (d : WfDict) (i j : nat) (v : task) (e : exn) :
  set_task_entry d i j v = Raise e -> e = IndexError /\ entry d i j = None.
Proof.
  unfold set_task_entry, list_getitem, list_setitem, entry.
  destruct (d_fws d !! i) as [fwd|]; simpl; [|by intros [= <-]].
  destruct (decide _) as [|Hge]; simpl; [done|]. intros [= <-]. split; [done|].
  apply lookup_ge_None. lia.
Qed.

Lemma set_task_entry_entry (d d' : WfDict) (i j i' j' : nat) (v : task) :
  set_task_entry d i j v = Ok d' ->
  entry d' i' j' = if decide ((i', j') = (i, j)) then Some v else entry d i' j'.
Proof.
  intros (fwd & Hfwd & Hj & ->)%set_task_entry_Ok. unfold entry. simpl.
  destruct (decide (i' = i)) as [->|Hi].
  - rewrite list_lookup_insert_eq by (by eapply lookup_lt_Some). rewrite Hfwd. simpl.
    destruct (decide (j' = j)) as [->|Hj'].
    + rewrite decide_True by done. by rewrite list_lookup_insert_eq.
    + rewrite decide_False by congruence. by rewrite list_lookup_insert_ne.
  - rewrite decide_False by congruence. by rewrite list_lookup_insert_ne.
Qed.

Lemma set_task_entry_names (d d' : WfDict) (i j : nat) (v : task) :
  set_task_entry d i j v = Ok d' -> d_name <$> d_fws d' = d_name <$> d_fws d.
Proof.
  intros (fwd & Hfwd & Hj & ->)%set_task_entry_Ok. simpl.
  rewrite list_fmap_insert. simpl. by apply list_insert_id, list_lookup_fmap_Some_2.
Qed.

Lemma set_task_entry_other (d d' : WfDict) (i j k : nat) (v : task) :
  set_task_entry d i j v = Ok d' -> k <> i -> d_fws d' !! k = d_fws d !! k.
Proof.
  intros (fwd & Hfwd & Hj & ->)%set_task_entry_Ok Hk. simpl.
  by rewrite list_lookup_insert_ne.
Qed.

(** ** Replacement tasks are run tasks again *)

Section RunTasks.

Variable dict_repr : gmap string pyval -> string.

Lemma is_runvasp_task_fw_name (t : task) :
  str_in "RunVasp" (fw_name t) = true -> is_runvasp_task dict_repr t = true.
Proof.
  intros H. rewrite is_runvasp_task_str_in. unfold str_task.
  by apply str_in_app_r, str_in_app_l.
Qed.

Lemma is_runvasp_task_RunVaspCustodian (kwargs : gmap string pyval) :
  is_runvasp_task dict_repr (RunVaspCustodian kwargs) = true.
Proof. apply is_runvasp_task_fw_name. by vm_compute. Qed.

Lemma is_runvasp_task_RunVaspFake (fake_dir : string) :
  is_runvasp_task dict_repr (RunVaspFake fake_dir) = true.
Proof. apply is_runvasp_task_fw_name. by vm_compute. Qed.

End RunTasks.

(** ** Serialized workflows that follow a workflow *)

Section Follows.

Variable fake_dirs : list (string * string).
Variable dict_repr : gmap string pyval -> string.

Lemma follows_to_dict (wf : Workflow) :
  wf_mirrored wf -> follows dict_repr wf (to_dict wf).
Proof.
  unfold wf_mirrored, follows, to_dict. simpl. intros H.
  apply Forall2_fmap_r, Forall_Forall2_diag.
  eapply Forall_impl; [exact H|]. intros fw Hfw. simpl. by rewrite Hfw.
Qed.

Lemma follows_lookup (wf : Workflow) (d : WfDict) (i : nat) (fw : Firework) :
  follows dict_repr wf d -> fws wf !! i = Some fw ->
  exists fwd, d_fws d !! i = Some fwd /\ name fw = d_name fwd /\
    is_runvasp_task dict_repr <$> tasks fw
    = is_runvasp_task dict_repr <$> spec_tasks (d_spec fwd).
Proof.
  intros H Hi. destruct (Forall2_lookup_l _ _ _ _ _ H Hi) as (fwd & ? & ? & ?).
  by exists fwd.
Qed.

Lemma follows_pair (wf : Workflow) (d : WfDict) (i j : nat) :
  follows dict_repr wf d ->
  (i, j) ∈ get_runvasp_fws_and_tasks fake_dirs dict_repr wf ->
  exists fw fwd t, fws wf !! i = Some fw /\ d_fws d !! i = Some fwd /\
    name fw = d_name fwd /\
    spec_tasks (d_spec fwd) !! j = Some t /\ is_runvasp_task dict_repr t = true.
Proof.
  intros H (fw & t & job & Hfw & Ht & Hrun & _)%elem_of_pairs.
  destruct (follows_lookup _ _ _ _ H Hfw) as (fwd & Hfwd & Hnm & Hmap).
  assert ((is_runvasp_task dict_repr <$> spec_tasks (d_spec fwd)) !! j = Some true)
    as Hj by (by rewrite <- Hmap, list_lookup_fmap, Ht; simpl; rewrite Hrun).
  rewrite list_lookup_fmap in Hj.
  destruct (spec_tasks (d_spec fwd) !! j) as [t'|] eqn:Ht'; [|done].
  simpl in Hj. exists fw, fwd, t'. by simplify_eq.
Qed.

Lemma follows_set_task_entry (wf : Workflow) (d d' : WfDict) (i j : nat) (t v : task) :
  follows dict_repr wf d ->
  entry d i j = Some t -> is_runvasp_task dict_repr t = true ->
  is_runvasp_task dict_repr v = true ->
  set_task_entry d i j v = Ok d' ->
  follows dict_repr wf d'.
Proof.
  unfold follows, entry.
  intros H He Ht Hv (fwd & Hfwd & Hj & ->)%set_task_entry_Ok. simpl.
  rewrite Hfwd in He. simpl in He.
  destruct (Forall2_lookup_r _ _ _ _ _ H Hfwd) as (fw & Hfw & Hnm & Hmap).
  rewrite <- (list_insert_id (fws wf) i fw) by done.
  apply Forall2_insert; [done|]. simpl. split; [done|].
  rewrite list_fmap_insert, Hv, Hmap. symmetry. apply list_insert_id.
  by rewrite list_lookup_fmap, He; simpl; rewrite Ht.
Qed.

End Follows.

(** ** Serialized workflows that cover a workflow *)

Section Covers.

Variable fake_dirs : list (string * string).
Variable dict_repr : gmap string pyval -> string.

Lemma wf_mirrored_tasks_serialized (wf : Workflow) :
  wf_mirrored wf -> tasks_serialized wf.
Proof.
  unfold wf_mirrored, tasks_serialized. intros H.
  eapply Forall_impl; [exact H|]. intros fw Hfw. by rewrite Hfw.
Qed.

Lemma covers_to_dict (wf : Workflow) :
  tasks_serialized wf -> covers wf (to_dict wf).
Proof.
  unfold tasks_serialized, covers, to_dict. simpl. intros H.
  apply Forall2_fmap_r, Forall_Forall2_diag.
  eapply Forall_impl; [exact H|]. by intros fw Hfw.
Qed.

Lemma covers_pair (wf : Workflow) (d : WfDict) (i j : nat) :
  covers wf d ->
  (i, j) ∈ get_runvasp_fws_and_tasks fake_dirs dict_repr wf ->
  exists fw fwd t, fws wf !! i = Some fw /\ d_fws d !! i = Some fwd /\
    name fw = d_name fwd /\ spec_tasks (d_spec fwd) !! j = Some t.
Proof.
  intros H (fw & t & job & Hfw & Ht & _)%elem_of_pairs.
  destruct (Forall2_lookup_l _ _ _ _ _ H Hfw) as (fwd & Hfwd & Hnm & Hlen).
  apply lookup_lt_Some in Ht.
  destruct (lookup_lt_is_Some_2 (spec_tasks (d_spec fwd)) j) as [t' Ht']; [lia|].
  by exists fw, fwd, t'.
Qed.

Lemma covers_set_task_entry (wf : Workflow) (d d' : WfDict) (i j : nat) (v : task) :
  covers wf d -> set_task_entry d i j v = Ok d' -> covers wf d'.
Proof.
  unfold covers. intros H (fwd & Hfwd & Hj & ->)%set_task_entry_Ok. simpl.
  destruct (Forall2_lookup_r _ _ _ _ _ H Hfwd) as (fw & Hfw & Hnm & Hlen).
  rewrite <- (list_insert_id (fws wf) i fw) by done.
  apply Forall2_insert; [done|]. simpl. split; [done|]. by rewrite length_insert.
Qed.

End Covers.

(** ** use_custodian *)

Section Custodian.

Variable fake_dirs : list (string * string).
Variable dict_repr : gmap string pyval -> string.

(** One iteration, once the assigned entry is known to exist. *)
Lemma use_custodian_step_eq (F : option string) (cp : gmap string pyval)
    (d : WfDict) (i j : nat) (fwd : FwDict) (t : task) :
  d_fws d !! i = Some fwd -> spec_tasks (d_spec fwd) !! j = Some t ->
  use_custodian_step F cp d (i, j) =
    if passes_filter F (d_name fwd) then
      if dict_contains "vasp_cmd" cp then
        set_task_entry d i j (RunVaspCustodian cp)
      else
        match params t !! "vasp_cmd" with
        | Some c => set_task_entry d i j (RunVaspCustodian (<["vasp_cmd" := c]> cp))
        | None => Raise (KeyError "vasp_cmd")
        end
    else Ok d.
Proof.
  intros Hfwd Ht. unfold use_custodian_step, passes_filter, list_getitem, dict_getitem.
  rewrite Hfwd. destruct F as [f|]; simpl.
  - destruct (str_in f (d_name fwd)); [|done].
    destruct (dict_contains "vasp_cmd" cp); [done|].
    rewrite Ht. simpl. by destruct (params t !! "vasp_cmd").
  - destruct (dict_contains "vasp_cmd" cp); [done|].
    rewrite Ht. simpl. by destruct (params t !! "vasp_cmd").
Qed.

Lemma set_task_entry_total (d : WfDict) (i j : nat) (v : task) (fwd : FwDict) (t : task) :
  d_fws d !! i = Some fwd -> spec_tasks (d_spec fwd) !! j = Some t ->
  exists d', set_task_entry d i j v = Ok d'.
Proof.
  intros Hfwd Ht. eexists. apply set_task_entry_Ok. exists fwd.
  split; [done|]. split; [by eapply lookup_lt_Some | done].
Qed.

(** What an iteration that returns leaves unchanged. *)
Lemma use_custodian_step_frame (F : option string) (cp : gmap string pyval)
    (d d' : WfDict) (p : nat * nat) :
  use_custodian_step F cp d p = Ok d' ->
  d_name <$> d_fws d' = d_name <$> d_fws d /\
  forall k fwd, d_fws d !! k = Some fwd -> passes_filter F (d_name fwd) = false ->
    d_fws d' !! k = Some fwd.
Proof.
  destruct p as [i j]. unfold use_custodian_step, list_getitem, dict_getitem.
  assert (forall v, set_task_entry d i j v = Ok d' ->
            forall fwd0, d_fws d !! i = Some fwd0 -> passes_filter F (d_name fwd0) = true ->
            d_name <$> d_fws d' = d_name <$> d_fws d /\
            forall k fwd, d_fws d !! k = Some fwd -> passes_filter F (d_name fwd) = false ->
              d_fws d' !! k = Some fwd) as Hset.
  { intros v Hv fwd0 Hfwd0 Hpass. split; [by eapply set_task_entry_names|].
    intros k fwd Hk Hno. destruct (decide (k = i)) as [->|Hne].
    - congruence.
    - by rewrite (set_task_entry_other _ _ _ _ _ _ Hv Hne). }
  destruct F as [f|]; simpl.
  - destruct (d_fws d !! i) as [fwd0|] eqn:Hfwd0; simpl; [|done].
    destruct (str_in f (d_name fwd0)) eqn:Hf; [|by intros [= <-]].
    destruct (dict_contains "vasp_cmd" cp).
    + intros Hv. by eapply Hset.
    + destruct (spec_tasks (d_spec fwd0) !! j) as [t|]; simpl; [|done].
      destruct (params t !! "vasp_cmd"); simpl; [|done].
      intros Hv. by eapply Hset.
  - destruct (dict_contains "vasp_cmd" cp).
    + intros Hv. split; [by eapply set_task_entry_names | done].
    + destruct (d_fws d !! i) as [fwd0|] eqn:Hfwd0; simpl; [|done].
      destruct (spec_tasks (d_spec fwd0) !! j) as [t|]; simpl; [|done].
      destruct (params t !! "vasp_cmd"); simpl; [|done].
      intros Hv. split; [by eapply set_task_entry_names | done].
Qed.

Lemma use_custodian_loop_frame (F : option string) (cp : gmap string pyval)
    (ps : list (nat * nat)) (d d' : WfDict) :
  for_each (use_custodian_step F cp) ps d = Ok d' ->
  d_name <$> d_fws d' = d_name <$> d_fws d /\
  forall k fwd, d_fws d !! k = Some fwd -> passes_filter F (d_name fwd) = false ->
    d_fws d' !! k = Some fwd.
Proof.
  revert d. induction ps as [|p ps IH]; intros d; simpl.
  - by intros [= <-].
  - destruct (use_custodian_step F cp d p) as [d1|] eqn:Hstep; simpl; [|done].
    intros Hloop. destruct (use_custodian_step_frame _ _ _ _ _ Hstep) as [Hn1 Hf1].
    destruct (IH _ Hloop) as [Hn2 Hf2]. split; [congruence|].
    intros k fwd Hk Hno. apply Hf2; [|done]. by apply Hf1.
Qed.

Lemma from_dict_to_dict_fws (d : WfDict) :
  fw_to_dict <$> fws (from_dict d) = d_fws d.
Proof.
  unfold from_dict. simpl. rewrite <- list_fmap_compose.
  rewrite <- (list_fmap_id (d_fws d)) at 2. apply list_fmap_ext.
  by intros _ [? ? ?] _.
Qed.

(** C5: with a filter substring [F], [use_custodian] leaves the
    serialized form of a Firework whose name does not contain [F] as it
    is: the workflow it returns is the deserialization of a mapping that
    has, at the index of that Firework, exactly the serialized Firework
    of the input, so the Firework of the returned workflow is the one the
    serialization round trip alone makes of the input Firework; the
    number of Fireworks is that of the input. *)
Theorem use_custodian_filter_frame (wf wf' : Workflow) (F : string)
    (cp : option (gmap string pyval)) (i : nat) (fw : Firework) :
  use_custodian fake_dirs dict_repr wf (Some F) cp = Ok wf' ->
  fws wf !! i = Some fw ->
  str_in F (name fw) = false ->
  (exists d', wf' = from_dict d' /\
     d_fws d' !! i = Some (fw_to_dict fw) /\
     length (d_fws d') = length (d_fws (to_dict wf))) /\
  fws wf' !! i = fws (from_dict (to_dict wf)) !! i /\
  length (fws wf') = length (fws (from_dict (to_dict wf))).
Proof.
  unfold use_custodian. intros Huse Hfw HF.
  destruct (for_each _ _ _) as [d'|] eqn:Hloop; simpl in Huse; [|done].
  injection Huse as <-.
  apply use_custodian_loop_frame in Hloop as [Hnames Hframe].
  assert (d_fws d' !! i = Some (fw_to_dict fw)) as Hi.
  { apply Hframe; [|done]. unfold to_dict. simpl. by rewrite list_lookup_fmap, Hfw. }
  assert (length (d_fws d') = length (d_fws (to_dict wf))) as Hlen
    by (by rewrite <- (length_fmap d_name), Hnames, length_fmap).
  split; [by exists d'|]. unfold from_dict, to_dict in *. simpl in *. split.
  - by rewrite !list_lookup_fmap, Hi, Hfw.
  - by rewrite !length_fmap in *.
Qed.

Lemma use_custodian_step_follows (wf : Workflow) (F : option string)
    (cp : gmap string pyval) (d d' : WfDict) (i j : nat) :
  follows dict_repr wf d ->
  (i, j) ∈ get_runvasp_fws_and_tasks fake_dirs dict_repr wf ->
  use_custodian_step F cp d (i, j) = Ok d' ->
  follows dict_repr wf d'.
Proof.
  intros Hfol Hin. destruct (follows_pair _ _ _ _ _ _ Hfol Hin)
    as (fw & fwd & t & Hfw & Hfwd & Hnm & Ht & Hrun).
  rewrite (use_custodian_step_eq _ _ _ _ _ _ _ Hfwd Ht).
  assert (entry d i j = Some t) as He by (unfold entry; by rewrite Hfwd).
  destruct (passes_filter F (d_name fwd)); [|by intros [= <-]].
  destruct (dict_contains "vasp_cmd" cp).
  - eapply follows_set_task_entry; eauto using is_runvasp_task_RunVaspCustodian.
  - destruct (params t !! "vasp_cmd"); [|done].
    eapply follows_set_task_entry; eauto using is_runvasp_task_RunVaspCustodian.
Qed.

Lemma use_custodian_step_cases (F : option string) (cp : gmap string pyval)
    (d d' : WfDict) (i j : nat) :
  use_custodian_step F cp d (i, j) = Ok d' ->
  d' = d \/ exists v, set_task_entry d i j v = Ok d'.
Proof.
  unfold use_custodian_step, list_getitem, dict_getitem.
  assert ((if dict_contains "vasp_cmd" cp
           then set_task_entry d i j (RunVaspCustodian cp)
           else fwd <~ match d_fws d !! i with
                       | Some x => Ok x
                       | None => Raise IndexError
                       end;;
                t <~ match spec_tasks (d_spec fwd) !! j with
                     | Some x => Ok x
                     | None => Raise IndexError
                     end;;
                vasp_cmd <~ match params t !! "vasp_cmd" with
                            | Some v => Ok v
                            | None => Raise (KeyError "vasp_cmd")
                            end;;
                set_task_entry d i j (RunVaspCustodian (<["vasp_cmd" := vasp_cmd]> cp)))
          = Ok d' -> d' = d \/ exists v, set_task_entry d i j v = Ok d') as Hmod.
  { destruct (dict_contains "vasp_cmd" cp); [by right; eexists|].
    destruct (d_fws d !! i) as [fwd|]; simpl; [|done].
    destruct (spec_tasks (d_spec fwd) !! j) as [t|]; simpl; [|done].
    destruct (params t !! "vasp_cmd"); simpl; [|done]. by right; eexists. }
  destruct F as [f|]; simpl; [|done].
  destruct (d_fws d !! i) as [fwd|] eqn:Hfwd; simpl; [|done].
  destruct (str_in f (d_name fwd)); [|intros [= <-]; by left].
  exact Hmod.
Qed.

Lemma use_custodian_step_covers (wf : Workflow) (F : option string)
    (cp : gmap string pyval) (d d' : WfDict) (i j : nat) :
  covers wf d -> use_custodian_step F cp d (i, j) = Ok d' -> covers wf d'.
Proof.
  intros Hcov [->|[v Hv]]%use_custodian_step_cases; [done|].
  by eapply covers_set_task_entry.
Qed.

Lemma use_custodian_step_Raise (wf : Workflow) (F : option string)
    (cp : gmap string pyval) (d : WfDict) (i j : nat) (e : exn) :
  covers wf d ->
  (i, j) ∈ get_runvasp_fws_and_tasks fake_dirs dict_repr wf ->
  use_custodian_step F cp d (i, j) = Raise e ->
  e = KeyError "vasp_cmd" /\ dict_contains "vasp_cmd" cp = false.
Proof.
  intros Hfol Hin. destruct (covers_pair fake_dirs dict_repr _ _ _ _ Hfol Hin)
    as (fw & fwd & t & Hfw & Hfwd & Hnm & Ht).
  rewrite (use_custodian_step_eq _ _ _ _ _ _ _ Hfwd Ht).
  destruct (passes_filter F (d_name fwd)); [|done].
  destruct (dict_contains "vasp_cmd" cp).
  - destruct (set_task_entry_total d i j (RunVaspCustodian cp) _ _ Hfwd Ht) as [d' ->].
    done.
  - destruct (params t !! "vasp_cmd") as [c|]; [|by intros [= <-]].
    destruct (set_task_entry_total d i j
                (RunVaspCustodian (<["vasp_cmd" := c]> cp)) _ _ Hfwd Ht) as [d' ->].
    done.
Qed.

Lemma use_custodian_loop_follows (wf : Workflow) (F : option string)
    (cp : gmap string pyval) (ps : list (nat * nat)) (d d' : WfDict) :
  follows dict_repr wf d ->
  Forall (.∈ get_runvasp_fws_and_tasks fake_dirs dict_repr wf) ps ->
  for_each (use_custodian_step F cp) ps d = Ok d' ->
  follows dict_repr wf d'.
Proof.
  revert d. induction ps as [|[i j] ps IH]; intros d Hfol Hsub; cbn [for_each].
  - by intros [= <-].
  - destruct (use_custodian_step F cp d (i, j)) as [d1|] eqn:Hstep; simpl; [|done].
    apply Forall_cons in Hsub as [Hij Hsub]. apply IH; [|done].
    by eapply use_custodian_step_follows.
Qed.

(** With a command among the parameters every iteration returns. *)
Lemma use_custodian_loop_total (wf : Workflow) (F : option string)
    (cp : gmap string pyval) (ps : list (nat * nat)) (d : WfDict) :
  dict_contains "vasp_cmd" cp = true ->
  covers wf d ->
  Forall (.∈ get_runvasp_fws_and_tasks fake_dirs dict_repr wf) ps ->
  exists d', for_each (use_custodian_step F cp) ps d = Ok d'.
Proof.
  intros Hcp. revert d. induction ps as [|[i j] ps IH]; intros d Hfol Hsub; cbn [for_each].
  - by eexists.
  - apply Forall_cons in Hsub as [Hij Hsub].
    destruct (use_custodian_step F cp d (i, j)) as [d1|e] eqn:Hstep; simpl.
    + apply IH; [|done]. by eapply use_custodian_step_covers.
    + destruct (use_custodian_step_Raise _ _ _ _ _ _ _ Hfol Hij Hstep). congruence.
Qed.

(** A matched entry without a command, in a Firework that passes the
    filter, stops the loop with the lookup error. *)
Lemma use_custodian_loop_KeyError (wf : Workflow) (F : option string)
    (cp : gmap string pyval) (ps : list (nat * nat)) (d : WfDict)
    (i0 j0 : nat) (fwd0 : FwDict) (t0 : task) :
  dict_contains "vasp_cmd" cp = false ->
  covers wf d ->
  Forall (.∈ get_runvasp_fws_and_tasks fake_dirs dict_repr wf) ps ->
  (i0, j0) ∈ ps ->
  d_fws d !! i0 = Some fwd0 -> passes_filter F (d_name fwd0) = true ->
  spec_tasks (d_spec fwd0) !! j0 = Some t0 -> params t0 !! "vasp_cmd" = None ->
  for_each (use_custodian_step F cp) ps d = Raise (KeyError "vasp_cmd").
Proof.
  intros Hcp. revert d fwd0.
  induction ps as [|[i j] ps IH]; intros d fwd0 Hfol Hsub Hel Hfwd0 Hpass Ht0 Hbare.
  - by apply elem_of_nil in Hel.
  - cbn [for_each]. destruct (decide ((i, j) = (i0, j0))) as [Heq|Hne].
    + simplify_eq. rewrite (use_custodian_step_eq _ _ _ _ _ _ _ Hfwd0 Ht0).
      by rewrite Hpass, Hcp, Hbare.
    + apply Forall_cons in Hsub as [Hij Hsub].
      apply elem_of_cons in Hel as [?|Hel]; [congruence|].
      destruct (use_custodian_step F cp d (i, j)) as [d1|e] eqn:Hstep; simpl.
      * assert (exists fwd1, d_fws d1 !! i0 = Some fwd1 /\
                  d_name fwd1 = d_name fwd0 /\
                  spec_tasks (d_spec fwd1) !! j0 = Some t0) as (fwd1 & H1 & Hn1 & Ht1).
        { destruct (covers_pair fake_dirs dict_repr _ _ _ _ Hfol Hij)
            as (fw & fwd & t & Hfw & Hfwd & Hnm & Ht).
          rewrite (use_custodian_step_eq _ _ _ _ _ _ _ Hfwd Ht) in Hstep.
          assert (forall v, set_task_entry d i j v = Ok d1 ->
                    exists fwd1, d_fws d1 !! i0 = Some fwd1 /\
                      d_name fwd1 = d_name fwd0 /\
                      spec_tasks (d_spec fwd1) !! j0 = Some t0) as Hset.
          { intros v Hv. pose proof (set_task_entry_entry _ _ _ _ i0 j0 _ Hv) as He.
            rewrite decide_False in He by congruence.
            pose proof (set_task_entry_names _ _ _ _ _ Hv) as Hnames.
            assert ((d_name <$> d_fws d1) !! i0 = Some (d_name fwd0)) as Hn
              by (by rewrite Hnames, list_lookup_fmap, Hfwd0).
            rewrite list_lookup_fmap in Hn.
            destruct (d_fws d1 !! i0) as [fwd1|] eqn:H1; [|done].
            exists fwd1. split; [done|]. split; [by simplify_eq/=|].
            unfold entry in He. rewrite H1, Hfwd0 in He. simpl in He. congruence. }
          destruct (passes_filter F (d_name fwd)).
          - destruct (dict_contains "vasp_cmd" cp); [by eapply Hset|].
            destruct (params t !! "vasp_cmd"); [by eapply Hset | done].
          - injection Hstep as <-. by exists fwd0. }
        eapply IH; eauto.
        -- by eapply use_custodian_step_covers.
        -- congruence.
      * destruct (use_custodian_step_Raise _ _ _ _ _ _ _ Hfol Hij Hstep) as [-> _].
        done.
Qed.

Lemma names_lookup (l l' : list FwDict) (i : nat) (x : FwDict) :
  d_name <$> l' = d_name <$> l -> l !! i = Some x ->
  exists y, l' !! i = Some y /\ d_name y = d_name x.
Proof.
  intros Hn Hi.
  assert ((d_name <$> l') !! i = Some (d_name x)) as H
    by (by rewrite Hn, list_lookup_fmap, Hi).
  rewrite list_lookup_fmap in H. destruct (l' !! i) as [y|]; [|done].
  exists y. by simplify_eq/=.
Qed.

Lemma use_custodian_step_cmd (F : option string) (cp : gmap string pyval)
    (d d1 : WfDict) (i j : nat) :
  dict_contains "vasp_cmd" cp = true ->
  use_custodian_step F cp d (i, j) = Ok d1 ->
  d1 = d \/ set_task_entry d i j (RunVaspCustodian cp) = Ok d1.
Proof.
  intros Hcp. unfold use_custodian_step. rewrite Hcp.
  destruct F as [f|]; simpl; [|by right].
  destruct (list_getitem (d_fws d) i) as [fwd|]; simpl; [|done].
  destruct (str_in f (d_name fwd)); [by right | intros [= <-]; by left].
Qed.

Lemma use_custodian_loop_keeps (F : option string) (cp : gmap string pyval)
    (ps : list (nat * nat)) (d d' : WfDict) (i0 j0 : nat) :
  dict_contains "vasp_cmd" cp = true ->
  for_each (use_custodian_step F cp) ps d = Ok d' ->
  entry d i0 j0 = Some (RunVaspCustodian cp) ->
  entry d' i0 j0 = Some (RunVaspCustodian cp).
Proof.
  intros Hcp. revert d. induction ps as [|[i j] ps IH]; intros d; cbn [for_each].
  - by intros [= <-].
  - destruct (use_custodian_step F cp d (i, j)) as [d1|] eqn:Hstep; simpl; [|done].
    intros Hloop He. apply (IH _ Hloop).
    destruct (use_custodian_step_cmd _ _ _ _ _ _ Hcp Hstep) as [->|Hset]; [done|].
    rewrite (set_task_entry_entry _ _ _ _ i0 j0 _ Hset). by destruct (decide _).
Qed.

Lemma use_custodian_loop_sets (wf : Workflow) (F : option string)
    (cp : gmap string pyval) (ps : list (nat * nat)) (d d' : WfDict)
    (i0 j0 : nat) (fwd0 : FwDict) :
  dict_contains "vasp_cmd" cp = true ->
  covers wf d ->
  Forall (.∈ get_runvasp_fws_and_tasks fake_dirs dict_repr wf) ps ->
  for_each (use_custodian_step F cp) ps d = Ok d' ->
  (i0, j0) ∈ ps ->
  d_fws d !! i0 = Some fwd0 -> passes_filter F (d_name fwd0) = true ->
  entry d' i0 j0 = Some (RunVaspCustodian cp).
Proof.
  intros Hcp. revert d fwd0.
  induction ps as [|[i j] ps IH]; intros d fwd0 Hfol Hsub Hloop Hel Hfwd0 Hpass.
  - by apply elem_of_nil in Hel.
  - cbn [for_each] in Hloop. apply Forall_cons in Hsub as [Hij Hsub].
    destruct (use_custodian_step F cp d (i, j)) as [d1|] eqn:Hstep; simpl in Hloop;
      [|done].
    destruct (decide ((i, j) = (i0, j0))) as [Heq|Hne].
    + simplify_eq. apply (use_custodian_loop_keeps _ _ _ _ _ _ _ Hcp Hloop).
      destruct (covers_pair fake_dirs dict_repr _ _ _ _ Hfol Hij)
        as (fw & fwd & t & Hfw & Hfwd & Hnm & Ht).
      rewrite (use_custodian_step_eq _ _ _ _ _ _ _ Hfwd Ht) in Hstep.
      simplify_eq. rewrite Hpass, Hcp in Hstep.
      rewrite (set_task_entry_entry _ _ _ _ i0 j0 _ Hstep). by rewrite decide_True.
    + apply elem_of_cons in Hel as [?|Hel]; [congruence|].
      destruct (use_custodian_step_frame _ _ _ _ _ Hstep) as [Hnames _].
      destruct (names_lookup _ _ _ _ Hnames Hfwd0) as (fwd1 & H1 & Hn1).
      apply (IH d1 fwd1); [by eapply use_custodian_step_covers|done..|congruence].
Qed.

(** C7: on a workflow whose serialized task lists have an entry for
    every task, as they do when they mirror the task lists,
    [use_custodian] without a "vasp_cmd" among the custodian
    parameters raises the lookup error [KeyError "vasp_cmd"] as soon as
    some matched task of a Firework that passes the name filter has no
    "vasp_cmd" parameter; with a "vasp_cmd" among the custodian
    parameters it returns a workflow, whatever the matched tasks carry,
    and every matched entry of a Firework that passes the filter is the
    custodian task built from the custodian parameters alone. *)
Theorem use_custodian_vasp_cmd (wf : Workflow) (F : option string)
    (cp : option (gmap string pyval)) :
  tasks_serialized wf ->
  (dict_contains "vasp_cmd" (default ∅ cp) = false ->
   forall i j fw t,
     (i, j) ∈ get_runvasp_fws_and_tasks fake_dirs dict_repr wf ->
     fws wf !! i = Some fw -> passes_filter F (name fw) = true ->
     spec_tasks (spec fw) !! j = Some t -> params t !! "vasp_cmd" = None ->
     use_custodian fake_dirs dict_repr wf F cp = Raise (KeyError "vasp_cmd"))
  /\
  (dict_contains "vasp_cmd" (default ∅ cp) = true ->
   exists wf',
     use_custodian fake_dirs dict_repr wf F cp = Ok wf' /\
     forall i j fw,
       (i, j) ∈ get_runvasp_fws_and_tasks fake_dirs dict_repr wf ->
       fws wf !! i = Some fw -> passes_filter F (name fw) = true ->
       entry (to_dict wf') i j = Some (RunVaspCustodian (default ∅ cp))).
Proof.
  intros Hser. pose proof (covers_to_dict wf Hser) as Hfol.
  assert (Forall (.∈ get_runvasp_fws_and_tasks fake_dirs dict_repr wf)
            (get_runvasp_fws_and_tasks fake_dirs dict_repr wf)) as Hall
    by (by apply Forall_forall).
  unfold use_custodian.
  change (match cp with Some p => p | None => ∅ end) with (default ∅ cp).
  split.
  - intros Hcp i j fw t Hij Hfw Hpass Ht Hbare.
    rewrite (use_custodian_loop_KeyError wf F (default ∅ cp) _ (to_dict wf)
               i j (fw_to_dict fw) t); try done.
    unfold to_dict. simpl. by rewrite list_lookup_fmap, Hfw.
  - intros Hcp.
    destruct (use_custodian_loop_total wf F _ _ _ Hcp Hfol Hall) as [d' Hloop].
    rewrite Hloop. simpl. eexists. split; [done|].
    intros i j fw Hij Hfw Hpass. unfold entry.
    change (d_fws (to_dict (from_dict d'))) with (fw_to_dict <$> fws (from_dict d')).
    rewrite from_dict_to_dict_fws.
    apply (use_custodian_loop_sets wf F (default ∅ cp)
             (get_runvasp_fws_and_tasks fake_dirs dict_repr wf) (to_dict wf) d'
             i j (fw_to_dict fw)); try done.
    unfold to_dict. simpl. by rewrite list_lookup_fmap, Hfw.
Qed.

Lemma use_custodian_step_custodian (F : option string) (cp : gmap string pyval)
    (d d' : WfDict) (i j : nat) :
  use_custodian_step F cp d (i, j) = Ok d' ->
  d' = d \/ exists kw, set_task_entry d i j (RunVaspCustodian kw) = Ok d'.
Proof.
  unfold use_custodian_step, list_getitem, dict_getitem.
  destruct F as [f|]; simpl.
  - destruct (d_fws d !! i) as [fwd|] eqn:Hfwd; simpl; [|done].
    destruct (str_in f (d_name fwd)); [|intros [= <-]; by left].
    destruct (dict_contains "vasp_cmd" cp); [by right; eexists|]. simpl.
    destruct (spec_tasks (d_spec fwd) !! j) as [t|]; simpl; [|done].
    destruct (params t !! "vasp_cmd"); simpl; [|done]. by right; eexists.
  - destruct (dict_contains "vasp_cmd" cp); [by right; eexists|].
    destruct (d_fws d !! i) as [fwd|] eqn:Hfwd; simpl; [|done].
    destruct (spec_tasks (d_spec fwd) !! j) as [t|]; simpl; [|done].
    destruct (params t !! "vasp_cmd"); simpl; [|done]. by right; eexists.
Qed.

(** A step for a Firework that passes the filter, when it returns, has
    written a custodian task. *)
Lemma use_custodian_step_passes (F : option string) (cp : gmap string pyval)
    (d d1 : WfDict) (i j : nat) (fwd : FwDict) :
  use_custodian_step F cp d (i, j) = Ok d1 ->
  d_fws d !! i = Some fwd -> passes_filter F (d_name fwd) = true ->
  exists kw, set_task_entry d i j (RunVaspCustodian kw) = Ok d1.
Proof.
  intros Hstep Hfwd Hpass. revert Hstep.
  unfold use_custodian_step, list_getitem, dict_getitem, passes_filter in *.
  rewrite Hfwd. destruct F as [f|]; simpl.
  - rewrite Hpass. destruct (dict_contains "vasp_cmd" cp); [by eexists|].
    destruct (spec_tasks (d_spec fwd) !! j) as [t|]; simpl; [|done].
    destruct (params t !! "vasp_cmd"); simpl; [|done]. by eexists.
  - destruct (dict_contains "vasp_cmd" cp); [by eexists|].
    destruct (spec_tasks (d_spec fwd) !! j) as [t|]; simpl; [|done].
    destruct (params t !! "vasp_cmd"); simpl; [|done]. by eexists.
Qed.

Lemma use_custodian_loop_stays_custodian (F : option string) (cp : gmap string pyval)
    (ps : list (nat * nat)) (d d' : WfDict) (i j : nat) :
  for_each (use_custodian_step F cp) ps d = Ok d' ->
  (exists kw, entry d i j = Some (RunVaspCustodian kw)) ->
  exists kw, entry d' i j = Some (RunVaspCustodian kw).
Proof.
  revert d. induction ps as [|[i' j'] ps IH]; intros d; cbn [for_each].
  - by intros [= <-].
  - destruct (use_custodian_step F cp d (i', j')) as [d1|] eqn:Hstep; simpl; [|done].
    intros Hloop [kw He]. apply (IH _ Hloop).
    destruct (use_custodian_step_custodian _ _ _ _ _ _ Hstep) as [->|[kw' Hset]];
      [by exists kw|].
    rewrite (set_task_entry_entry _ _ _ _ i j _ Hset).
    destruct (decide ((i, j) = (i', j'))); [by exists kw' | by exists kw].
Qed.

Lemma use_custodian_loop_writes (F : option string) (cp : gmap string pyval)
    (ps : list (nat * nat)) (d d' : WfDict) (i j : nat) (fwd : FwDict) :
  for_each (use_custodian_step F cp) ps d = Ok d' ->
  (i, j) ∈ ps ->
  d_fws d !! i = Some fwd -> passes_filter F (d_name fwd) = true ->
  exists kw, entry d' i j = Some (RunVaspCustodian kw).
Proof.
  revert d fwd. induction ps as [|[i' j'] ps IH]; intros d fwd Hloop Hel Hfwd Hpass.
  - by apply elem_of_nil in Hel.
  - cbn [for_each] in Hloop.
    destruct (use_custodian_step F cp d (i', j')) as [d1|] eqn:Hstep; simpl in Hloop;
      [|done].
    destruct (decide ((i', j') = (i, j))) as [Heq|Hne].
    + simplify_eq. apply (use_custodian_loop_stays_custodian _ _ _ _ _ _ _ Hloop).
      destruct (use_custodian_step_passes _ _ _ _ _ _ _ Hstep Hfwd Hpass) as [kw Hset].
      exists kw. rewrite (set_task_entry_entry _ _ _ _ i j _ Hset). by rewrite decide_True.
    + apply elem_of_cons in Hel as [?|Hel]; [congruence|].
      destruct (use_custodian_step_frame _ _ _ _ _ Hstep) as [Hnames _].
      destruct (names_lookup _ _ _ _ Hnames Hfwd) as (fwd1 & H1 & Hn1).
      apply (IH d1 fwd1); try done. congruence.
Qed.

End Custodian.

(** ** make_fake_workflow *)

Section Fake.

Variable fake_dirs : list (string * string).
Variable dict_repr : gmap string pyval -> string.

(** The three nested loops visit the triples of the scan in order. *)
Lemma make_fake_workflow_flat (wf : Workflow) :
  make_fake_workflow fake_dirs dict_repr wf =
  (d <~ for_each (make_fake_step fake_dirs) (scan_triples fake_dirs dict_repr wf)
          (to_dict wf) ;;
   Ok (from_dict d)).
Proof.
  unfold make_fake_workflow, scan_triples. f_equal.
  apply for_each_bind. intros d [idx_fw fw].
  rewrite (for_each_bind (make_fake_step fake_dirs) _ (fun job_type =>
    if decide (str_in job_type (name fw) = true)
    then run_indices dict_repr (tasks fw) ≫= fun idx_t => [(idx_fw, job_type, idx_t)]
    else [])).
  - f_equal. unfold matching_labels. apply bind_filter.
  - intros d' job_type. destruct (decide _) as [->|Hne].
    + unfold run_indices. rewrite bind_assoc. apply for_each_bind.
      intros d'' [idx_t t]. destruct (is_runvasp_task dict_repr t); [|done].
      simpl. destruct (items_getitem fake_dirs job_type); simpl; [|done].
      by destruct (set_task_entry _ _ _ _).
    + apply not_true_is_false in Hne. by rewrite Hne.
Qed.

Lemma items_getitem_total (items : list (string * string)) (k : string) :
  k ∈ items.*1 -> exists v, items_getitem items k = Ok v.
Proof.
  induction items as [|[k' v'] items IH]; simpl.
  - by intros ?%elem_of_nil.
  - intros Hk. destruct (decide (k' = k)); [by eexists|].
    apply elem_of_cons in Hk as [?|?]; [congruence | by apply IH].
Qed.

Lemma make_fake_step_follows (wf : Workflow) (d : WfDict) (i j : nat) (job_type : string) :
  follows dict_repr wf d ->
  (i, job_type, j) ∈ scan_triples fake_dirs dict_repr wf ->
  exists d', make_fake_step fake_dirs d (i, job_type, j) = Ok d' /\
    follows dict_repr wf d'.
Proof.
  intros Hfol Hin.
  assert ((i, j) ∈ get_runvasp_fws_and_tasks fake_dirs dict_repr wf) as Hij.
  { apply elem_of_scan_triples in Hin as (fw & t & ?). apply elem_of_pairs.
    by exists fw, t, job_type. }
  apply elem_of_scan_triples in Hin as (_ & _ & _ & _ & _ & Hjob & _).
  destruct (items_getitem_total _ _ Hjob) as [dir Hdir].
  destruct (follows_pair _ _ _ _ _ _ Hfol Hij)
    as (fw & fwd & t & Hfw & Hfwd & Hnm & Ht & Hrun).
  destruct (set_task_entry_total d i j (RunVaspFake dir) _ _ Hfwd Ht) as [d' Hset].
  exists d'. unfold make_fake_step. rewrite Hdir. simpl. split; [done|].
  apply (follows_set_task_entry dict_repr wf d d' i j t (RunVaspFake dir)); try done.
  unfold entry. by rewrite Hfwd.
Qed.

Lemma make_fake_loop_follows (wf : Workflow) (ps : list (nat * string * nat)) (d : WfDict) :
  follows dict_repr wf d ->
  Forall (.∈ scan_triples fake_dirs dict_repr wf) ps ->
  exists d', for_each (make_fake_step fake_dirs) ps d = Ok d' /\
    follows dict_repr wf d'.
Proof.
  revert d. induction ps as [|[[i job_type] j] ps IH]; intros d Hfol Hall; cbn [for_each].
  - by exists d.
  - apply Forall_cons in Hall as [Hin Hall].
    destruct (make_fake_step_follows _ _ _ _ _ Hfol Hin) as (d1 & -> & Hfol1).
    simpl. by apply IH.
Qed.

Lemma make_fake_step_Ok (d d' : WfDict) (i j : nat) (job_type : string) :
  make_fake_step fake_dirs d (i, job_type, j) = Ok d' <->
  exists fake_dir, items_getitem fake_dirs job_type = Ok fake_dir /\
    set_task_entry d i j (RunVaspFake fake_dir) = Ok d'.
Proof.
  unfold make_fake_step. destruct (items_getitem fake_dirs job_type) as [dir|]; simpl.
  - split; [by exists dir | by intros (? & [= <-] & ?)].
  - split; [done | by intros (? & ? & _)].
Qed.

Lemma make_fake_loop_names (ps : list (nat * string * nat)) (d d' : WfDict) :
  for_each (make_fake_step fake_dirs) ps d = Ok d' ->
  d_name <$> d_fws d' = d_name <$> d_fws d.
Proof.
  revert d. induction ps as [|[[i job] j] ps IH]; intros d; cbn [for_each].
  - by intros [= <-].
  - destruct (make_fake_step fake_dirs d (i, job, j)) as [d1|] eqn:Hstep; simpl; [|done].
    intros Hloop. rewrite (IH _ Hloop).
    apply make_fake_step_Ok in Hstep as (dir & _ & Hset).
    by eapply set_task_entry_names.
Qed.

Lemma make_fake_loop_stays_fake (ps : list (nat * string * nat)) (d d' : WfDict)
    (i j : nat) :
  for_each (make_fake_step fake_dirs) ps d = Ok d' ->
  (exists fake_dir, entry d i j = Some (RunVaspFake fake_dir)) ->
  exists fake_dir, entry d' i j = Some (RunVaspFake fake_dir).
Proof.
  revert d. induction ps as [|[[i' job] j'] ps IH]; intros d; cbn [for_each].
  - by intros [= <-].
  - destruct (make_fake_step fake_dirs d (i', job, j')) as [d1|] eqn:Hstep; simpl; [|done].
    intros Hloop [dir He]. apply (IH _ Hloop).
    apply make_fake_step_Ok in Hstep as (dir' & _ & Hset).
    rewrite (set_task_entry_entry _ _ _ _ i j _ Hset).
    destruct (decide ((i, j) = (i', j'))); [by exists dir' | by exists dir].
Qed.

Lemma make_fake_loop_writes (ps : list (nat * string * nat)) (d d' : WfDict)
    (i j : nat) (job_type : string) :
  for_each (make_fake_step fake_dirs) ps d = Ok d' ->
  (i, job_type, j) ∈ ps ->
  exists fake_dir, entry d' i j = Some (RunVaspFake fake_dir).
Proof.
  revert d. induction ps as [|[[i' job] j'] ps IH]; intros d Hloop Hel.
  - by apply elem_of_nil in Hel.
  - cbn [for_each] in Hloop.
    destruct (make_fake_step fake_dirs d (i', job, j')) as [d1|] eqn:Hstep;
      simpl in Hloop; [|done].
    apply elem_of_cons in Hel as [Heq|Hel]; [|by apply (IH d1)].
    injection Heq as <- <- <-. apply (make_fake_loop_stays_fake _ _ _ _ _ Hloop).
    apply make_fake_step_Ok in Hstep as (dir & _ & Hset).
    exists dir. rewrite (set_task_entry_entry _ _ _ _ i j _ Hset). by rewrite decide_True.
Qed.

End Fake.

(** ** The scan depends on names and on the pattern of run tasks only *)

Lemma imap_bind_Forall2 {A A' B C : Type} (R : A -> A' -> Prop)
    (f : nat -> A -> C) (f' : nat -> A' -> C) (G G' : C -> list B)
    (l : list A) (l' : list A') :
  Forall2 R l l' ->
  (forall i x y, R x y -> G (f i x) = G' (f' i y)) ->
  imap f l ≫= G = imap f' l' ≫= G'.
Proof.
  intros H. revert f f'. induction H as [|x y l l' Hxy _ IH]; intros f f' Hfg; [done|].
  rewrite !imap_cons, !bind_cons. f_equal; [by apply Hfg|].
  apply IH. intros i x' y' Hx'. by apply Hfg.
Qed.

Section ScanExt.

Variable fake_dirs : list (string * string).
Variable dict_repr : gmap string pyval -> string.

Lemma run_indices_ext (ts ts' : list task) :
  is_runvasp_task dict_repr <$> ts = is_runvasp_task dict_repr <$> ts' ->
  run_indices dict_repr ts = run_indices dict_repr ts'.
Proof.
  intros H. unfold run_indices, enumerate.
  apply (imap_bind_Forall2
           (fun t t' => is_runvasp_task dict_repr t = is_runvasp_task dict_repr t')).
  - apply Forall2_fmap. rewrite H. by apply Forall_Forall2_diag, Forall_true.
  - intros i x y Hxy. by rewrite Hxy.
Qed.

Lemma pairs_ext (wf wf' : Workflow) :
  Forall2 (fun fw fw' =>
             name fw = name fw' /\
             is_runvasp_task dict_repr <$> tasks fw
             = is_runvasp_task dict_repr <$> tasks fw')
    (fws wf) (fws wf') ->
  get_runvasp_fws_and_tasks fake_dirs dict_repr wf
  = get_runvasp_fws_and_tasks fake_dirs dict_repr wf'.
Proof.
  intros H. rewrite !pairs_scan_pairs. unfold scan_pairs, scan_triples, enumerate.
  f_equal. eapply imap_bind_Forall2; [exact H|].
  intros i fw fw' [Hnm Hrun]. simpl. by rewrite Hnm, (run_indices_ext _ _ Hrun).
Qed.

Lemma pairs_from_dict (wf : Workflow) (d : WfDict) :
  follows dict_repr wf d ->
  get_runvasp_fws_and_tasks fake_dirs dict_repr (from_dict d)
  = get_runvasp_fws_and_tasks fake_dirs dict_repr wf.
Proof.
  intros H. symmetry. apply pairs_ext. unfold from_dict. simpl.
  apply Forall2_fmap_r. eapply Forall2_impl; [exact H|]. by intros fw [? ? ?] [? ?].
Qed.

(** A run task at an entry of a serialized workflow is found by the scan
    of the deserialized workflow when the name of its Firework contains a
    label. *)
Lemma pairs_from_dict_entry (d : WfDict) (l : list FwDict) (fwd : FwDict)
    (i j : nat) (t : task) (job_type : string) :
  entry d i j = Some t -> is_runvasp_task dict_repr t = true ->
  d_name <$> d_fws d = d_name <$> l -> l !! i = Some fwd ->
  job_type ∈ fake_dirs.*1 -> str_in job_type (d_name fwd) = true ->
  (i, j) ∈ get_runvasp_fws_and_tasks fake_dirs dict_repr (from_dict d).
Proof.
  intros He Hrun Hnames Hfwd Hjob Hin. unfold entry in He.
  destruct (names_lookup _ _ _ _ Hnames Hfwd) as (fwd' & Hfwd' & Hnm).
  rewrite Hfwd' in He. simpl in He.
  apply elem_of_pairs. exists (fw_from_dict fwd'), t, job_type.
  split; [|split; [|split; [|split]]]; try done.
  - unfold from_dict. simpl. by rewrite list_lookup_fmap, Hfwd'.
  - simpl. by rewrite Hnm.
Qed.

(** C10: [is_runvasp_task] holds exactly of the tasks whose string
    representation contains "RunVasp"; it holds of every
    [RunVaspCustodian] and every [RunVaspFake] task; hence a run task of
    a Firework whose name contains a label (and passes the filter, for
    [use_custodian]) is replaced in the serialized workflow by a
    [RunVaspCustodian], respectively a [RunVaspFake], task, and its pair
    of indices is matched again by the scan of the returned workflow. *)
Theorem is_runvasp_task_matches_replacements :
  (forall t, is_runvasp_task dict_repr t = true <->
             exists a b, str_task dict_repr t = a +:+ "RunVasp" +:+ b) /\
  (forall kwargs, is_runvasp_task dict_repr (RunVaspCustodian kwargs) = true) /\
  (forall fake_dir, is_runvasp_task dict_repr (RunVaspFake fake_dir) = true) /\
  (forall wf F cp wf' i j fw t job_type,
     use_custodian fake_dirs dict_repr wf F cp = Ok wf' ->
     fws wf !! i = Some fw -> tasks fw !! j = Some t ->
     is_runvasp_task dict_repr t = true ->
     job_type ∈ fake_dirs.*1 -> str_in job_type (name fw) = true ->
     passes_filter F (name fw) = true ->
     (exists d' kwargs, wf' = from_dict d' /\
        entry d' i j = Some (RunVaspCustodian kwargs)) /\
     (i, j) ∈ get_runvasp_fws_and_tasks fake_dirs dict_repr wf') /\
  (forall wf wf' i j fw t job_type,
     make_fake_workflow fake_dirs dict_repr wf = Ok wf' ->
     fws wf !! i = Some fw -> tasks fw !! j = Some t ->
     is_runvasp_task dict_repr t = true ->
     job_type ∈ fake_dirs.*1 -> str_in job_type (name fw) = true ->
     (exists d' fake_dir, wf' = from_dict d' /\
        entry d' i j = Some (RunVaspFake fake_dir)) /\
     (i, j) ∈ get_runvasp_fws_and_tasks fake_dirs dict_repr wf').
Proof.
  split; [|split; [|split; [|split]]].
  - intros t. rewrite is_runvasp_task_str_in. apply str_in_app.
  - apply is_runvasp_task_RunVaspCustodian.
  - apply is_runvasp_task_RunVaspFake.
  - intros wf F cp wf' i j fw t job_type Hret Hfw Ht Hrun Hjob Hin Hpass.
    unfold use_custodian in Hret.
    destruct (for_each _ _ _) as [d'|] eqn:Hloop; simpl in Hret; [|done].
    injection Hret as <-.
    assert (Hfwd : d_fws (to_dict wf) !! i = Some (fw_to_dict fw))
      by (unfold to_dict; simpl; by rewrite list_lookup_fmap, Hfw).
    assert (Hel : (i, j) ∈ get_runvasp_fws_and_tasks fake_dirs dict_repr wf)
      by (apply elem_of_pairs; by exists fw, t, job_type).
    destruct (use_custodian_loop_writes _ _ _ _ _ i j (fw_to_dict fw) Hloop Hel Hfwd Hpass)
      as [kw He].
    split; [by exists d', kw|].
    apply (pairs_from_dict_entry d' (d_fws (to_dict wf)) (fw_to_dict fw) i j
             (RunVaspCustodian kw) job_type);
      [done | apply is_runvasp_task_RunVaspCustodian | | done | done | done].
    by destruct (use_custodian_loop_frame _ _ _ _ _ Hloop).
  - intros wf wf' i j fw t job_type Hret Hfw Ht Hrun Hjob Hin.
    rewrite make_fake_workflow_flat in Hret.
    destruct (for_each _ _ _) as [d'|] eqn:Hloop; simpl in Hret; [|done].
    injection Hret as <-.
    assert (Hfwd : d_fws (to_dict wf) !! i = Some (fw_to_dict fw))
      by (unfold to_dict; simpl; by rewrite list_lookup_fmap, Hfw).
    assert (Hel : (i, job_type, j) ∈ scan_triples fake_dirs dict_repr wf)
      by (apply elem_of_scan_triples; by exists fw, t).
    destruct (make_fake_loop_writes _ _ _ _ i j job_type Hloop Hel) as [dir He].
    split; [by exists d', dir|].
    apply (pairs_from_dict_entry d' (d_fws (to_dict wf)) (fw_to_dict fw) i j
             (RunVaspFake dir) job_type);
      [done | apply is_runvasp_task_RunVaspFake | | done | done | done].
    by apply (make_fake_loop_names fake_dirs _ _ _ Hloop).
Qed.

End ScanExt.

(** ** The two-Firework scenario of make_fake_workflow *)

Lemma imap_bind_nil {A B C : Type} (f : nat -> A -> C) (G : C -> list B) (l : list A) :
  (forall i x, x ∈ l -> G (f i x) = []) -> imap f l ≫= G = [].
Proof.
  revert f. induction l as [|x l IH]; intros f H; [done|].
  rewrite imap_cons, bind_cons, H by left. simpl. apply IH.
  intros i y Hy. apply H. by right.
Qed.

Section Scenario.

Variable dict_repr : gmap string pyval -> string.

Lemma run_indices_single (pre post : list task) (r : task) :
  Forall (fun t => is_runvasp_task dict_repr t = false) (pre ++ post) ->
  is_runvasp_task dict_repr r = true ->
  run_indices dict_repr (pre ++ r :: post) = [length pre].
Proof.
  intros [Hpre Hpost]%Forall_app Hr. unfold run_indices, enumerate.
  rewrite imap_app, bind_app, imap_cons, bind_cons. simpl. rewrite Hr.
  rewrite !imap_bind_nil.
  - by rewrite Nat.add_0_r.
  - intros i t Ht. simpl. by rewrite (proj1 (Forall_forall _ _) Hpost t Ht).
  - intros i t Ht. by rewrite (proj1 (Forall_forall _ _) Hpre t Ht).
Qed.

Lemma set_task_entry_middle (d : WfDict) (i : nat) (fwd : FwDict)
    (pre post : list task) (r v : task) :
  d_fws d !! i = Some fwd -> spec_tasks (d_spec fwd) = pre ++ r :: post ->
  set_task_entry d i (length pre) v =
  Ok (wfd_with_fws
        (<[i := fwd_with_spec (with_spec_tasks (pre ++ v :: post) (d_spec fwd)) fwd]>
           (d_fws d)) d).
Proof.
  intros Hfwd Hts. apply set_task_entry_Ok. exists fwd. split; [done|].
  rewrite Hts. split.
  - rewrite length_app. simpl. lia.
  - by rewrite insert_app_r_alt, Nat.sub_diag by lia.
Qed.

(** C4: with the job-type map {"structure optimization": dir_A,
    "static": dir_B}, on a workflow of a Firework named "structure
    optimization" and a Firework named "static", each with exactly one
    run task, [make_fake_workflow] returns the workflow in which the run
    task of the first is the [RunVaspFake] task of dir_A and the run task
    of the second is the [RunVaspFake] task of dir_B; all other tasks,
    their order and the task counts are those of the input. *)
Theorem make_fake_workflow_two_fireworks (dir_A dir_B : string)
    (fw1 fw2 : Firework) (lnk : list (Z * list Z)) (nm : string)
    (pre1 post1 pre2 post2 : list task) (r1 r2 : task) :
  name fw1 = "structure optimization" -> name fw2 = "static" ->
  fw_mirrored fw1 -> fw_mirrored fw2 ->
  tasks fw1 = pre1 ++ r1 :: post1 -> tasks fw2 = pre2 ++ r2 :: post2 ->
  is_runvasp_task dict_repr r1 = true -> is_runvasp_task dict_repr r2 = true ->
  Forall (fun t => is_runvasp_task dict_repr t = false) (pre1 ++ post1) ->
  Forall (fun t => is_runvasp_task dict_repr t = false) (pre2 ++ post2) ->
  make_fake_workflow [("structure optimization", dir_A); ("static", dir_B)] dict_repr
    (mkWorkflow [fw1; fw2] lnk nm)
  = Ok (mkWorkflow [with_tasks (pre1 ++ RunVaspFake dir_A :: post1) fw1;
                    with_tasks (pre2 ++ RunVaspFake dir_B :: post2) fw2] lnk nm)
  /\ length (pre1 ++ RunVaspFake dir_A :: post1) = length (tasks fw1)
  /\ length (pre2 ++ RunVaspFake dir_B :: post2) = length (tasks fw2).
Proof.
  intros Hn1 Hn2 Hm1 Hm2 Ht1 Ht2 Hr1 Hr2 Ho1 Ho2.
  split; [|by rewrite Ht1, Ht2, !length_app].
  rewrite make_fake_workflow_flat.
  assert (scan_triples [("structure optimization", dir_A); ("static", dir_B)] dict_repr
            (mkWorkflow [fw1; fw2] lnk nm)
          = [(0, "structure optimization", length pre1); (1, "static", length pre2)])
    as ->.
  { unfold scan_triples, enumerate. simpl fws. rewrite !imap_cons, imap_nil.
    rewrite !bind_cons. cbv beta iota delta [compose]. rewrite Hn1, Hn2, Ht1, Ht2.
    rewrite !run_indices_single by done. by vm_compute. }
  unfold fw_mirrored in Hm1, Hm2.
  cbn [for_each make_fake_step].
  change (items_getitem _ "structure optimization") with (Ok (A := string) dir_A).
  change (items_getitem _ "static") with (Ok (A := string) dir_B).
  cbn [rbind].
  rewrite (set_task_entry_middle _ 0 (fw_to_dict fw1) pre1 post1 r1);
    [|done|by simpl; rewrite Hm1].
  cbn [rbind].
  rewrite (set_task_entry_middle _ 1 (fw_to_dict fw2) pre2 post2 r2);
    [|done|by simpl; rewrite Hm2].
  done.
Qed.

End Scenario.

(** ** add_trackers *)

Section Trackers.

Variable fake_dirs : list (string * string).
Variable dict_repr : gmap string pyval -> string.

Lemma add_trackers_step_eq (d : WfDict) (i j : nat) (fwd : FwDict) :
  d_fws d !! i = Some fwd ->
  add_trackers_step d (i, j) =
  Ok (wfd_with_fws
        (<[i := fwd_with_spec (extend_trackers (d_spec fwd)) fwd]> (d_fws d)) d).
Proof.
  intros Hfwd. unfold add_trackers_step, list_getitem. rewrite Hfwd. simpl.
  unfold extend_trackers. by destruct (spec_trackers (d_spec fwd)).
Qed.

Lemma add_trackers_loop (ps : list (nat * nat)) (d : WfDict) :
  Forall (fun p => p.1 < length (d_fws d)) ps ->
  exists d', for_each add_trackers_step ps d = Ok d' /\
    d_links d' = d_links d /\ d_wf_name d' = d_wf_name d /\
    length (d_fws d') = length (d_fws d) /\
    forall k fwd, d_fws d !! k = Some fwd ->
      d_fws d' !! k =
      Some (fwd_with_spec
              (Nat.iter (length (filter (fun p => p.1 = k) ps)) extend_trackers
                 (d_spec fwd)) fwd).
Proof.
  revert d. induction ps as [|[i j] ps IH]; intros d Hall; cbn [for_each].
  - exists d. repeat split; try done. intros k fwd Hk. rewrite Hk. by destruct fwd.
  - apply Forall_cons in Hall as [Hi Hall]. simpl in Hi.
    destruct (lookup_lt_is_Some_2 _ _ Hi) as [fwd_i Hfwd_i].
    rewrite (add_trackers_step_eq _ _ _ _ Hfwd_i). cbn [rbind].
    edestruct (IH (wfd_with_fws
                     (<[i := fwd_with_spec (extend_trackers (d_spec fwd_i)) fwd_i]>
                        (d_fws d)) d))
      as (d' & Hloop & Hl & Hn & Hlen & Hlook).
    { simpl. by rewrite length_insert. }
    exists d'. split; [done|]. simpl in *. rewrite length_insert in Hlen.
    repeat split; try done.
    intros k fwd Hk. rewrite filter_cons. cbn [fst].
    destruct (decide (i = k)) as [->|Hne]; cbn [length].
    + rewrite (Hlook k (fwd_with_spec (extend_trackers (d_spec fwd_i)) fwd_i))
        by (by rewrite list_lookup_insert_eq).
      simplify_eq. by rewrite Nat.iter_succ_r.
    + apply Hlook. by rewrite list_lookup_insert_ne.
Qed.

Lemma iter_extend_trackers (n : nat) (s : fw_spec) :
  spec_tasks (Nat.iter n extend_trackers s) = spec_tasks s /\
  spec_priority (Nat.iter n extend_trackers s) = spec_priority s /\
  spec_rest (Nat.iter n extend_trackers s) = spec_rest s /\
  (0 < n -> spec_trackers (Nat.iter n extend_trackers s)
            = Some (default [] (spec_trackers s)
                    ++ mjoin (replicate n [tracker1; tracker2]))).
Proof.
  induction n as [|n (IH1 & IH2 & IH3 & IH4)]; [by repeat split; try lia|].
  simpl. repeat split; try done. intros _. f_equal.
  destruct n as [|n]; [done|]. rewrite IH4 by lia. simpl.
  rewrite <- !app_assoc. f_equal. simpl. do 2 f_equal.
  clear. induction n as [|n IH]; [done|]. simpl. by rewrite <- IH.
Qed.

Lemma pairs_in_range (wf : Workflow) :
  Forall (fun p => p.1 < length (d_fws (to_dict wf)))
    (get_runvasp_fws_and_tasks fake_dirs dict_repr wf).
Proof.
  apply Forall_forall. intros [i j] (fw & _ & _ & Hfw & _)%elem_of_pairs.
  unfold to_dict. simpl. rewrite length_fmap. by eapply lookup_lt_Some.
Qed.

(** C2, as the code has it: [add_trackers] always returns; it keeps
    the Fireworks, their names, ids and all settings but the trackers;
    a Firework with no matched pair keeps its tracker state, and a
    Firework with [n > 0] matched pairs gets its former tracker list
    followed by [n] copies of the two fixed trackers (OUTCAR and
    OSZICAR, 25 lines each): one copy for each matched pair. *)
Theorem add_trackers_per_matched_pair (wf : Workflow) :
  exists wf',
    add_trackers fake_dirs dict_repr wf = Ok wf' /\
    length (fws wf') = length (fws wf) /\
    forall i fw, fws wf !! i = Some fw ->
      exists fw', fws wf' !! i = Some fw' /\
        fw_id fw' = fw_id fw /\ name fw' = name fw /\
        spec_tasks (spec fw') = spec_tasks (spec fw) /\
        spec_priority (spec fw') = spec_priority (spec fw) /\
        spec_rest (spec fw') = spec_rest (spec fw) /\
        (matches_of fake_dirs dict_repr wf i = 0 ->
           spec_trackers (spec fw') = spec_trackers (spec fw)) /\
        (0 < matches_of fake_dirs dict_repr wf i ->
           spec_trackers (spec fw') =
           Some (trackers_of (spec fw)
                 ++ mjoin (replicate (matches_of fake_dirs dict_repr wf i)
                             [mkTracker "OUTCAR" 25 true; mkTracker "OSZICAR" 25 true]))).
Proof.
  unfold add_trackers.
  destruct (add_trackers_loop _ _ (pairs_in_range wf))
    as (d' & -> & _ & _ & Hlen & Hlook).
  cbn [rbind]. eexists. split; [done|]. split.
  - unfold from_dict, to_dict in *. simpl in *. by rewrite !length_fmap in *.
  - intros i fw Hfw. unfold from_dict. simpl. rewrite list_lookup_fmap.
    rewrite (Hlook i (fw_to_dict fw))
      by (unfold to_dict; simpl; by rewrite list_lookup_fmap, Hfw).
    simpl. eexists. split; [done|]. simpl.
    fold (matches_of fake_dirs dict_repr wf i).
    destruct (iter_extend_trackers (matches_of fake_dirs dict_repr wf i) (spec fw))
      as (H1 & H2 & H3 & H4).
    repeat split; try done.
    intros ->. done.
Qed.

End Trackers.

(** ** Powerups on a workflow without matched tasks *)

Lemma to_dict_from_dict (d : WfDict) : to_dict (from_dict d) = d.
Proof.
  destruct d as [l lnk nm]. unfold to_dict, from_dict. simpl. f_equal.
  rewrite <- list_fmap_compose. rewrite <- (list_fmap_id l) at 2.
  apply list_fmap_ext. by intros _ [? ? ?] _.
Qed.

Section NoMatch.

Variable fake_dirs : list (string * string).
Variable dict_repr : gmap string pyval -> string.

(** C8: when [get_runvasp_fws_and_tasks] returns no pair,
    [use_custodian], [make_fake_workflow] and [add_trackers] modify
    nothing: each returns what the serialization round trip alone makes
    of the input workflow, [from_dict (to_dict wf)]; and
    [add_modify_incar] returns the input workflow itself. *)
Theorem no_match_no_change (wf : Workflow) :
  get_runvasp_fws_and_tasks fake_dirs dict_repr wf = [] ->
  (forall F cp, use_custodian fake_dirs dict_repr wf F cp = Ok (from_dict (to_dict wf))) /\
  make_fake_workflow fake_dirs dict_repr wf = Ok (from_dict (to_dict wf)) /\
  add_trackers fake_dirs dict_repr wf = Ok (from_dict (to_dict wf)) /\
  (forall p F, add_modify_incar fake_dirs dict_repr wf p F = Ok wf).
Proof.
  intros Hnil. repeat split.
  - intros F cp. unfold use_custodian. by rewrite Hnil.
  - rewrite make_fake_workflow_flat.
    rewrite pairs_scan_pairs in Hnil. unfold scan_pairs in Hnil.
    apply fmap_nil_inv in Hnil. by rewrite Hnil.
  - unfold add_trackers. by rewrite Hnil.
  - intros p F. unfold add_modify_incar. by rewrite Hnil.
Qed.

End NoMatch.

(** ** decorate_write_name and add_modify_incar *)

Lemma list_insert_at_0 {A : Type} (v : A) (xs : list A) :
  list_insert_at 0 v xs = v :: xs.
Proof.
  unfold list_insert_at. cbv zeta. repeat case_decide; try lia. done.
Qed.

(** [decorate_write_name] puts the marker task at index 0 of the task
    list of every Firework, in front of the former entries. *)
Lemma decorate_write_name_front (get_slug : string -> string) (wf : Workflow)
    (use_slug : bool) (i : nat) (fw : Firework) :
  fws wf !! i = Some fw ->
  exists fw', fws (decorate_write_name get_slug wf use_slug) !! i = Some fw' /\
    spec_tasks (spec fw') = marker_task get_slug (name fw) use_slug :: spec_tasks (spec fw).
Proof.
  intros Hfw. unfold decorate_write_name. simpl. rewrite list_lookup_fmap, Hfw. simpl.
  eexists. split; [done|]. simpl. apply list_insert_at_0.
Qed.

(** For a matched index [idx_t >= 1], [insert(idx_t - 1, ...)] puts the
    new entry at index [idx_t - 1]: one entry stays between it and the
    matched task. *)
Lemma list_insert_at_pred {A : Type} (v : A) (xs : list A) (idx_t : nat) :
  1 <= idx_t < length xs ->
  list_insert_at (Z.of_nat idx_t - 1) v xs
  = take (idx_t - 1) xs ++ v :: drop (idx_t - 1) xs.
Proof.
  intros H. unfold list_insert_at. cbv zeta. repeat case_decide; try lia.
  by replace (Z.to_nat (Z.of_nat idx_t - 1)) with (idx_t - 1) by lia.
Qed.

(** For the matched index 0, [insert(-1, ...)] puts the new entry in
    front of the last entry. *)
Lemma list_insert_at_minus_1 {A : Type} (v : A) (xs : list A) :
  list_insert_at (Z.of_nat 0 - 1) v xs
  = take (length xs - 1) xs ++ v :: drop (length xs - 1) xs.
Proof.
  destruct xs as [|x xs]; [done|].
  unfold list_insert_at. cbv zeta. cbn [length].
  repeat case_decide; try lia.
  by replace (Z.to_nat (Z.of_nat 0 - 1 + Z.of_nat (S (length xs))))
    with (S (length xs) - 1) by lia.
Qed.

(** C1, at a workflow where the claim fails: the matched pairs are
    (0, 1) and (1, 0); [add_modify_incar] leaves the write task between
    the new entry and the run task of the first Firework, and puts the new
    entry behind the run task of the second; in neither list is the new
    entry at the place immediately before the matched task. *)
Theorem add_modify_incar_misplaces :
  get_runvasp_fws_and_tasks Sample.fake_dirs Sample.dict_repr Sample.wf_relax_static
  = [(0, 1); (1, 0)] /\
  exists wf',
    add_modify_incar Sample.fake_dirs Sample.dict_repr Sample.wf_relax_static
      {[ "key_update" := PStr ">>incar_update<<" ]} None = Ok wf' /\
    (fun fw => spec_tasks (spec fw)) <$> fws wf'
    = [[ModifyIncar {[ "key_update" := PStr ">>incar_update<<" ]};
        Sample.WriteVaspFromIOSet; Sample.RunVaspDirect "vasp"; Sample.VaspToDbTask];
       [Sample.RunVaspDirect "vasp"; Sample.PassCalcLocs;
        ModifyIncar {[ "key_update" := PStr ">>incar_update<<" ]}; Sample.VaspToDbTask]] /\
    (fun fw => spec_tasks (spec fw)) <$> fws wf'
    <> [[Sample.WriteVaspFromIOSet;
         ModifyIncar {[ "key_update" := PStr ">>incar_update<<" ]};
         Sample.RunVaspDirect "vasp"; Sample.VaspToDbTask];
        [ModifyIncar {[ "key_update" := PStr ">>incar_update<<" ]};
         Sample.RunVaspDirect "vasp"; Sample.PassCalcLocs; Sample.VaspToDbTask]].
Proof.
  split; [by vm_compute|]. eexists. split; [by vm_compute|]. split; [by vm_compute|].
  vm_compute. intros H. discriminate H.
Qed.

(** ** decorate_priority *)

Lemma elem_of_root_fw_ids (wf : Workflow) (i : Z) :
  i ∈ root_fw_ids wf <->
  (exists fw, fw ∈ fws wf /\ fw_id fw = i) /\
  forall parent children, (parent, children) ∈ links wf -> i ∉ children.
Proof.
  unfold root_fw_ids, child_ids. rewrite list_elem_of_filter, list_elem_of_fmap.
  split.
  - intros [Hno (fw & -> & Hfw)]. split; [by exists fw|].
    intros parent children Hl Hin. apply Hno. apply list_elem_of_join.
    exists children. split; [done|]. apply list_elem_of_fmap.
    by exists (parent, children).
  - intros [(fw & Hfw & <-) Hno]. split; [|by exists fw].
    intros (children & Hin & Hc)%list_elem_of_join.
    apply list_elem_of_fmap in Hc as ([parent children'] & -> & Hl).
    by eapply Hno.
Qed.

(** What [decorate_priority] computes: the root priority on the
    Fireworks of the root set, the value of
    [child_priority or root_priority] on the others; nothing else changes. *)
Lemma decorate_priority_lookup (wf : Workflow) (root_priority : Z)
    (child_priority : option Z) (i : nat) (fw : Firework) :
  fws wf !! i = Some fw ->
  exists fw', fws (decorate_priority wf root_priority child_priority) !! i = Some fw' /\
    fw_id fw' = fw_id fw /\ name fw' = name fw /\ tasks fw' = tasks fw /\
    spec_tasks (spec fw') = spec_tasks (spec fw) /\
    spec_trackers (spec fw') = spec_trackers (spec fw) /\
    spec_priority (spec fw') =
      Some (if decide (fw_id fw ∈ root_fw_ids wf) then root_priority
            else or_default child_priority root_priority).
Proof.
  intros Hfw. unfold decorate_priority. simpl. rewrite list_lookup_fmap, Hfw. simpl.
  eexists. split; [done|]. by destruct (decide _).
Qed.

Lemma or_default_supplied (c r : Z) : c <> 0%Z -> or_default (Some c) r = c.
Proof. intros H. unfold or_default. by rewrite decide_False. Qed.

Lemma or_default_absent (r : Z) : or_default None r = r.
Proof. done. Qed.

Lemma or_default_zero (r : Z) : or_default (Some 0%Z) r = r.
Proof. done. Qed.

(** C3, at a workflow where the claim fails: Firework 1 is the only
    root; with root priority 5 and child priority 0 the child Firework 2
    gets priority 5, not the child priority 0 that was supplied. *)
Theorem decorate_priority_zero_child :
  root_fw_ids Sample.wf_relax_static = [1%Z] /\
  (fun fw => (fw_id fw, spec_priority (spec fw)))
    <$> fws (decorate_priority Sample.wf_relax_static 5 (Some 0%Z))
  = [(1%Z, Some 5%Z); (2%Z, Some 5%Z)].
Proof. split; by vm_compute. Qed.

(** ** The LAMMPS builders *)

Section LammpsFacts.

Context {lammps_input : Type}.
Variable DictLammpsInput_from_file :
  string -> string -> pyval -> string -> gmap string pyval -> bool -> result lammps_input.
Variable NVTLammpsInput :
  pyval -> string -> gmap string pyval -> bool -> result lammps_input.

(** C9: when the constructor of the input object returns, each
    builder returns a workflow of exactly one Firework with exactly two
    tasks: first the write-input task of that input object (from the
    template file for [wf_from_input_template], the NVT input for
    [nvt_wf]) and the input file name, then the direct-run task whose
    command is the binary path, " -in " and the input file name. *)
Theorem lammps_builders_two_tasks
    (job_name input_template_file data_filename : string) (lammps_data data_input : pyval)
    (user_settings : gmap string pyval) (user_lammps_settings : option (gmap string pyval))
    (is_forcefield is_forcefield' : option bool)
    (input_filename lammps_bin input_filename' data_filename' lammps_bin' : option string)
    (inp inp' : lammps_input) :
  DictLammpsInput_from_file job_name input_template_file lammps_data data_filename
    user_settings (default false is_forcefield) = Ok inp ->
  NVTLammpsInput data_input (default "in.data" data_filename')
    (default ∅ user_lammps_settings) (default false is_forcefield') = Ok inp' ->
  (exists wf fw,
     Lammps.wf_from_input_template DictLammpsInput_from_file job_name input_template_file
       lammps_data data_filename user_settings is_forcefield input_filename lammps_bin
     = Ok wf /\
     Lammps.fws wf = [fw] /\
     Lammps.tasks fw =
       [Lammps.WritelammpsInputFromDictInput inp (default "lammps.inp" input_filename);
        Lammps.RunLammpsDirect
          (default "lammps" lammps_bin +:+ " -in " +:+ default "lammps.inp" input_filename)])
  /\
  (exists wf fw,
     Lammps.nvt_wf NVTLammpsInput data_input input_filename' data_filename'
       user_lammps_settings is_forcefield' lammps_bin'
     = Ok wf /\
     Lammps.fws wf = [fw] /\
     Lammps.tasks fw =
       [Lammps.WritelammpsInputFromDictInput inp' (default "nvt.inp" input_filename');
        Lammps.RunLammpsDirect
          (default "lammps" lammps_bin' +:+ " -in " +:+ default "nvt.inp" input_filename')]).
Proof.
  intros H1 H2. unfold Lammps.wf_from_input_template, Lammps.nvt_wf.
  rewrite H1, H2. simpl. split; by do 2 eexists.
Qed.

End LammpsFacts.

(** * The properties at sample workflows *)

(** C2, as stated, fails: on a Firework that runs VASP twice the two
    trackers are appended twice, not exactly once. *)
Lemma add_trackers_once_counterexample :
  ~ trackers_appended_once Sample.fake_dirs Sample.dict_repr Sample.wf_double_run.
Proof.
  intros (wf' & Hadd & H).
  assert (exists fw', fws wf' !! 0 = Some fw' /\
            trackers_of (spec fw') = [tracker1; tracker2; tracker1; tracker2])
    as (fw' & Hfw' & Htr).
  { vm_compute in Hadd. injection Hadd as <-. eexists. split; reflexivity. }
  specialize (H 0 _ fw' eq_refl Hfw'). rewrite Htr in H.
  vm_compute in H. discriminate H.
Qed.

Lemma make_fake_workflow_two_fireworks_witness :
  make_fake_workflow [("structure optimization", "dir_A"); ("static", "dir_B")]
    Sample.dict_repr
    (mkWorkflow
       [Sample.firework 1 "structure optimization"
          ([Sample.WriteVaspFromIOSet] ++ Sample.RunVaspDirect "vasp" :: [Sample.VaspToDbTask]);
        Sample.firework 2 "static"
          ([] ++ Sample.RunVaspDirect "vasp" :: [Sample.PassCalcLocs; Sample.VaspToDbTask])]
       [(1%Z, [2%Z])] "relax and static")
  = Ok (mkWorkflow
          [with_tasks ([Sample.WriteVaspFromIOSet] ++ RunVaspFake "dir_A" :: [Sample.VaspToDbTask])
             (Sample.firework 1 "structure optimization"
                ([Sample.WriteVaspFromIOSet] ++ Sample.RunVaspDirect "vasp"
                   :: [Sample.VaspToDbTask]));
           with_tasks ([] ++ RunVaspFake "dir_B" :: [Sample.PassCalcLocs; Sample.VaspToDbTask])
             (Sample.firework 2 "static"
                ([] ++ Sample.RunVaspDirect "vasp"
                   :: [Sample.PassCalcLocs; Sample.VaspToDbTask]))]
          [(1%Z, [2%Z])] "relax and static")
  /\ length ([Sample.WriteVaspFromIOSet] ++ RunVaspFake "dir_A" :: [Sample.VaspToDbTask]) = 3
  /\ length ([] ++ RunVaspFake "dir_B" :: [Sample.PassCalcLocs; Sample.VaspToDbTask]) = 3.
Proof.
  apply (make_fake_workflow_two_fireworks Sample.dict_repr "dir_A" "dir_B"
           (Sample.firework 1 "structure optimization"
              ([Sample.WriteVaspFromIOSet] ++ Sample.RunVaspDirect "vasp"
                 :: [Sample.VaspToDbTask]))
           (Sample.firework 2 "static"
              ([] ++ Sample.RunVaspDirect "vasp"
                 :: [Sample.PassCalcLocs; Sample.VaspToDbTask]))
           [(1%Z, [2%Z])] "relax and static"
           [Sample.WriteVaspFromIOSet] [Sample.VaspToDbTask]
           [] [Sample.PassCalcLocs; Sample.VaspToDbTask]
           (Sample.RunVaspDirect "vasp") (Sample.RunVaspDirect "vasp"));
    try reflexivity; repeat constructor.
Defined.

Lemma use_custodian_filter_frame_witness :
  (exists d', Sample.custodian_static = from_dict d' /\
     d_fws d' !! 0
     = Some (fw_to_dict
               (Sample.firework 1 "structure optimization"
                  [Sample.WriteVaspFromIOSet; Sample.RunVaspDirect "vasp";
                   Sample.VaspToDbTask])) /\
     length (d_fws d') = length (d_fws (to_dict Sample.wf_relax_static))) /\
  fws Sample.custodian_static !! 0
  = fws (from_dict (to_dict Sample.wf_relax_static)) !! 0 /\
  length (fws Sample.custodian_static)
  = length (fws (from_dict (to_dict Sample.wf_relax_static))).
Proof.
  apply (use_custodian_filter_frame Sample.fake_dirs Sample.dict_repr
           Sample.wf_relax_static Sample.custodian_static "static" None 0).
  - vm_compute. reflexivity.
  - reflexivity.
  - vm_compute. reflexivity.
Defined.

Lemma use_custodian_vasp_cmd_witness :
  use_custodian Sample.fake_dirs Sample.dict_repr Sample.wf_bare_run None None
  = Raise (KeyError "vasp_cmd")
  /\ exists wf',
       use_custodian Sample.fake_dirs Sample.dict_repr Sample.wf_bare_run None
         (Some {[ "vasp_cmd" := PStr "vasp" ]}) = Ok wf' /\
       entry (to_dict wf') 0 1 = Some (RunVaspCustodian {[ "vasp_cmd" := PStr "vasp" ]}).
Proof.
  assert (tasks_serialized Sample.wf_bare_run) as Hmir by (repeat constructor).
  split.
  - apply (proj1 (use_custodian_vasp_cmd Sample.fake_dirs Sample.dict_repr
                    Sample.wf_bare_run None None Hmir) eq_refl
             0 1 (Sample.firework 1 "static" [Sample.WriteVaspFromIOSet; Sample.RunVaspBare])
             Sample.RunVaspBare).
    + vm_compute. apply list_elem_of_singleton. reflexivity.
    + reflexivity.
    + reflexivity.
    + reflexivity.
    + reflexivity.
  - assert (dict_contains "vasp_cmd" (default ∅ (Some {[ "vasp_cmd" := PStr "vasp" ]}))
            = true) as Hcp by (vm_compute; reflexivity).
    destruct (proj2 (use_custodian_vasp_cmd Sample.fake_dirs Sample.dict_repr
                       Sample.wf_bare_run None (Some {[ "vasp_cmd" := PStr "vasp" ]}) Hmir)
                Hcp) as (wf' & Hwf' & Hentry).
    exists wf'. split; [exact Hwf'|].
    apply (Hentry 0 1 (Sample.firework 1 "static"
                         [Sample.WriteVaspFromIOSet; Sample.RunVaspBare])).
    + vm_compute. apply list_elem_of_singleton. reflexivity.
    + reflexivity.
    + reflexivity.
Defined.

Lemma no_match_no_change_witness :
  (forall F cp, use_custodian Sample.fake_dirs Sample.dict_repr Sample.wf_no_run F cp
                = Ok (from_dict (to_dict Sample.wf_no_run))) /\
  make_fake_workflow Sample.fake_dirs Sample.dict_repr Sample.wf_no_run
  = Ok (from_dict (to_dict Sample.wf_no_run)) /\
  add_trackers Sample.fake_dirs Sample.dict_repr Sample.wf_no_run
  = Ok (from_dict (to_dict Sample.wf_no_run)) /\
  (forall p F, add_modify_incar Sample.fake_dirs Sample.dict_repr Sample.wf_no_run p F
               = Ok Sample.wf_no_run).
Proof.
  apply (no_match_no_change Sample.fake_dirs Sample.dict_repr Sample.wf_no_run).
  vm_compute. reflexivity.
Defined.

Lemma lammps_builders_two_tasks_witness :
  (exists wf fw,
     Lammps.wf_from_input_template Sample.from_file_ok "job" "template.json"
       (PStr "in.data") "in.data" ∅ None None (Some "lmp_serial") = Ok wf /\
     Lammps.fws wf = [fw] /\
     Lammps.tasks fw =
       [Lammps.WritelammpsInputFromDictInput "job:template.json" "lammps.inp";
        Lammps.RunLammpsDirect "lmp_serial -in lammps.inp"])
  /\
  (exists wf fw,
     Lammps.nvt_wf Sample.nvt_ok (PStr "test_files/nvt.data") None (Some "nvt.data")
       None (Some true) (Some "lmp_serial") = Ok wf /\
     Lammps.fws wf = [fw] /\
     Lammps.tasks fw =
       [Lammps.WritelammpsInputFromDictInput "NVT:nvt.data" "nvt.inp";
        Lammps.RunLammpsDirect "lmp_serial -in nvt.inp"]).
Proof.
  apply (lammps_builders_two_tasks Sample.from_file_ok Sample.nvt_ok
           "job" "template.json" "in.data" (PStr "in.data") (PStr "test_files/nvt.data")
           ∅ None None (Some true) None (Some "lmp_serial") None (Some "nvt.data")
           (Some "lmp_serial") "job:template.json" "NVT:nvt.data").
  - reflexivity.
  - reflexivity.
Defined.

Lemma is_runvasp_task_matches_replacements_witness :
  ((exists d' kwargs, Sample.custodian_static = from_dict d' /\
      entry d' 1 0 = Some (RunVaspCustodian kwargs)) /\
   (1, 0)%nat ∈ get_runvasp_fws_and_tasks Sample.fake_dirs Sample.dict_repr
                  Sample.custodian_static) /\
  ((exists d' fake_dir, Cases.faked_two_labels = from_dict d' /\
      entry d' 0 1 = Some (RunVaspFake fake_dir)) /\
   (0, 1)%nat ∈ get_runvasp_fws_and_tasks Sample.fake_dirs Sample.dict_repr
                  Cases.faked_two_labels).
Proof.
  split.
  - apply (proj1 (proj2 (proj2 (proj2
             (is_runvasp_task_matches_replacements Sample.fake_dirs Sample.dict_repr))))
             Sample.wf_relax_static (Some "static") None Sample.custodian_static 1 0
             (Sample.firework 2 "static"
                [Sample.RunVaspDirect "vasp"; Sample.PassCalcLocs; Sample.VaspToDbTask])
             (Sample.RunVaspDirect "vasp") "static").
    + vm_compute. reflexivity.
    + reflexivity.
    + reflexivity.
    + vm_compute. reflexivity.
    + vm_compute. set_solver.
    + vm_compute. reflexivity.
    + vm_compute. reflexivity.
  - apply (proj2 (proj2 (proj2 (proj2
             (is_runvasp_task_matches_replacements Sample.fake_dirs Sample.dict_repr))))
             Cases.wf_two_labels Cases.faked_two_labels 0 1
             (Sample.firework 1 "static after structure optimization"
                [Sample.WriteVaspFromIOSet; Sample.RunVaspDirect "vasp"; Sample.VaspToDbTask])
             (Sample.RunVaspDirect "vasp") "static").
    + vm_compute. reflexivity.
    + reflexivity.
    + reflexivity.
    + vm_compute. reflexivity.
    + vm_compute. set_solver.
    + vm_compute. reflexivity.
Defined.

(** * Further properties *)

(** ** How often a Firework is matched *)

Lemma filter_none {A : Type} (P : A -> Prop) `{!forall x, Decision (P x)} (l : list A) :
  (forall x, x ∈ l -> ~ P x) -> filter P l = [].
Proof.
  induction l as [|x l IH]; intros Hl; [done|].
  rewrite filter_cons_False by (apply Hl; left). apply IH. intros y Hy. apply Hl. by right.
Qed.

Lemma filter_all {A : Type} (P : A -> Prop) `{!forall x, Decision (P x)} (l : list A) :
  (forall x, x ∈ l -> P x) -> filter P l = l.
Proof.
  induction l as [|x l IH]; intros Hl; [done|].
  rewrite filter_cons_True by (apply Hl; left). f_equal. apply IH.
  intros y Hy. apply Hl. by right.
Qed.

Lemma elem_of_imap_bind {A B C : Type} (f : nat -> A -> C) (G : C -> list B)
    (l : list A) (b : B) :
  b ∈ imap f l ≫= G <-> exists k x, l !! k = Some x /\ b ∈ G (f k x).
Proof.
  rewrite list_elem_of_bind. split.
  - intros (c & Hb & (k & x & -> & Hk)%elem_of_lookup_imap). by exists k, x.
  - intros (k & x & Hk & Hb). exists (f k x). split; [done|].
    apply elem_of_lookup_imap. by exists k, x.
Qed.

Lemma filter_bind_imap_index {A B C : Type} (P : B -> Prop) `{!forall b, Decision (P b)}
    (f : nat -> A -> C) (G : C -> list B) (l : list A) (i : nat) :
  (forall k x b, b ∈ G (f k x) -> (P b <-> k = i)) ->
  filter P (imap f l ≫= G) = match l !! i with Some x => G (f i x) | None => [] end.
Proof.
  revert f i. induction l as [|x l IH]; intros f i Hl; [done|].
  rewrite imap_cons, bind_cons, filter_app. destruct i as [|i]; simpl.
  - rewrite filter_all by (intros b Hb; by apply (Hl 0 x b Hb)).
    rewrite (filter_none _ (imap (f ∘ S) l ≫= G)); [by rewrite app_nil_r|].
    intros b (k & y & Hk & Hb)%elem_of_imap_bind HP.
    by apply (Hl (S k) y b Hb) in HP.
  - rewrite filter_none by (intros b Hb HP; by apply (Hl 0 x b Hb) in HP).
    simpl. rewrite (IH (f ∘ S) i); [done|].
    intros k y b Hb. rewrite (Hl (S k) y b Hb). lia.
Qed.

Section Multiplicity.

Variable fake_dirs : list (string * string).
Variable dict_repr : gmap string pyval -> string.

Lemma pairs_nested (wf : Workflow) :
  get_runvasp_fws_and_tasks fake_dirs dict_repr wf =
  enumerate (fws wf) ≫= fun '(idx_fw, fw) =>
    matching_labels fake_dirs (name fw) ≫= fun _ =>
      run_indices dict_repr (tasks fw) ≫= fun idx_t => [(idx_fw, idx_t)].
Proof.
  rewrite pairs_scan_pairs. unfold scan_pairs, scan_triples.
  rewrite fmap_bind. apply list_bind_ext; [|done]. intros [idx_fw fw].
  rewrite fmap_bind. apply list_bind_ext; [|done]. intros job_type.
  by rewrite fmap_bind.
Qed.

Lemma pairs_of_firework (wf : Workflow) (i : nat) :
  filter (fun p => p.1 = i) (get_runvasp_fws_and_tasks fake_dirs dict_repr wf) =
  match fws wf !! i with
  | Some fw =>
      matching_labels fake_dirs (name fw) ≫= fun _ =>
        run_indices dict_repr (tasks fw) ≫= fun idx_t => [(i, idx_t)]
  | None => []
  end.
Proof.
  rewrite pairs_nested. unfold enumerate.
  rewrite (filter_bind_imap_index _ _ _ _ i); [by destruct (fws wf !! i)|].
  intros k fw [i' j] (job & (j' & Hp & _)%list_elem_of_bind & _)%list_elem_of_bind.
  apply list_elem_of_singleton in Hp. by simplify_eq.
Qed.

Lemma length_bind_const {A B : Type} (l : list A) (k : list B) :
  length (l ≫= fun _ => k) = length l * length k.
Proof.
  induction l as [|x l IH]; [done|]. rewrite bind_cons, length_app, IH. simpl. lia.
Qed.

Lemma length_bind_singleton {A B : Type} (f : A -> B) (l : list A) :
  length (l ≫= fun x => [f x]) = length l.
Proof.
  induction l as [|x l IH]; [done|]. rewrite bind_cons, length_app, IH. done.
Qed.

(** The pairs of one Firework: as many as the product of the number of
    job-type labels its name contains and the number of its run tasks;
    none when its name contains no label.  Every pair lies within the
    bounds of the Fireworks and of the task list. *)
Theorem matches_of_product (wf : Workflow) :
  (forall i fw, fws wf !! i = Some fw ->
     matches_of fake_dirs dict_repr wf i
     = length (matching_labels fake_dirs (name fw))
       * length (run_indices dict_repr (tasks fw))) /\
  (forall i, fws wf !! i = None -> matches_of fake_dirs dict_repr wf i = 0) /\
  Forall (fun p => exists fw, fws wf !! p.1 = Some fw /\ p.2 < length (tasks fw))
    (get_runvasp_fws_and_tasks fake_dirs dict_repr wf).
Proof.
  split; [|split].
  - intros i fw Hfw. unfold matches_of. rewrite pairs_of_firework, Hfw.
    by rewrite length_bind_const, length_bind_singleton.
  - intros i Hfw. unfold matches_of. by rewrite pairs_of_firework, Hfw.
  - apply Forall_forall. intros [i j] (fw & t & _ & Hfw & Ht & _)%elem_of_pairs.
    exists fw. split; [done|]. by eapply lookup_lt_Some.
Qed.

End Multiplicity.

(** ** decorate_priority, further *)

(** With a child priority that is absent or not zero, a Firework of
    the root set gets the root priority and every other Firework the child
    priority, which is the root priority when absent. *)
Theorem decorate_priority_roots_and_children (wf : Workflow) (root_priority : Z)
    (child_priority : option Z) (i : nat) (fw : Firework) :
  fws wf !! i = Some fw ->
  child_priority <> Some 0%Z ->
  exists fw', fws (decorate_priority wf root_priority child_priority) !! i = Some fw' /\
    fw_id fw' = fw_id fw /\
    spec_priority (spec fw') =
      Some (if decide (fw_id fw ∈ root_fw_ids wf) then root_priority
            else default root_priority child_priority).
Proof.
  intros Hfw Hc.
  destruct (decorate_priority_lookup wf root_priority child_priority i fw Hfw)
    as (fw' & Hfw' & Hid & _ & _ & _ & _ & Hp).
  exists fw'. split; [done|]. split; [done|]. rewrite Hp.
  destruct child_priority as [c|]; [|done].
  rewrite or_default_supplied by congruence. done.
Qed.

Lemma root_fw_ids_decorate_priority (wf : Workflow) (r : Z) (c : option Z) :
  root_fw_ids (decorate_priority wf r c) = root_fw_ids wf.
Proof.
  unfold root_fw_ids, child_ids, decorate_priority. simpl.
  rewrite <- list_fmap_compose. f_equal. apply list_fmap_ext.
  intros i fw _. simpl. by destruct (decide _).
Qed.

(** [decorate_priority] leaves the root set, the links, the names, the
    tasks and with them the matched pairs as they are; a second decoration
    overrides the first: the result is that of the second one alone. *)
Theorem decorate_priority_again (fake_dirs : list (string * string))
    (dict_repr : gmap string pyval -> string) (wf : Workflow)
    (r r' : Z) (c c' : option Z) :
  root_fw_ids (decorate_priority wf r c) = root_fw_ids wf /\
  links (decorate_priority wf r c) = links wf /\
  get_runvasp_fws_and_tasks fake_dirs dict_repr (decorate_priority wf r c)
  = get_runvasp_fws_and_tasks fake_dirs dict_repr wf /\
  decorate_priority (decorate_priority wf r c) r' c' = decorate_priority wf r' c'.
Proof.
  split; [apply root_fw_ids_decorate_priority|]. split; [done|]. split.
  - symmetry. apply pairs_ext. unfold decorate_priority. simpl.
    apply Forall2_fmap_r, Forall_Forall2_diag, Forall_true.
    intros fw. simpl. by destruct (decide (fw_id fw ∈ root_fw_ids wf)).
  - unfold decorate_priority at 1 3. rewrite root_fw_ids_decorate_priority.
    unfold decorate_priority, wf_with_fws. simpl. f_equal.
    rewrite <- list_fmap_compose. apply list_fmap_ext. intros i fw _. simpl.
    destruct (decide (fw_id fw ∈ root_fw_ids wf)); simpl;
      by destruct (decide (fw_id fw ∈ root_fw_ids wf)).
Qed.

Lemma decorate_priority_roots_and_children_witness :
  exists fw',
    fws (decorate_priority Sample.wf_relax_static 5 (Some 2%Z)) !! 1 = Some fw' /\
    fw_id fw' = 2%Z /\ spec_priority (spec fw') = Some 2%Z.
Proof.
  apply (decorate_priority_roots_and_children Sample.wf_relax_static 5 (Some 2%Z) 1
           (Sample.firework 2 "static"
              [Sample.RunVaspDirect "vasp"; Sample.PassCalcLocs; Sample.VaspToDbTask])).
  - reflexivity.
  - discriminate.
Defined.

(** ** decorate_write_name, further *)

(** [decorate_write_name] puts the marker task at index 0 of every
    serialized task list and moves every former entry one index up; it
    does not touch the in-memory task lists, so the Fireworks keep their
    matched pairs, and the run task of a matched pair [(i, j)] of a
    mirrored Firework is afterwards the entry [j + 1] of
    [spec["_tasks"]], not the entry [j]. *)
Theorem decorate_write_name_shifts (get_slug : string -> string)
    (fake_dirs : list (string * string)) (dict_repr : gmap string pyval -> string)
    (wf : Workflow) (use_slug : bool) :
  length (fws (decorate_write_name get_slug wf use_slug)) = length (fws wf) /\
  get_runvasp_fws_and_tasks fake_dirs dict_repr (decorate_write_name get_slug wf use_slug)
  = get_runvasp_fws_and_tasks fake_dirs dict_repr wf /\
  forall i fw, fws wf !! i = Some fw ->
    exists fw', fws (decorate_write_name get_slug wf use_slug) !! i = Some fw' /\
      name fw' = name fw /\ tasks fw' = tasks fw /\
      spec_tasks (spec fw') !! 0 = Some (marker_task get_slug (name fw) use_slug) /\
      (forall j, spec_tasks (spec fw') !! S j = spec_tasks (spec fw) !! j) /\
      length (spec_tasks (spec fw')) = S (length (spec_tasks (spec fw))) /\
      (fw_mirrored fw -> forall j, spec_tasks (spec fw') !! S j = tasks fw' !! j).
Proof.
  split; [|split].
  - unfold decorate_write_name. simpl. by rewrite length_fmap.
  - symmetry. apply pairs_ext. unfold decorate_write_name. simpl.
    by apply Forall2_fmap_r, Forall_Forall2_diag, Forall_true.
  - intros i fw Hfw. unfold decorate_write_name. simpl.
    rewrite list_lookup_fmap, Hfw. simpl. eexists. split; [done|]. simpl.
    rewrite list_insert_at_0. repeat split; try done.
    intros Hm j. simpl. by rewrite Hm.
Qed.

(** ** add_modify_incar, further *)

Section ModifyIncar.

Variable fake_dirs : list (string * string).
Variable dict_repr : gmap string pyval -> string.

Lemma add_modify_incar_step_eq (p : gmap string pyval) (F : option string)
    (wf : Workflow) (i j : nat) (fw : Firework) :
  fws wf !! i = Some fw ->
  add_modify_incar_step p F wf (i, j) =
  Ok (if passes_filter F (name fw)
      then wf_with_fws
             (<[i := fw_with_spec
                       (with_spec_tasks
                          (list_insert_at (Z.of_nat j - 1) (ModifyIncar p)
                             (spec_tasks (spec fw))) (spec fw)) fw]> (fws wf)) wf
      else wf).
Proof.
  intros Hfw. unfold add_modify_incar_step, passes_filter, list_getitem.
  rewrite Hfw. destruct F as [f|]; simpl; [|done]. by destruct (str_in f (name fw)).
Qed.

Lemma add_modify_incar_loop (p : gmap string pyval) (F : option string)
    (ps : list (nat * nat)) (wf : Workflow) :
  Forall (fun q => q.1 < length (fws wf)) ps ->
  exists wf', for_each (add_modify_incar_step p F) ps wf = Ok wf' /\
    links wf' = links wf /\ wf_name wf' = wf_name wf /\
    length (fws wf') = length (fws wf) /\
    forall k fw, fws wf !! k = Some fw ->
      fws wf' !! k =
      Some (if passes_filter F (name fw)
            then fw_with_spec
                   (with_spec_tasks
                      (insert_modify_incar p (task_indices_of ps k) (spec_tasks (spec fw)))
                      (spec fw)) fw
            else fw).
Proof.
  revert wf. induction ps as [|[i j] ps IH]; intros wf Hall; cbn [for_each].
  - exists wf. repeat split; try done. intros k fw Hk. rewrite Hk. f_equal.
    destruct (passes_filter F (name fw)); [|done]. by destruct fw as [? ? ? []].
  - apply Forall_cons in Hall as [Hi Hall]. simpl in Hi.
    destruct (lookup_lt_is_Some_2 _ _ Hi) as [fw_i Hfw_i].
    rewrite (add_modify_incar_step_eq _ _ _ _ _ _ Hfw_i). cbn [rbind].
    destruct (passes_filter F (name fw_i)) eqn:Hpass.
    + edestruct (IH (wf_with_fws
                       (<[i := fw_with_spec
                                 (with_spec_tasks
                                    (list_insert_at (Z.of_nat j - 1) (ModifyIncar p)
                                       (spec_tasks (spec fw_i))) (spec fw_i)) fw_i]>
                          (fws wf)) wf))
        as (wf' & Hloop & Hl & Hn & Hlen & Hlook).
      { simpl. by rewrite length_insert. }
      exists wf'. split; [done|]. simpl in *. rewrite length_insert in Hlen.
      repeat split; try done.
      intros k fw Hk. unfold task_indices_of. rewrite filter_cons. cbn [fst].
      destruct (decide (i = k)) as [->|Hne].
      * simplify_eq. erewrite Hlook by (by rewrite list_lookup_insert_eq).
        simpl. by rewrite Hpass.
      * apply Hlook. by rewrite list_lookup_insert_ne.
    + destruct (IH wf Hall) as (wf' & Hloop & Hl & Hn & Hlen & Hlook).
      exists wf'. repeat split; try done.
      intros k fw Hk. rewrite (Hlook k fw Hk).
      destruct (passes_filter F (name fw)) eqn:Hpass'; [|done].
      unfold task_indices_of. rewrite filter_cons. cbn [fst].
      destruct (decide (i = k)) as [->|Hne]; [congruence | done].
Qed.

Lemma pairs_lt_length (wf : Workflow) :
  Forall (fun q => q.1 < length (fws wf)) (get_runvasp_fws_and_tasks fake_dirs dict_repr wf).
Proof.
  apply Forall_forall. intros [i j] (fw & _ & _ & Hfw & _)%elem_of_pairs.
  by eapply lookup_lt_Some.
Qed.

(** [add_modify_incar] never raises.  It returns the workflow in which
    a Firework that passes the name filter has in [spec["_tasks"]] the
    insertions for its matched task indices, made in their order, each at
    [insert(idx_t - 1, ...)]; a Firework that fails the filter is returned
    as it is, and so are the links and the workflow name. *)
Theorem add_modify_incar_returns (wf : Workflow) (p : gmap string pyval)
    (F : option string) :
  exists wf',
    add_modify_incar fake_dirs dict_repr wf p F = Ok wf' /\
    links wf' = links wf /\ wf_name wf' = wf_name wf /\
    length (fws wf') = length (fws wf) /\
    forall i fw, fws wf !! i = Some fw ->
      fws wf' !! i =
      Some (if passes_filter F (name fw)
            then fw_with_spec
                   (with_spec_tasks
                      (insert_modify_incar p
                         (task_indices_of (get_runvasp_fws_and_tasks fake_dirs dict_repr wf) i)
                         (spec_tasks (spec fw)))
                      (spec fw)) fw
            else fw).
Proof. unfold add_modify_incar. apply add_modify_incar_loop, pairs_lt_length. Qed.

End ModifyIncar.

(** Where the entries are after [take k xs ++ v :: drop k xs]. *)
Lemma lookup_insert_before {A : Type} (xs : list A) (v : A) (k m : nat) :
  k <= length xs -> m < k -> (take k xs ++ v :: drop k xs) !! m = xs !! m.
Proof.
  intros Hk Hm. rewrite lookup_app_l by (rewrite length_take_le; lia).
  by apply lookup_take_lt.
Qed.

Lemma lookup_insert_here {A : Type} (xs : list A) (v : A) (k : nat) :
  k <= length xs -> (take k xs ++ v :: drop k xs) !! k = Some v.
Proof.
  intros Hk. rewrite lookup_app_r by (rewrite length_take_le; lia).
  rewrite length_take_le by lia. by rewrite Nat.sub_diag.
Qed.

Lemma lookup_insert_after {A : Type} (xs : list A) (v : A) (k m : nat) :
  k <= length xs -> k <= m -> (take k xs ++ v :: drop k xs) !! S m = xs !! m.
Proof.
  intros Hk Hm. rewrite lookup_app_r by (rewrite length_take_le; lia).
  rewrite length_take_le by lia. replace (S m - k) with (S (m - k)) by lia.
  simpl. rewrite lookup_drop. f_equal. lia.
Qed.

Lemma list_insert_at_split {A : Type} (i : Z) (v : A) (xs : list A) :
  exists k, k <= length xs /\ list_insert_at i v xs = take k xs ++ v :: drop k xs.
Proof.
  unfold list_insert_at. cbv zeta. eexists. split; [|reflexivity].
  repeat case_decide; lia.
Qed.

Section ModifyIncarEntries.

Variable fake_dirs : list (string * string).
Variable dict_repr : gmap string pyval -> string.

Lemma insert_modify_incar_keeps (p : gmap string pyval) (js : list nat) (ts : list task) :
  ts `sublist_of` insert_modify_incar p js ts /\
  length (insert_modify_incar p js ts) = length ts + length js /\
  Forall (fun t => t ∈ ts \/ t = ModifyIncar p) (insert_modify_incar p js ts).
Proof.
  unfold insert_modify_incar. revert ts.
  induction js as [|j js IH]; intros ts; simpl.
  - split; [done|]. split; [lia|]. apply Forall_forall. by left.
  - destruct (list_insert_at_split (Z.of_nat j - 1) (ModifyIncar p) ts)
      as (k & Hk & Heq).
    destruct (IH (list_insert_at (Z.of_nat j - 1) (ModifyIncar p) ts))
      as (Hsub & Hlen & Hall).
    split; [|split].
    + etrans; [|exact Hsub]. rewrite Heq. rewrite <- (take_drop k ts) at 1.
      apply sublist_app; [done|]. by apply sublist_cons.
    + rewrite Hlen, Heq, length_app. simpl. rewrite length_take_le, length_drop by lia.
      lia.
    + eapply Forall_impl; [exact Hall|]. intros t [Ht|Ht]; [|by right].
      rewrite Heq in Ht. apply elem_of_app in Ht as [Ht|Ht].
      * left. by apply (subseteq_take k ts).
      * apply elem_of_cons in Ht as [->|Ht]; [by right|].
        left. by apply (subseteq_drop k ts).
Qed.

(** [add_modify_incar] removes and reorders nothing: the former
    entries of [spec["_tasks"]] are a sublist of the new ones, every other
    entry is the new [ModifyIncar] task, and a Firework that passes the
    filter gets as many new entries as it has matched pairs, a Firework
    that fails it none.  Name, id, in-memory tasks and the other settings
    are kept, and with them the matched pairs of the workflow. *)
Theorem add_modify_incar_keeps_entries (wf wf' : Workflow) (p : gmap string pyval)
    (F : option string) (i : nat) (fw fw' : Firework) :
  add_modify_incar fake_dirs dict_repr wf p F = Ok wf' ->
  fws wf !! i = Some fw -> fws wf' !! i = Some fw' ->
  fw_id fw' = fw_id fw /\ name fw' = name fw /\ tasks fw' = tasks fw /\
  spec_priority (spec fw') = spec_priority (spec fw) /\
  spec_trackers (spec fw') = spec_trackers (spec fw) /\
  spec_rest (spec fw') = spec_rest (spec fw) /\
  spec_tasks (spec fw) `sublist_of` spec_tasks (spec fw') /\
  Forall (fun t => t ∈ spec_tasks (spec fw) \/ t = ModifyIncar p) (spec_tasks (spec fw')) /\
  length (spec_tasks (spec fw')) =
    length (spec_tasks (spec fw))
    + (if passes_filter F (name fw) then matches_of fake_dirs dict_repr wf i else 0) /\
  get_runvasp_fws_and_tasks fake_dirs dict_repr wf'
  = get_runvasp_fws_and_tasks fake_dirs dict_repr wf.
Proof.
  unfold add_modify_incar. intros Hadd Hfw Hfw'.
  destruct (add_modify_incar_loop p F _ wf (pairs_lt_length fake_dirs dict_repr wf))
    as (wf1 & Hloop & _ & _ & Hlen & Hlook).
  rewrite Hloop in Hadd. injection Hadd as <-.
  assert (get_runvasp_fws_and_tasks fake_dirs dict_repr wf1
          = get_runvasp_fws_and_tasks fake_dirs dict_repr wf) as Hpairs.
  { symmetry. apply pairs_ext. apply Forall2_same_length_lookup. split; [done|].
    intros k x y Hx Hy. rewrite (Hlook k x Hx) in Hy. injection Hy as <-.
    by destruct (passes_filter F (name x)). }
  rewrite (Hlook i fw Hfw) in Hfw'. injection Hfw' as <-.
  destruct (insert_modify_incar_keeps p
              (task_indices_of (get_runvasp_fws_and_tasks fake_dirs dict_repr wf) i)
              (spec_tasks (spec fw))) as (Hsub & Hl & Hall).
  destruct (passes_filter F (name fw)); simpl.
  - repeat split; try done. rewrite Hl. f_equal.
    unfold task_indices_of, matches_of. by rewrite length_fmap.
  - repeat split; try done; try lia. apply Forall_forall. by left.
Qed.

End ModifyIncarEntries.

Lemma add_modify_incar_keeps_entries_witness :
  exists fw',
    fws (Cases.modified Cases.wf_static None) !! 0 = Some fw' /\
    name fw' = "static" /\
    tasks fw' = [Sample.WriteVaspFromIOSet; Sample.RunVaspDirect "vasp_std";
                 Sample.VaspToDbTask] /\
    length (spec_tasks (spec fw')) = 3 + 1.
Proof.
  eexists. split; [reflexivity|].
  destruct (add_modify_incar_keeps_entries Sample.fake_dirs Sample.dict_repr
              Cases.wf_static (Cases.modified Cases.wf_static None) Cases.incar_params
              None 0 _ _ eq_refl eq_refl eq_refl)
    as (_ & Hname & Htasks & _ & _ & _ & _ & _ & Hlen & _).
  split; [exact Hname|]. split; [exact Htasks|]. exact Hlen.
Defined.

Section ModifyIncarPosition.

Variable fake_dirs : list (string * string).
Variable dict_repr : gmap string pyval -> string.

Lemma add_modify_incar_single (wf : Workflow) (p : gmap string pyval) (F : option string)
    (i j : nat) (fw : Firework) :
  get_runvasp_fws_and_tasks fake_dirs dict_repr wf = [(i, j)] ->
  fws wf !! i = Some fw -> passes_filter F (name fw) = true ->
  exists wf' fw',
    add_modify_incar fake_dirs dict_repr wf p F = Ok wf' /\
    fws wf' !! i = Some fw' /\
    spec_tasks (spec fw')
    = list_insert_at (Z.of_nat j - 1) (ModifyIncar p) (spec_tasks (spec fw)).
Proof.
  intros Hpairs Hfw Hpass. unfold add_modify_incar.
  destruct (add_modify_incar_loop p F _ wf (pairs_lt_length fake_dirs dict_repr wf))
    as (wf' & Hloop & _ & _ & _ & Hlook).
  exists wf'. eexists. split; [done|]. split; [by apply Hlook|].
  rewrite Hpass, Hpairs. unfold task_indices_of. rewrite filter_cons. cbn [fst].
  by rewrite decide_True.
Qed.

(** When the only matched pair of a workflow is [(i, j)] with
    [1 <= j], the new [ModifyIncar] entry of Firework [i] lands at index
    [j - 1]: the entry that was at [j - 1] stays between it and the matched
    task, which moves to [j + 1]. *)
Theorem add_modify_incar_one_too_early (wf : Workflow) (p : gmap string pyval)
    (F : option string) (i j : nat) (fw : Firework) :
  get_runvasp_fws_and_tasks fake_dirs dict_repr wf = [(i, j)] ->
  fws wf !! i = Some fw -> passes_filter F (name fw) = true ->
  1 <= j -> j < length (spec_tasks (spec fw)) ->
  exists wf' fw',
    add_modify_incar fake_dirs dict_repr wf p F = Ok wf' /\
    fws wf' !! i = Some fw' /\
    spec_tasks (spec fw') !! (j - 1) = Some (ModifyIncar p) /\
    spec_tasks (spec fw') !! j = spec_tasks (spec fw) !! (j - 1) /\
    spec_tasks (spec fw') !! S j = spec_tasks (spec fw) !! j.
Proof.
  intros Hpairs Hfw Hpass Hj Hlen.
  destruct (add_modify_incar_single wf p F i j fw Hpairs Hfw Hpass)
    as (wf' & fw' & Hadd & Hfw' & Hts).
  exists wf', fw'. split; [done|]. split; [done|].
  rewrite Hts, list_insert_at_pred by lia. split; [|split].
  - apply lookup_insert_here. lia.
  - pose proof (lookup_insert_after (spec_tasks (spec fw)) (ModifyIncar p)
                  (j - 1) (j - 1)) as Hafter.
    replace (S (j - 1)) with j in Hafter by lia. apply Hafter; lia.
  - apply lookup_insert_after; lia.
Qed.

(** When the only matched pair of a workflow is [(i, 0)], the index
    [-1] of the insertion counts from the end: the new [ModifyIncar] entry
    of Firework [i] lands in front of the last entry, so all entries but
    the last keep their index, and the matched task at index 0 stays in
    front of the new entry as soon as the list has two entries. *)
Theorem add_modify_incar_first_task (wf : Workflow) (p : gmap string pyval)
    (F : option string) (i : nat) (fw : Firework) :
  get_runvasp_fws_and_tasks fake_dirs dict_repr wf = [(i, 0)] ->
  fws wf !! i = Some fw -> passes_filter F (name fw) = true ->
  1 <= length (spec_tasks (spec fw)) ->
  exists wf' fw',
    add_modify_incar fake_dirs dict_repr wf p F = Ok wf' /\
    fws wf' !! i = Some fw' /\
    spec_tasks (spec fw') !! (length (spec_tasks (spec fw)) - 1) = Some (ModifyIncar p) /\
    spec_tasks (spec fw') !! length (spec_tasks (spec fw))
    = spec_tasks (spec fw) !! (length (spec_tasks (spec fw)) - 1) /\
    (forall k, k < length (spec_tasks (spec fw)) - 1 ->
       spec_tasks (spec fw') !! k = spec_tasks (spec fw) !! k).
Proof.
  intros Hpairs Hfw Hpass Hlen.
  destruct (add_modify_incar_single wf p F i 0 fw Hpairs Hfw Hpass)
    as (wf' & fw' & Hadd & Hfw' & Hts).
  exists wf', fw'. split; [done|]. split; [done|].
  rewrite Hts, list_insert_at_minus_1. split; [|split].
  - apply lookup_insert_here. lia.
  - pose proof (lookup_insert_after (spec_tasks (spec fw)) (ModifyIncar p)
                  (length (spec_tasks (spec fw)) - 1)
                  (length (spec_tasks (spec fw)) - 1)) as Hafter.
    replace (S (length (spec_tasks (spec fw)) - 1))
      with (length (spec_tasks (spec fw))) in Hafter by lia.
    apply Hafter; lia.
  - intros k Hk. apply lookup_insert_before; lia.
Qed.

End ModifyIncarPosition.

Lemma add_modify_incar_one_too_early_witness :
  exists wf' fw',
    add_modify_incar Sample.fake_dirs Sample.dict_repr Cases.wf_static
      Cases.incar_params None = Ok wf' /\
    fws wf' !! 0 = Some fw' /\
    spec_tasks (spec fw') !! (1 - 1) = Some (ModifyIncar Cases.incar_params) /\
    spec_tasks (spec fw') !! 1 = Some Sample.WriteVaspFromIOSet /\
    spec_tasks (spec fw') !! 2 = Some (Sample.RunVaspDirect "vasp_std").
Proof.
  apply (add_modify_incar_one_too_early Sample.fake_dirs Sample.dict_repr
           Cases.wf_static Cases.incar_params None 0 1
           (Sample.firework 1 "static"
              [Sample.WriteVaspFromIOSet; Sample.RunVaspDirect "vasp_std";
               Sample.VaspToDbTask])).
  - vm_compute. reflexivity.
  - reflexivity.
  - reflexivity.
  - lia.
  - simpl. lia.
Defined.

Lemma add_modify_incar_first_task_witness :
  exists wf' fw',
    add_modify_incar Sample.fake_dirs Sample.dict_repr Cases.wf_run_first
      Cases.incar_params None = Ok wf' /\
    fws wf' !! 0 = Some fw' /\
    spec_tasks (spec fw') !! (3 - 1) = Some (ModifyIncar Cases.incar_params) /\
    spec_tasks (spec fw') !! 3 = Some Sample.VaspToDbTask /\
    (forall k, k < 3 - 1 ->
       spec_tasks (spec fw') !! k
       = [Sample.RunVaspDirect "vasp_std"; Sample.PassCalcLocs; Sample.VaspToDbTask] !! k).
Proof.
  apply (add_modify_incar_first_task Sample.fake_dirs Sample.dict_repr
           Cases.wf_run_first Cases.incar_params None 0
           (Sample.firework 1 "static"
              [Sample.RunVaspDirect "vasp_std"; Sample.PassCalcLocs;
               Sample.VaspToDbTask])).
  - vm_compute. reflexivity.
  - reflexivity.
  - reflexivity.
  - simpl. lia.
Defined.

(** ** use_custodian, further *)

Section CustodianFrame.

Variable fake_dirs : list (string * string).
Variable dict_repr : gmap string pyval -> string.

Lemma use_custodian_loop_shape (F : option string) (cp : gmap string pyval)
    (ps : list (nat * nat)) (d d' : WfDict) :
  for_each (use_custodian_step F cp) ps d = Ok d' ->
  d_links d' = d_links d /\ d_wf_name d' = d_wf_name d /\
  length (d_fws d') = length (d_fws d) /\
  forall k fwd, d_fws d !! k = Some fwd ->
    exists fwd', d_fws d' !! k = Some fwd' /\
      d_fw_id fwd' = d_fw_id fwd /\ d_name fwd' = d_name fwd /\
      spec_priority (d_spec fwd') = spec_priority (d_spec fwd) /\
      spec_trackers (d_spec fwd') = spec_trackers (d_spec fwd) /\
      spec_rest (d_spec fwd') = spec_rest (d_spec fwd) /\
      length (spec_tasks (d_spec fwd')) = length (spec_tasks (d_spec fwd)) /\
      (forall j, (k, j) ∉ ps ->
         spec_tasks (d_spec fwd') !! j = spec_tasks (d_spec fwd) !! j) /\
      (forall j t', spec_tasks (d_spec fwd') !! j = Some t' ->
         spec_tasks (d_spec fwd) !! j = Some t' \/ exists kw, t' = RunVaspCustodian kw).
Proof.
  revert d. induction ps as [|[i j] ps IH]; intros d; cbn [for_each].
  - intros [= <-]. repeat split; try done. intros k fwd Hk. exists fwd.
    repeat split; try done. intros j t' Ht'. by left.
  - destruct (use_custodian_step F cp d (i, j)) as [d1|] eqn:Hstep; simpl; [|done].
    intros Hloop. destruct (IH _ Hloop) as (Hl & Hn & Hlen & Hlook).
    destruct (use_custodian_step_custodian _ _ _ _ _ _ Hstep) as [->|[kw Hset]].
    { repeat split; try done. intros k fwd Hk.
      destruct (Hlook k fwd Hk) as (fwd' & Hk' & H1 & H2 & H3 & H4 & H5 & H6 & H7 & H8).
      exists fwd'. repeat split; try done. intros j' Hj'. apply H7.
      intros Hin. apply Hj'. by right. }
    apply set_task_entry_Ok in Hset as (fwd_i & Hfwd_i & Hj & ->). simpl in *.
    rewrite length_insert in Hlen. repeat split; try done.
    intros k fwd Hk. destruct (decide (k = i)) as [->|Hne].
    + simplify_eq.
      destruct (Hlook i _ (list_lookup_insert_eq _ _ _ (lookup_lt_Some _ _ _ Hfwd_i)))
        as (fwd' & Hk' & H1 & H2 & H3 & H4 & H5 & H6 & H7 & H8).
      simpl in *. rewrite length_insert in H6.
      exists fwd'. repeat split; try done.
      * intros j' Hj'. rewrite H7 by (intros Hin; apply Hj'; by right).
        apply list_lookup_insert_ne. intros ->. apply Hj'. by left.
      * intros j' t' Ht'. destruct (H8 j' t' Ht') as [Hold|Hnew]; [|by right].
        destruct (decide (j' = j)) as [->|Hne].
        -- rewrite list_lookup_insert_eq in Hold by done. right. exists kw. congruence.
        -- rewrite list_lookup_insert_ne in Hold by done. by left.
    + destruct (Hlook k fwd) as (fwd' & Hk' & H1 & H2 & H3 & H4 & H5 & H6 & H7 & H8);
        [by rewrite list_lookup_insert_ne|].
      exists fwd'. repeat split; try done.
      intros j' Hj'. apply H7. intros Hin. apply Hj'. by right.
Qed.

(** [use_custodian] touches nothing but matched entries: the mapping it
    hands to [Workflow.from_dict] has the links and the name of the
    serialized input and as many Fireworks; each of them keeps the id,
    name, priority, trackers, other settings and length of the task list
    of the serialized input Firework, an entry whose pair is not matched
    is the entry of the serialized input, and an entry that differs from
    it is a [RunVaspCustodian] task. *)
Theorem use_custodian_touches_matched_only (wf wf' : Workflow) (F : option string)
    (cp : option (gmap string pyval)) :
  use_custodian fake_dirs dict_repr wf F cp = Ok wf' ->
  exists d', wf' = from_dict d' /\
    d_links d' = d_links (to_dict wf) /\ d_wf_name d' = d_wf_name (to_dict wf) /\
    length (d_fws d') = length (d_fws (to_dict wf)) /\
    forall i fwd, d_fws (to_dict wf) !! i = Some fwd ->
      exists fwd', d_fws d' !! i = Some fwd' /\
        d_fw_id fwd' = d_fw_id fwd /\ d_name fwd' = d_name fwd /\
        spec_priority (d_spec fwd') = spec_priority (d_spec fwd) /\
        spec_trackers (d_spec fwd') = spec_trackers (d_spec fwd) /\
        spec_rest (d_spec fwd') = spec_rest (d_spec fwd) /\
        length (spec_tasks (d_spec fwd')) = length (spec_tasks (d_spec fwd)) /\
        (forall j, (i, j) ∉ get_runvasp_fws_and_tasks fake_dirs dict_repr wf ->
           spec_tasks (d_spec fwd') !! j = spec_tasks (d_spec fwd) !! j) /\
        (forall j t', spec_tasks (d_spec fwd') !! j = Some t' ->
           spec_tasks (d_spec fwd) !! j = Some t' \/ exists kw, t' = RunVaspCustodian kw).
Proof.
  unfold use_custodian.
  destruct (for_each _ _ _) as [d'|] eqn:Hloop; simpl; [|done]. intros [= <-].
  exists d'. split; [done|]. exact (use_custodian_loop_shape _ _ _ _ _ Hloop).
Qed.

End CustodianFrame.

Lemma use_custodian_touches_matched_only_witness :
  exists d', Sample.custodian_static = from_dict d' /\
    d_links d' = d_links (to_dict Sample.wf_relax_static) /\
    d_wf_name d' = d_wf_name (to_dict Sample.wf_relax_static) /\
    length (d_fws d') = length (d_fws (to_dict Sample.wf_relax_static)).
Proof.
  destruct (use_custodian_touches_matched_only Sample.fake_dirs Sample.dict_repr
              Sample.wf_relax_static Sample.custodian_static (Some "static") None eq_refl)
    as (d' & Heq & Hl & Hn & Hlen & _).
  exists d'. split; [exact Heq|]. split; [exact Hl|]. split; [exact Hn | exact Hlen].
Defined.

Section CustodianCommand.

Variable fake_dirs : list (string * string).
Variable dict_repr : gmap string pyval -> string.

(** A step that returns, with no command among the parameters, leaves
    the entry or puts a custodian task that carries a command. *)
Lemma use_custodian_step_no_cmd (F : option string) (cp : gmap string pyval)
    (d d' : WfDict) (i j : nat) :
  dict_contains "vasp_cmd" cp = false ->
  use_custodian_step F cp d (i, j) = Ok d' ->
  d' = d \/
  exists t c, entry d i j = Some t /\ params t !! "vasp_cmd" = Some c /\
    set_task_entry d i j (RunVaspCustodian (<["vasp_cmd" := c]> cp)) = Ok d'.
Proof.
  intros Hcp. unfold use_custodian_step, list_getitem, dict_getitem, entry. rewrite Hcp.
  destruct F as [f|]; simpl.
  - destruct (d_fws d !! i) as [fwd|] eqn:Hfwd; simpl; [|done].
    destruct (str_in f (d_name fwd)); [|intros [= <-]; by left].
    destruct (spec_tasks (d_spec fwd) !! j) as [t|]; simpl; [|done].
    destruct (params t !! "vasp_cmd") as [c|] eqn:Hc; simpl; [|done].
    intros Hset. right. by exists t, c.
  - destruct (d_fws d !! i) as [fwd|] eqn:Hfwd; simpl; [|done].
    destruct (spec_tasks (d_spec fwd) !! j) as [t|]; simpl; [|done].
    destruct (params t !! "vasp_cmd") as [c|] eqn:Hc; simpl; [|done].
    intros Hset. right. by exists t, c.
Qed.

Lemma entries_kept_or_commanded_step (F : option string) (cp : gmap string pyval)
    (d0 d d' : WfDict) (i j : nat) :
  dict_contains "vasp_cmd" cp = false ->
  entries_kept_or_commanded d0 d ->
  use_custodian_step F cp d (i, j) = Ok d' ->
  entries_kept_or_commanded d0 d'.
Proof.
  intros Hcp [Hnames Hent] Hstep.
  destruct (use_custodian_step_no_cmd _ _ _ _ _ _ Hcp Hstep)
    as [->|(t & c & _ & _ & Hset)]; [done|].
  split; [by rewrite (set_task_entry_names _ _ _ _ _ Hset)|].
  intros i' j'. rewrite (set_task_entry_entry _ _ _ _ i' j' _ Hset).
  destruct (decide ((i', j') = (i, j))); [|apply Hent].
  right. eexists. split; [done|]. simpl. rewrite lookup_insert_eq. by eexists.
Qed.

Lemma use_custodian_loop_Raise (wf : Workflow) (F : option string)
    (cp : gmap string pyval) (ps : list (nat * nat)) (d0 d : WfDict) (e : exn) :
  covers wf d ->
  Forall (.∈ get_runvasp_fws_and_tasks fake_dirs dict_repr wf) ps ->
  entries_kept_or_commanded d0 d ->
  for_each (use_custodian_step F cp) ps d = Raise e ->
  e = KeyError "vasp_cmd" /\ dict_contains "vasp_cmd" cp = false /\
  exists i j fwd0 t0, (i, j) ∈ ps /\ d_fws d0 !! i = Some fwd0 /\
    passes_filter F (d_name fwd0) = true /\
    spec_tasks (d_spec fwd0) !! j = Some t0 /\ params t0 !! "vasp_cmd" = None.
Proof.
  revert d. induction ps as [|[i j] ps IH]; intros d Hcov Hall Hinv; cbn [for_each];
    [done|].
  apply Forall_cons in Hall as [Hij Hall].
  destruct (use_custodian_step F cp d (i, j)) as [d1|e1] eqn:Hstep; simpl.
  - intros Hloop.
    assert (dict_contains "vasp_cmd" cp = false) as Hcp.
    { destruct (dict_contains "vasp_cmd" cp) eqn:Hcp; [|done].
      destruct (use_custodian_loop_total fake_dirs dict_repr wf F cp ps d1 Hcp)
        as [d' Hd']; [by eapply use_custodian_step_covers|done|congruence]. }
    destruct (IH d1) as (He & _ & i' & j' & fwd0 & t0 & Hel & H); try done.
    + by eapply use_custodian_step_covers.
    + by eapply entries_kept_or_commanded_step.
    + split; [done|]. split; [done|]. exists i', j', fwd0, t0. split; [by right|done].
  - intros [= <-].
    destruct (use_custodian_step_Raise fake_dirs dict_repr _ _ _ _ _ _ _ Hcov Hij Hstep)
      as [-> Hcp].
    split; [done|]. split; [done|].
    destruct (covers_pair fake_dirs dict_repr _ _ _ _ Hcov Hij)
      as (fw & fwd & t & Hfw & Hfwd & Hnm & Ht).
    rewrite (use_custodian_step_eq _ _ _ _ _ _ _ Hfwd Ht), Hcp in Hstep.
    destruct (passes_filter F (d_name fwd)) eqn:Hpass; [|done].
    destruct (params t !! "vasp_cmd") as [c|] eqn:Hc.
    { by destruct (set_task_entry_total d i j
                     (RunVaspCustodian (<["vasp_cmd" := c]> cp)) _ _ Hfwd Ht) as [? Heq];
        rewrite Heq in Hstep. }
    destruct Hinv as [Hnames Hent].
    destruct (names_lookup _ _ _ _ (eq_sym Hnames) Hfwd) as (fwd0 & Hfwd0 & Hn0).
    exists i, j, fwd0, t. split; [by left|]. split; [done|].
    split; [by rewrite Hn0|]. split; [|done].
    destruct (Hent i j) as [Heq|(t' & Ht' & Hsome)].
    + unfold entry in Heq. rewrite Hfwd, Hfwd0 in Heq. simpl in Heq. congruence.
    + unfold entry in Ht'. rewrite Hfwd in Ht'. simpl in Ht'.
      rewrite Ht in Ht'. injection Ht' as <-. rewrite Hc in Hsome. by destruct Hsome.
Qed.

(** The only way [use_custodian] fails, on a workflow whose serialized
    task lists have an entry for every task: it raises [KeyError
    "vasp_cmd"], the custodian parameters carry no "vasp_cmd", and some
    matched task of a Firework that passes the filter has no "vasp_cmd"
    parameter in the serialized input. *)
Theorem use_custodian_raises_only_KeyError (wf : Workflow) (F : option string)
    (cp : option (gmap string pyval)) (e : exn) :
  tasks_serialized wf ->
  use_custodian fake_dirs dict_repr wf F cp = Raise e ->
  e = KeyError "vasp_cmd" /\
  dict_contains "vasp_cmd" (default ∅ cp) = false /\
  exists i j fw t,
    (i, j) ∈ get_runvasp_fws_and_tasks fake_dirs dict_repr wf /\
    fws wf !! i = Some fw /\ passes_filter F (name fw) = true /\
    spec_tasks (spec fw) !! j = Some t /\ params t !! "vasp_cmd" = None.
Proof.
  intros Hser. unfold use_custodian.
  change (match cp with Some p => p | None => ∅ end) with (default ∅ cp).
  destruct (for_each _ _ _) as [d'|e'] eqn:Hloop; simpl; [done|]. intros [= ->].
  destruct (use_custodian_loop_Raise wf F (default ∅ cp)
              (get_runvasp_fws_and_tasks fake_dirs dict_repr wf) (to_dict wf) (to_dict wf) e)
    as (He & Hcp & i & j & fwd0 & t0 & Hel & Hfwd0 & Hpass & Ht0 & Hbare); try done.
  - by apply covers_to_dict.
  - by apply Forall_forall.
  - split; [done|]. intros i j. by left.
  - split; [done|]. split; [done|].
    unfold to_dict in Hfwd0. simpl in Hfwd0. rewrite list_lookup_fmap in Hfwd0.
    destruct (fws wf !! i) as [fw|] eqn:Hfw; [|done]. simpl in Hfwd0.
    injection Hfwd0 as <-. by exists i, j, fw, t0.
Qed.

(** [use_custodian] returns a workflow as soon as every matched task
    of a Firework that passes the filter carries a "vasp_cmd" parameter in
    the serialized input, provided every task has a serialized entry. *)
Theorem use_custodian_returns (wf : Workflow) (F : option string)
    (cp : option (gmap string pyval)) :
  tasks_serialized wf ->
  (forall i j fw t,
     (i, j) ∈ get_runvasp_fws_and_tasks fake_dirs dict_repr wf ->
     fws wf !! i = Some fw -> passes_filter F (name fw) = true ->
     spec_tasks (spec fw) !! j = Some t -> is_Some (params t !! "vasp_cmd")) ->
  exists wf', use_custodian fake_dirs dict_repr wf F cp = Ok wf'.
Proof.
  intros Hser Hcmd. unfold use_custodian.
  change (match cp with Some p => p | None => ∅ end) with (default ∅ cp).
  destruct (for_each _ _ _) as [d'|e'] eqn:Hloop; simpl; [by eexists|].
  destruct (use_custodian_loop_Raise wf F (default ∅ cp)
              (get_runvasp_fws_and_tasks fake_dirs dict_repr wf) (to_dict wf) (to_dict wf) e')
    as (He & Hcp & i & j & fwd0 & t0 & Hel & Hfwd0 & Hpass & Ht0 & Hbare); try done.
  - by apply covers_to_dict.
  - by apply Forall_forall.
  - split; [done|]. intros i j. by left.
  - unfold to_dict in Hfwd0. simpl in Hfwd0. rewrite list_lookup_fmap in Hfwd0.
    destruct (fws wf !! i) as [fw|] eqn:Hfw; [|done]. simpl in Hfwd0.
    injection Hfwd0 as <-.
    destruct (Hcmd i j fw t0 Hel Hfw Hpass Ht0) as [c Hc]. simpl in Hbare. congruence.
Qed.

End CustodianCommand.

Section CustodianCarries.

Variable fake_dirs : list (string * string).
Variable dict_repr : gmap string pyval -> string.

Lemma use_custodian_step_other (F : option string) (cp : gmap string pyval)
    (d d1 : WfDict) (i j i0 j0 : nat) (fwd0 : FwDict) (t0 : task) :
  use_custodian_step F cp d (i, j) = Ok d1 -> (i, j) <> (i0, j0) ->
  d_fws d !! i0 = Some fwd0 -> spec_tasks (d_spec fwd0) !! j0 = Some t0 ->
  exists fwd1, d_fws d1 !! i0 = Some fwd1 /\ d_name fwd1 = d_name fwd0 /\
    spec_tasks (d_spec fwd1) !! j0 = Some t0.
Proof.
  intros [->|[v Hv]]%use_custodian_step_cases Hne Hfwd0 Ht0; [by exists fwd0|].
  pose proof (set_task_entry_entry _ _ _ _ i0 j0 _ Hv) as He.
  rewrite decide_False in He by congruence.
  destruct (names_lookup _ _ _ _ (set_task_entry_names _ _ _ _ _ Hv) Hfwd0)
    as (fwd1 & H1 & Hn1).
  exists fwd1. split; [done|]. split; [done|].
  unfold entry in He. rewrite H1, Hfwd0 in He. simpl in He. congruence.
Qed.

Lemma use_custodian_loop_command (F : option string) (cp : gmap string pyval)
    (ps : list (nat * nat)) (d d' : WfDict) (i0 j0 : nat) (c : pyval) :
  dict_contains "vasp_cmd" cp = false ->
  for_each (use_custodian_step F cp) ps d = Ok d' ->
  entry d i0 j0 = Some (RunVaspCustodian (<["vasp_cmd" := c]> cp)) ->
  entry d' i0 j0 = Some (RunVaspCustodian (<["vasp_cmd" := c]> cp)).
Proof.
  intros Hcp. revert d. induction ps as [|[i j] ps IH]; intros d; cbn [for_each].
  - by intros [= <-].
  - destruct (use_custodian_step F cp d (i, j)) as [d1|] eqn:Hstep; simpl; [|done].
    intros Hloop He. apply (IH _ Hloop).
    destruct (use_custodian_step_no_cmd _ _ _ _ _ _ Hcp Hstep)
      as [->|(t & c' & Ht & Hc' & Hset)]; [done|].
    rewrite (set_task_entry_entry _ _ _ _ i0 j0 _ Hset).
    destruct (decide ((i0, j0) = (i, j))) as [Heq|]; [|done].
    simplify_eq. simpl in Hc'. rewrite lookup_insert_eq in Hc'. by simplify_eq.
Qed.

Lemma use_custodian_loop_carries (F : option string) (cp : gmap string pyval)
    (ps : list (nat * nat)) (d d' : WfDict) (i0 j0 : nat) (fwd0 : FwDict)
    (t0 : task) (c : pyval) :
  dict_contains "vasp_cmd" cp = false ->
  for_each (use_custodian_step F cp) ps d = Ok d' ->
  (i0, j0) ∈ ps ->
  d_fws d !! i0 = Some fwd0 -> passes_filter F (d_name fwd0) = true ->
  spec_tasks (d_spec fwd0) !! j0 = Some t0 -> params t0 !! "vasp_cmd" = Some c ->
  entry d' i0 j0 = Some (RunVaspCustodian (<["vasp_cmd" := c]> cp)).
Proof.
  intros Hcp. revert d fwd0.
  induction ps as [|[i j] ps IH]; intros d fwd0 Hloop Hel Hfwd0 Hpass Ht0 Hc.
  - by apply elem_of_nil in Hel.
  - cbn [for_each] in Hloop.
    destruct (use_custodian_step F cp d (i, j)) as [d1|] eqn:Hstep; simpl in Hloop;
      [|done].
    destruct (decide ((i, j) = (i0, j0))) as [Heq|Hne].
    + simplify_eq. apply (use_custodian_loop_command _ _ _ _ _ _ _ _ Hcp Hloop).
      rewrite (use_custodian_step_eq _ _ _ _ _ _ _ Hfwd0 Ht0), Hpass, Hcp, Hc in Hstep.
      rewrite (set_task_entry_entry _ _ _ _ i0 j0 _ Hstep). by rewrite decide_True.
    + apply elem_of_cons in Hel as [?|Hel]; [congruence|].
      destruct (use_custodian_step_other _ _ _ _ _ _ _ _ _ _ Hstep Hne Hfwd0 Ht0)
        as (fwd1 & H1 & Hn1 & Ht1).
      apply (IH d1 fwd1); try done. congruence.
Qed.

(** The command is carried over: when [use_custodian] returns and the
    custodian parameters carry no "vasp_cmd", a matched entry of a
    Firework that passes the filter becomes the custodian task built from
    the "vasp_cmd" of the entry it replaces and the custodian parameters. *)
Theorem use_custodian_carries_command (wf wf' : Workflow) (F : option string)
    (cp : option (gmap string pyval)) (i j : nat) (fw : Firework) (t : task) (c : pyval) :
  use_custodian fake_dirs dict_repr wf F cp = Ok wf' ->
  dict_contains "vasp_cmd" (default ∅ cp) = false ->
  (i, j) ∈ get_runvasp_fws_and_tasks fake_dirs dict_repr wf ->
  fws wf !! i = Some fw -> passes_filter F (name fw) = true ->
  spec_tasks (spec fw) !! j = Some t -> params t !! "vasp_cmd" = Some c ->
  entry (to_dict wf') i j
  = Some (RunVaspCustodian (<["vasp_cmd" := c]> (default ∅ cp))).
Proof.
  unfold use_custodian.
  change (match cp with Some p => p | None => ∅ end) with (default ∅ cp).
  destruct (for_each _ _ _) as [d'|] eqn:Hloop; simpl; [|done].
  intros [= <-] Hcp Hel Hfw Hpass Ht Hc. rewrite to_dict_from_dict.
  apply (use_custodian_loop_carries F (default ∅ cp)
           (get_runvasp_fws_and_tasks fake_dirs dict_repr wf) (to_dict wf) d'
           i j (fw_to_dict fw) t c); try done.
  unfold to_dict. simpl. by rewrite list_lookup_fmap, Hfw.
Qed.

End CustodianCarries.

Lemma use_custodian_raises_only_KeyError_witness :
  KeyError "vasp_cmd" = KeyError "vasp_cmd" /\
  dict_contains "vasp_cmd" (default ∅ None) = false /\
  exists i j fw t,
    (i, j) ∈ get_runvasp_fws_and_tasks Sample.fake_dirs Sample.dict_repr Sample.wf_bare_run /\
    fws Sample.wf_bare_run !! i = Some fw /\ passes_filter None (name fw) = true /\
    spec_tasks (spec fw) !! j = Some t /\ params t !! "vasp_cmd" = None.
Proof.
  apply (use_custodian_raises_only_KeyError Sample.fake_dirs Sample.dict_repr
           Sample.wf_bare_run None None (KeyError "vasp_cmd")).
  - repeat constructor.
  - vm_compute. reflexivity.
Defined.

Lemma use_custodian_returns_witness :
  exists wf',
    use_custodian Sample.fake_dirs Sample.dict_repr Cases.wf_static None
      (Some Cases.handler_params) = Ok wf'.
Proof.
  apply (use_custodian_returns Sample.fake_dirs Sample.dict_repr Cases.wf_static None
           (Some Cases.handler_params)).
  - repeat constructor.
  - intros i j fw t Hel Hfw _ Ht.
    vm_compute in Hel. apply list_elem_of_singleton in Hel. injection Hel as -> ->.
    injection Hfw as <-. injection Ht as <-. eexists. vm_compute. reflexivity.
Defined.

Lemma use_custodian_carries_command_witness :
  entry (to_dict Sample.custodian_static) 1 0
  = Some (RunVaspCustodian (<["vasp_cmd" := PStr "vasp"]> (default ∅ None))).
Proof.
  apply (use_custodian_carries_command Sample.fake_dirs Sample.dict_repr
           Sample.wf_relax_static Sample.custodian_static (Some "static") None 1 0
           (Sample.firework 2 "static"
              [Sample.RunVaspDirect "vasp"; Sample.PassCalcLocs; Sample.VaspToDbTask])
           (Sample.RunVaspDirect "vasp") (PStr "vasp")).
  - vm_compute. reflexivity.
  - reflexivity.
  - vm_compute. apply list_elem_of_In. right. left. reflexivity.
  - reflexivity.
  - vm_compute. reflexivity.
  - reflexivity.
  - vm_compute. reflexivity.
Defined.

(** ** make_fake_workflow, further *)

Section FakeFrame.

Variable fake_dirs : list (string * string).
Variable dict_repr : gmap string pyval -> string.

Lemma make_fake_loop_shape (wf : Workflow) (ps : list (nat * string * nat)) (d : WfDict) :
  covers wf d ->
  Forall (.∈ scan_triples fake_dirs dict_repr wf) ps ->
  exists d', for_each (make_fake_step fake_dirs) ps d = Ok d' /\
    d_links d' = d_links d /\ d_wf_name d' = d_wf_name d /\
    length (d_fws d') = length (d_fws d) /\
    forall k fwd, d_fws d !! k = Some fwd ->
      exists fwd', d_fws d' !! k = Some fwd' /\
        d_fw_id fwd' = d_fw_id fwd /\ d_name fwd' = d_name fwd /\
        spec_priority (d_spec fwd') = spec_priority (d_spec fwd) /\
        spec_trackers (d_spec fwd') = spec_trackers (d_spec fwd) /\
        spec_rest (d_spec fwd') = spec_rest (d_spec fwd) /\
        length (spec_tasks (d_spec fwd')) = length (spec_tasks (d_spec fwd)) /\
        (forall j, (forall job_type, (k, job_type, j) ∉ ps) ->
           spec_tasks (d_spec fwd') !! j = spec_tasks (d_spec fwd) !! j) /\
        (forall j t', spec_tasks (d_spec fwd') !! j = Some t' ->
           spec_tasks (d_spec fwd) !! j = Some t' \/
           exists job_type fake_dir, (k, job_type, j) ∈ ps /\
             items_getitem fake_dirs job_type = Ok fake_dir /\
             t' = RunVaspFake fake_dir).
Proof.
  revert d. induction ps as [|[[i job] j] ps IH]; intros d Hcov Hall; cbn [for_each].
  - exists d. repeat split; try done. intros k fwd Hk. exists fwd.
    repeat split; try done. intros j t' Ht'. by left.
  - apply Forall_cons in Hall as [Hin Hall].
    assert ((i, j) ∈ get_runvasp_fws_and_tasks fake_dirs dict_repr wf) as Hij.
    { apply elem_of_scan_triples in Hin as (fw & t & ?). apply elem_of_pairs.
      by exists fw, t, job. }
    pose proof Hin as (_ & _ & _ & _ & _ & Hjob & _)%elem_of_scan_triples.
    destruct (items_getitem_total _ _ Hjob) as [dir Hdir].
    destruct (covers_pair fake_dirs dict_repr _ _ _ _ Hcov Hij)
      as (fw & fwd_i & t & Hfw & Hfwd_i & Hnm & Ht).
    destruct (set_task_entry_total d i j (RunVaspFake dir) _ _ Hfwd_i Ht) as [d1 Hset].
    assert (make_fake_step fake_dirs d (i, job, j) = Ok d1) as ->
      by (apply make_fake_step_Ok; by exists dir).
    cbn [rbind].
    destruct (IH d1) as (d' & Hloop & Hl & Hn & Hlen & Hlook);
      [by eapply covers_set_task_entry | done |].
    exists d'. split; [done|].
    apply set_task_entry_Ok in Hset as (fwd_i' & Hfwd_i' & Hj & ->). simpl in *.
    simplify_eq. rewrite length_insert in Hlen. repeat split; try done.
    intros k fwd Hk. destruct (decide (k = i)) as [->|Hne].
    + simplify_eq.
      destruct (Hlook i _ (list_lookup_insert_eq _ _ _ (lookup_lt_Some _ _ _ Hfwd_i)))
        as (fwd' & Hk' & H1 & H2 & H3 & H4 & H5 & H6 & H7 & H8).
      simpl in *. rewrite length_insert in H6.
      exists fwd'. repeat split; try done.
      * intros j' Hj'. rewrite H7 by (intros job' Hin'; apply (Hj' job'); by right).
        apply list_lookup_insert_ne. intros ->. apply (Hj' job). by left.
      * intros j' t' Ht'. destruct (H8 j' t' Ht') as [Hold|(job' & dir' & Hin' & Hd' & ->)].
        -- destruct (decide (j' = j)) as [->|Hne].
           ++ rewrite list_lookup_insert_eq in Hold by done. right.
              exists job, dir. split; [by left|]. split; [done|]. congruence.
           ++ rewrite list_lookup_insert_ne in Hold by done. by left.
        -- right. exists job', dir'. split; [by right | done].
    + destruct (Hlook k fwd) as (fwd' & Hk' & H1 & H2 & H3 & H4 & H5 & H6 & H7 & H8);
        [by rewrite list_lookup_insert_ne|].
      exists fwd'. repeat split; try done.
      * intros j' Hj'. apply H7. intros job' Hin'. apply (Hj' job'). by right.
      * intros j' t' Ht'. destruct (H8 j' t' Ht') as [Hold|(job' & dir' & Hin' & Hd' & ->)];
          [by left|].
        right. exists job', dir'. split; [by right | done].
Qed.

(** On a workflow whose serialized task lists have an entry for every
    task, [make_fake_workflow] never raises; the mapping it hands to
    [Workflow.from_dict] has the links and the name of the serialized
    input and as many Fireworks; each of them keeps the id, name,
    priority, trackers, other settings and length of the task list of the
    serialized input Firework, an entry whose pair is not matched is the
    entry of the serialized input, and an entry that differs from it is
    the [RunVaspFake] task of the directory of a job-type label contained
    in the Firework's name. *)
Theorem make_fake_workflow_returns (wf : Workflow) :
  tasks_serialized wf ->
  exists d',
    make_fake_workflow fake_dirs dict_repr wf = Ok (from_dict d') /\
    d_links d' = d_links (to_dict wf) /\ d_wf_name d' = d_wf_name (to_dict wf) /\
    length (d_fws d') = length (d_fws (to_dict wf)) /\
    forall i fwd, d_fws (to_dict wf) !! i = Some fwd ->
      exists fwd', d_fws d' !! i = Some fwd' /\
        d_fw_id fwd' = d_fw_id fwd /\ d_name fwd' = d_name fwd /\
        spec_priority (d_spec fwd') = spec_priority (d_spec fwd) /\
        spec_trackers (d_spec fwd') = spec_trackers (d_spec fwd) /\
        spec_rest (d_spec fwd') = spec_rest (d_spec fwd) /\
        length (spec_tasks (d_spec fwd')) = length (spec_tasks (d_spec fwd)) /\
        (forall j, (i, j) ∉ get_runvasp_fws_and_tasks fake_dirs dict_repr wf ->
           spec_tasks (d_spec fwd') !! j = spec_tasks (d_spec fwd) !! j) /\
        (forall j t', spec_tasks (d_spec fwd') !! j = Some t' ->
           spec_tasks (d_spec fwd) !! j = Some t' \/
           exists job_type fake_dir,
             job_type ∈ fake_dirs.*1 /\ str_in job_type (d_name fwd) = true /\
             items_getitem fake_dirs job_type = Ok fake_dir /\
             t' = RunVaspFake fake_dir).
Proof.
  intros Hser. rewrite make_fake_workflow_flat.
  destruct (make_fake_loop_shape wf (scan_triples fake_dirs dict_repr wf) (to_dict wf))
    as (d' & Hloop & Hl & Hn & Hlen & Hlook);
    [by apply covers_to_dict | by apply Forall_forall |].
  rewrite Hloop. cbn [rbind]. exists d'. split; [done|].
  split; [done|]. split; [done|]. split; [done|].
  intros i fwd Hfwd.
  destruct (Hlook i fwd Hfwd) as (fwd' & Hk' & H1 & H2 & H3 & H4 & H5 & H6 & H7 & H8).
  exists fwd'. split; [done|].
  split; [done|]. split; [done|]. split; [done|]. split; [done|]. split; [done|].
  split; [done|]. split.
  - intros j Hj. apply H7. intros job Hin. apply Hj.
    apply elem_of_scan_triples in Hin as (fw0 & t & ?). apply elem_of_pairs.
    by exists fw0, t, job.
  - intros j t' Ht'. destruct (H8 j t' Ht') as [Hold|(job & dir & Hin & Hd & ->)];
      [by left|].
    right. exists job, dir.
    apply elem_of_scan_triples in Hin as (fw0 & t & Hfw0 & _ & _ & Hjob & Hnm).
    unfold to_dict in Hfwd. simpl in Hfwd. rewrite list_lookup_fmap, Hfw0 in Hfwd.
    simpl in Hfwd. injection Hfwd as <-. by simpl.
Qed.

End FakeFrame.

Lemma make_fake_workflow_returns_witness :
  exists d',
    make_fake_workflow Sample.fake_dirs Sample.dict_repr Sample.wf_relax_static
    = Ok (from_dict d') /\
    d_links d' = d_links (to_dict Sample.wf_relax_static) /\
    d_wf_name d' = d_wf_name (to_dict Sample.wf_relax_static) /\
    length (d_fws d') = length (d_fws (to_dict Sample.wf_relax_static)).
Proof.
  destruct (make_fake_workflow_returns Sample.fake_dirs Sample.dict_repr
              Sample.wf_relax_static) as (d' & Hwf' & Hl & Hn & Hlen & _).
  - repeat constructor.
  - exists d'. split; [exact Hwf'|]. split; [exact Hl|]. split; [exact Hn | exact Hlen].
Defined.

Section FakeLastLabel.

Variable fake_dirs : list (string * string).
Variable dict_repr : gmap string pyval -> string.

Lemma final_entry_app (ps qs : list (nat * string * nat)) (i j : nat) (e : option task) :
  final_entry fake_dirs (ps ++ qs) i j e
  = final_entry fake_dirs qs i j (final_entry fake_dirs ps i j e).
Proof. unfold final_entry. apply foldl_app. Qed.

Lemma make_fake_loop_entry (ps : list (nat * string * nat)) (d d' : WfDict) (i j : nat) :
  for_each (make_fake_step fake_dirs) ps d = Ok d' ->
  entry d' i j = final_entry fake_dirs ps i j (entry d i j).
Proof.
  revert d. induction ps as [|[[i' job] j'] ps IH]; intros d; cbn [for_each].
  - by intros [= <-].
  - destruct (make_fake_step fake_dirs d (i', job, j')) as [d1|] eqn:Hstep; simpl; [|done].
    intros Hloop. rewrite (IH _ Hloop). unfold final_entry at 2. cbn [foldl].
    fold (final_entry fake_dirs ps i j). f_equal.
    apply make_fake_step_Ok in Hstep as (dir & Hdir & Hset).
    rewrite (set_task_entry_entry _ _ _ _ i j _ Hset). unfold fake_entry. rewrite Hdir.
    destruct (decide ((i, j) = (i', j'))) as [Heq|Hne].
    + simplify_eq. by rewrite decide_True.
    + rewrite decide_False by congruence. done.
Qed.

(** Triples of other Fireworks leave the entry alone. *)
Lemma final_entry_other (ps : list (nat * string * nat)) (i j : nat) (e : option task) :
  Forall (fun p => p.1.1 <> i) ps -> final_entry fake_dirs ps i j e = e.
Proof.
  revert e. induction ps as [|[[i' job] j'] ps IH]; intros e Hall; [done|].
  apply Forall_cons in Hall as [Hne Hall]. simpl in Hne.
  unfold final_entry. cbn [foldl]. fold (final_entry fake_dirs ps i j).
  rewrite decide_False by congruence. by apply IH.
Qed.

(** The triples of one label of Firework [i] write the entry of that
    label at every index they name. *)
Lemma final_entry_label_stays (js : list nat) (job_type : string) (i j : nat) :
  final_entry fake_dirs (js ≫= fun idx_t => [(i, job_type, idx_t)]) i j
    (fake_entry fake_dirs job_type)
  = fake_entry fake_dirs job_type.
Proof.
  induction js as [|j' js IH]; [done|].
  rewrite bind_cons, final_entry_app. unfold final_entry at 2. cbn [foldl].
  by destruct (decide ((i, j') = (i, j))).
Qed.

Lemma final_entry_label (js : list nat) (job_type : string) (i j : nat) (e : option task) :
  j ∈ js ->
  final_entry fake_dirs (js ≫= fun idx_t => [(i, job_type, idx_t)]) i j e
  = fake_entry fake_dirs job_type.
Proof.
  revert e. induction js as [|j' js IH]; intros e Hj; [by apply elem_of_nil in Hj|].
  rewrite bind_cons, final_entry_app. unfold final_entry at 2. cbn [foldl].
  destruct (decide ((i, j') = (i, j))) as [Heq|Hne].
  - apply final_entry_label_stays.
  - apply IH. apply elem_of_cons in Hj as [->|Hj]; [done | done].
Qed.

Lemma enumerate_middle {A : Type} (l : list A) (i : nat) (x : A) :
  l !! i = Some x ->
  enumerate l
  = enumerate (take i l) ++ (i, x) :: imap (fun k y => (S i + k, y)) (drop (S i) l).
Proof.
  intros Hi. unfold enumerate. rewrite <- (take_drop_middle l i x Hi) at 1.
  rewrite imap_app, imap_cons. rewrite length_take_le by (apply lookup_lt_Some in Hi; lia).
  rewrite Nat.add_0_r. do 2 f_equal. apply imap_ext. intros k y _. simpl. f_equal. lia.
Qed.

Lemma final_entry_scan (wf : Workflow) (i j : nat) (fw : Firework) (t : task)
    (ls : list string) (job_type : string) (e : option task) :
  fws wf !! i = Some fw -> tasks fw !! j = Some t ->
  is_runvasp_task dict_repr t = true ->
  matching_labels fake_dirs (name fw) = ls ++ [job_type] ->
  final_entry fake_dirs (scan_triples fake_dirs dict_repr wf) i j e
  = fake_entry fake_dirs job_type.
Proof.
  intros Hfw Ht Hrun Hls. unfold scan_triples.
  rewrite (enumerate_middle _ _ _ Hfw), bind_app, bind_cons, Hls, bind_app, bind_singleton.
  rewrite !final_entry_app. rewrite final_entry_other.
  - apply final_entry_label. apply elem_of_run_indices. by exists t.
  - apply Forall_forall. intros [[k job] j'] (k' & fw' & _ & Hin)%elem_of_imap_bind.
    apply list_elem_of_bind in Hin as (job' & Hin & _).
    apply list_elem_of_bind in Hin as (j'' & Hin & _).
    apply list_elem_of_singleton in Hin. simplify_eq. simpl. lia.
Qed.

(** When the name of a Firework contains several job-type labels, the
    last of them in the iteration order of [fake_dirs] decides: in the
    workflow [make_fake_workflow] returns, every run task of the Firework
    is the [RunVaspFake] task of the directory of that label. *)
Theorem make_fake_workflow_last_label (wf wf' : Workflow) (i j : nat) (fw : Firework)
    (t : task) (ls : list string) (job_type fake_dir : string) :
  make_fake_workflow fake_dirs dict_repr wf = Ok wf' ->
  fws wf !! i = Some fw -> tasks fw !! j = Some t ->
  is_runvasp_task dict_repr t = true ->
  matching_labels fake_dirs (name fw) = ls ++ [job_type] ->
  items_getitem fake_dirs job_type = Ok fake_dir ->
  entry (to_dict wf') i j = Some (RunVaspFake fake_dir).
Proof.
  rewrite make_fake_workflow_flat.
  destruct (for_each _ _ _) as [d'|] eqn:Hloop; simpl; [|done].
  intros [= <-] Hfw Ht Hrun Hls Hdir. rewrite to_dict_from_dict.
  rewrite (make_fake_loop_entry _ _ _ i j Hloop).
  rewrite (final_entry_scan wf i j fw t ls job_type _ Hfw Ht Hrun Hls).
  unfold fake_entry. by rewrite Hdir.
Qed.

End FakeLastLabel.

Lemma make_fake_workflow_last_label_witness :
  entry (to_dict Cases.faked_two_labels) 0 1 = Some (RunVaspFake "dir_B").
Proof.
  apply (make_fake_workflow_last_label Sample.fake_dirs Sample.dict_repr
           Cases.wf_two_labels Cases.faked_two_labels 0 1
           (Sample.firework 1 "static after structure optimization"
              [Sample.WriteVaspFromIOSet; Sample.RunVaspDirect "vasp"; Sample.VaspToDbTask])
           (Sample.RunVaspDirect "vasp") ["structure optimization"] "static" "dir_B").
  - vm_compute. reflexivity.
  - reflexivity.
  - reflexivity.
  - vm_compute. reflexivity.
  - vm_compute. reflexivity.
  - reflexivity.
Defined.

(** ** How the powerups compose *)

Section Compose.

Variable fake_dirs : list (string * string).
Variable dict_repr : gmap string pyval -> string.

Lemma follows_from_dict_lookup (wf : Workflow) (d : WfDict) (i : nat) (fw : Firework) :
  follows dict_repr wf d -> fws wf !! i = Some fw ->
  exists fw', fws (from_dict d) !! i = Some fw' /\ name fw' = name fw.
Proof.
  intros Hfol Hfw.
  destruct (follows_lookup dict_repr wf d i fw Hfol Hfw) as (fwd & Hfwd & Hnm & _).
  exists (fw_from_dict fwd). unfold from_dict. simpl.
  by rewrite list_lookup_fmap, Hfwd.
Qed.

(** Fake replay overrides error correction: on a mirrored workflow,
    [make_fake_workflow] applied to what [use_custodian] returns turns
    every matched task, custodian tasks included, into the [RunVaspFake]
    task of the last job-type label contained in the Firework's name. *)
Theorem make_fake_workflow_after_use_custodian (wf wf1 wf2 : Workflow)
    (F : option string) (cp : option (gmap string pyval)) (i j : nat) (fw : Firework)
    (ls : list string) (job_type fake_dir : string) :
  wf_mirrored wf ->
  use_custodian fake_dirs dict_repr wf F cp = Ok wf1 ->
  make_fake_workflow fake_dirs dict_repr wf1 = Ok wf2 ->
  (i, j) ∈ get_runvasp_fws_and_tasks fake_dirs dict_repr wf ->
  fws wf !! i = Some fw ->
  matching_labels fake_dirs (name fw) = ls ++ [job_type] ->
  items_getitem fake_dirs job_type = Ok fake_dir ->
  entry (to_dict wf2) i j = Some (RunVaspFake fake_dir).
Proof.
  intros Hmir Huse Hfake Hij Hfw Hls Hdir. unfold use_custodian in Huse.
  destruct (for_each _ _ _) as [d1|] eqn:Hloop1; simpl in Huse; [|done].
  injection Huse as Hx. subst wf1.
  assert (follows dict_repr wf d1) as Hfol.
  { eapply use_custodian_loop_follows; [by apply follows_to_dict| |exact Hloop1].
    by apply Forall_forall. }
  rewrite <- (pairs_from_dict fake_dirs dict_repr wf d1 Hfol) in Hij.
  apply elem_of_pairs in Hij as (fw1 & t1 & _ & Hfw1 & Ht1 & Hrun1 & _).
  destruct (follows_from_dict_lookup wf d1 i fw Hfol Hfw) as (fw1' & Hfw1' & Hnm).
  simplify_eq.
  rewrite make_fake_workflow_flat in Hfake.
  destruct (for_each (make_fake_step fake_dirs) _ _) as [d2|] eqn:Hloop2;
    simpl in Hfake; [|done].
  injection Hfake as Hy. subst wf2. rewrite to_dict_from_dict.
  rewrite (make_fake_loop_entry _ _ _ _ i j Hloop2).
  rewrite (final_entry_scan fake_dirs dict_repr (from_dict d1) i j fw1 t1 ls job_type
             _ Hfw1 Ht1 Hrun1) by (by rewrite Hnm).
  unfold fake_entry. by rewrite Hdir.
Qed.

(** [add_trackers] is not idempotent: a second application to the
    workflow returned by the first, on a mirrored workflow, appends the two
    trackers once more for every matched pair, so that a Firework with
    [n > 0] matched pairs ends with [2 * n] copies behind its former
    trackers. *)
Theorem add_trackers_twice (wf : Workflow) :
  wf_mirrored wf ->
  exists wf1 wf2,
    add_trackers fake_dirs dict_repr wf = Ok wf1 /\
    add_trackers fake_dirs dict_repr wf1 = Ok wf2 /\
    get_runvasp_fws_and_tasks fake_dirs dict_repr wf1
    = get_runvasp_fws_and_tasks fake_dirs dict_repr wf /\
    forall i fw, fws wf !! i = Some fw ->
      0 < matches_of fake_dirs dict_repr wf i ->
      exists fw2, fws wf2 !! i = Some fw2 /\
        spec_trackers (spec fw2) =
        Some (trackers_of (spec fw)
              ++ mjoin (replicate (2 * matches_of fake_dirs dict_repr wf i)
                          [tracker1; tracker2])).
Proof.
  intros Hmir. unfold add_trackers.
  destruct (add_trackers_loop _ _ (pairs_in_range fake_dirs dict_repr wf))
    as (d1 & Hloop1 & _ & _ & Hlen1 & Hlook1).
  rewrite Hloop1. cbn [rbind].
  assert (follows dict_repr wf d1) as Hfol.
  { unfold follows. apply Forall2_same_length_lookup. split.
    - unfold to_dict in Hlen1. simpl in Hlen1. by rewrite length_fmap in Hlen1.
    - intros k fw fwd Hfw Hfwd.
      rewrite (Hlook1 k (fw_to_dict fw)) in Hfwd
        by (unfold to_dict; simpl; by rewrite list_lookup_fmap, Hfw).
      injection Hfwd as <-. simpl. split; [done|].
      destruct (iter_extend_trackers
                  (length (filter (fun p => p.1 = k)
                             (get_runvasp_fws_and_tasks fake_dirs dict_repr wf)))
                  (spec fw)) as (-> & _).
      by rewrite (proj1 (Forall_lookup _ _) Hmir k fw Hfw). }
  pose proof (pairs_from_dict fake_dirs dict_repr wf d1 Hfol) as Hpairs.
  destruct (add_trackers_loop (get_runvasp_fws_and_tasks fake_dirs dict_repr wf) d1)
    as (d2 & Hloop2 & _ & _ & Hlen2 & Hlook2).
  { rewrite Hlen1. apply pairs_in_range. }
  exists (from_dict d1), (from_dict d2).
  rewrite to_dict_from_dict, Hpairs, Hloop2. cbn [rbind].
  split; [done|]. split; [done|]. split; [done|].
  intros i fw Hfw Hn. unfold from_dict. simpl. rewrite list_lookup_fmap.
  erewrite Hlook2 by (apply Hlook1; unfold to_dict; simpl;
                      by rewrite list_lookup_fmap, Hfw).
  simpl. eexists. split; [done|]. simpl.
  fold (matches_of fake_dirs dict_repr wf i).
  rewrite <- Nat.iter_add.
  pose proof (iter_extend_trackers
                (matches_of fake_dirs dict_repr wf i + matches_of fake_dirs dict_repr wf i)
                (spec fw)) as (_ & _ & _ & Hit).
  rewrite Hit by lia. by rewrite Nat.add_0_r.
Qed.

End Compose.

Lemma make_fake_workflow_after_use_custodian_witness :
  entry (to_dict Cases.faked_custodian) 0 1 = Some (RunVaspFake "dir_B").
Proof.
  apply (make_fake_workflow_after_use_custodian Sample.fake_dirs Sample.dict_repr
           Cases.wf_static Cases.custodian_handler Cases.faked_custodian None
           (Some Cases.handler_params) 0 1
           (Sample.firework 1 "static"
              [Sample.WriteVaspFromIOSet; Sample.RunVaspDirect "vasp_std";
               Sample.VaspToDbTask])
           [] "static" "dir_B").
  - repeat constructor.
  - vm_compute. reflexivity.
  - vm_compute. reflexivity.
  - vm_compute. apply list_elem_of_singleton. reflexivity.
  - reflexivity.
  - vm_compute. reflexivity.
  - reflexivity.
Defined.

Lemma add_trackers_twice_witness :
  exists wf1 wf2,
    add_trackers Sample.fake_dirs Sample.dict_repr Cases.wf_static = Ok wf1 /\
    add_trackers Sample.fake_dirs Sample.dict_repr wf1 = Ok wf2 /\
    get_runvasp_fws_and_tasks Sample.fake_dirs Sample.dict_repr wf1
    = get_runvasp_fws_and_tasks Sample.fake_dirs Sample.dict_repr Cases.wf_static.
Proof.
  destruct (add_trackers_twice Sample.fake_dirs Sample.dict_repr Cases.wf_static)
    as (wf1 & wf2 & H1 & H2 & H3 & _).
  - repeat constructor.
  - exists wf1, wf2. split; [exact H1|]. split; [exact H2 | exact H3].
Defined.

(** ** The LAMMPS builders, further *)

Section LammpsErrors.

Context {lammps_input : Type}.
Variable DictLammpsInput_from_file :
  string -> string -> pyval -> string -> gmap string pyval -> bool -> result lammps_input.
Variable NVTLammpsInput :
  pyval -> string -> gmap string pyval -> bool -> result lammps_input.

(** The builders have no error handling of their own: each raises
    exactly when the constructor of its input object raises, with the
    constructor's exception, whatever the file names and the binary. *)
Theorem lammps_builders_raise_with_constructor
    (job_name input_template_file data_filename : string) (lammps_data data_input : pyval)
    (user_settings : gmap string pyval) (user_lammps_settings : option (gmap string pyval))
    (is_forcefield is_forcefield' : option bool)
    (input_filename lammps_bin input_filename' data_filename' lammps_bin' : option string)
    (e : exn) :
  (Lammps.wf_from_input_template DictLammpsInput_from_file job_name input_template_file
     lammps_data data_filename user_settings is_forcefield input_filename lammps_bin
   = Raise e
   <-> DictLammpsInput_from_file job_name input_template_file lammps_data data_filename
         user_settings (default false is_forcefield) = Raise e) /\
  (Lammps.nvt_wf NVTLammpsInput data_input input_filename' data_filename'
     user_lammps_settings is_forcefield' lammps_bin' = Raise e
   <-> NVTLammpsInput data_input (default "in.data" data_filename')
         (default ∅ user_lammps_settings) (default false is_forcefield') = Raise e).
Proof.
  unfold Lammps.wf_from_input_template, Lammps.nvt_wf. split.
  - destruct (DictLammpsInput_from_file _ _ _ _ _ _); simpl; split; congruence.
  - destruct (NVTLammpsInput _ _ _ _); simpl; split; congruence.
Qed.

End LammpsErrors.

(** ** Applying a substitution powerup to its own result *)

Lemma WfDict_eq (d1 d2 : WfDict) :
  d_links d2 = d_links d1 -> d_wf_name d2 = d_wf_name d1 ->
  length (d_fws d2) = length (d_fws d1) ->
  (forall k fwd1, d_fws d1 !! k = Some fwd1 ->
     exists fwd2, d_fws d2 !! k = Some fwd2 /\
       d_fw_id fwd2 = d_fw_id fwd1 /\ d_name fwd2 = d_name fwd1 /\
       spec_priority (d_spec fwd2) = spec_priority (d_spec fwd1) /\
       spec_trackers (d_spec fwd2) = spec_trackers (d_spec fwd1) /\
       spec_rest (d_spec fwd2) = spec_rest (d_spec fwd1) /\
       forall j, spec_tasks (d_spec fwd2) !! j = spec_tasks (d_spec fwd1) !! j) ->
  d2 = d1.
Proof.
  destruct d1 as [l1 lnk1 nm1], d2 as [l2 lnk2 nm2]. simpl.
  intros -> -> Hlen Hlook. f_equal. apply list_eq. intros k.
  destruct (l1 !! k) as [fwd1|] eqn:Hk.
  - destruct (Hlook k fwd1 Hk) as (fwd2 & -> & H1 & H2 & H3 & H4 & H5 & H6).
    f_equal. destruct fwd1 as [? ? [? ? ? ?]], fwd2 as [? ? [? ? ? ?]]. simpl in *.
    subst. do 2 f_equal. by apply list_eq.
  - apply lookup_ge_None. apply lookup_ge_None in Hk. lia.
Qed.

Section Idempotence.

Variable fake_dirs : list (string * string).
Variable dict_repr : gmap string pyval -> string.

Lemma follows_covers (wf : Workflow) (d : WfDict) :
  follows dict_repr wf d -> covers wf d.
Proof.
  unfold follows, covers. intros H. eapply Forall2_impl; [exact H|].
  intros fw fwd [Hnm Hmap]. split; [done|].
  by rewrite <- (length_fmap (is_runvasp_task dict_repr) (tasks fw)), Hmap, length_fmap.
Qed.

(** After a first loop that returned, a matched entry of a Firework
    that passes the filter is a custodian task that carries a command or
    the custodian task of the parameters, which carry one. *)
Lemma use_custodian_loop_result (wf : Workflow) (F : option string)
    (cp : gmap string pyval) (d1 : WfDict) (i j : nat) (fw : Firework) :
  wf_mirrored wf ->
  for_each (use_custodian_step F cp) (get_runvasp_fws_and_tasks fake_dirs dict_repr wf)
    (to_dict wf) = Ok d1 ->
  (i, j) ∈ get_runvasp_fws_and_tasks fake_dirs dict_repr wf ->
  fws wf !! i = Some fw -> passes_filter F (name fw) = true ->
  (dict_contains "vasp_cmd" cp = true /\ entry d1 i j = Some (RunVaspCustodian cp)) \/
  (dict_contains "vasp_cmd" cp = false /\
   exists c, entry d1 i j = Some (RunVaspCustodian (<["vasp_cmd" := c]> cp))).
Proof.
  intros Hmir Hloop Hij Hfw Hpass.
  pose proof (covers_to_dict wf (wf_mirrored_tasks_serialized wf Hmir)) as Hcov.
  assert (Forall (.∈ get_runvasp_fws_and_tasks fake_dirs dict_repr wf)
            (get_runvasp_fws_and_tasks fake_dirs dict_repr wf)) as Hall
    by (by apply Forall_forall).
  assert (d_fws (to_dict wf) !! i = Some (fw_to_dict fw)) as Hfwd
    by (unfold to_dict; simpl; by rewrite list_lookup_fmap, Hfw).
  destruct (dict_contains "vasp_cmd" cp) eqn:Hcp.
  - left. split; [done|].
    by apply (use_custodian_loop_sets fake_dirs dict_repr wf F cp
                (get_runvasp_fws_and_tasks fake_dirs dict_repr wf) (to_dict wf) d1
                i j (fw_to_dict fw)).
  - right. split; [done|].
    destruct (covers_pair fake_dirs dict_repr _ _ _ _ Hcov Hij)
      as (fw0 & fwd & t & Hfw0 & Hfwd0 & _ & Ht).
    simplify_eq. destruct (params t !! "vasp_cmd") as [c|] eqn:Hc.
    + exists c.
      by apply (use_custodian_loop_carries F cp
                  (get_runvasp_fws_and_tasks fake_dirs dict_repr wf) (to_dict wf) d1
                  i j (fw_to_dict fw) t c).
    + rewrite (use_custodian_loop_KeyError fake_dirs dict_repr wf F cp
                 (get_runvasp_fws_and_tasks fake_dirs dict_repr wf) (to_dict wf)
                 i j (fw_to_dict fw) t) in Hloop; done.
Qed.

(** [use_custodian] is idempotent on its results: applied with the
    same filter and parameters to the workflow it returned for a mirrored
    workflow, it returns that workflow again. *)
Theorem use_custodian_idempotent (wf wf1 : Workflow) (F : option string)
    (cp : option (gmap string pyval)) :
  wf_mirrored wf ->
  use_custodian fake_dirs dict_repr wf F cp = Ok wf1 ->
  use_custodian fake_dirs dict_repr wf1 F cp = Ok wf1.
Proof.
  intros Hmir Huse. unfold use_custodian in *.
  change (match cp with Some p => p | None => ∅ end) with (default ∅ cp) in *.
  destruct (for_each _ _ (to_dict wf)) as [d1|] eqn:Hloop1; simpl in Huse; [|done].
  injection Huse as Hx. subst wf1.
  assert (follows dict_repr wf d1) as Hfol.
  { eapply use_custodian_loop_follows; [by apply follows_to_dict| |exact Hloop1].
    by apply Forall_forall. }
  rewrite to_dict_from_dict, (pairs_from_dict fake_dirs dict_repr wf d1 Hfol).
  assert (Forall (.∈ get_runvasp_fws_and_tasks fake_dirs dict_repr wf)
            (get_runvasp_fws_and_tasks fake_dirs dict_repr wf)) as Hall
    by (by apply Forall_forall).
  (* the entries the second loop reads carry a command *)
  assert (forall i j fwd1, (i, j) ∈ get_runvasp_fws_and_tasks fake_dirs dict_repr wf ->
            d_fws d1 !! i = Some fwd1 -> passes_filter F (d_name fwd1) = true ->
            (dict_contains "vasp_cmd" (default ∅ cp) = true /\
             entry d1 i j = Some (RunVaspCustodian (default ∅ cp))) \/
            (dict_contains "vasp_cmd" (default ∅ cp) = false /\
             exists c, entry d1 i j
                       = Some (RunVaspCustodian (<["vasp_cmd" := c]> (default ∅ cp)))))
    as Hres.
  { intros i j fwd1 Hij Hfwd1 Hpass.
    destruct (Forall2_lookup_r _ _ _ _ _ Hfol Hfwd1) as (fw & Hfw & Hnm & _).
    apply (use_custodian_loop_result wf F (default ∅ cp) d1 i j fw); try done.
    by rewrite Hnm. }
  destruct (for_each _ _ d1) as [d2|e] eqn:Hloop2; simpl.
  - f_equal. f_equal. apply WfDict_eq.
    + by apply (use_custodian_loop_shape _ _ _ _ _ Hloop2).
    + by apply (use_custodian_loop_shape _ _ _ _ _ Hloop2).
    + by apply (use_custodian_loop_shape _ _ _ _ _ Hloop2).
    + intros k fwd1 Hk.
      destruct (use_custodian_loop_shape _ _ _ _ _ Hloop2) as (_ & _ & _ & Hlook).
      destruct (Hlook k fwd1 Hk) as (fwd2 & Hk2 & H1 & H2 & H3 & H4 & H5 & H6 & H7 & _).
      exists fwd2. repeat split; try done. intros j.
      destruct (decide ((k, j) ∈ get_runvasp_fws_and_tasks fake_dirs dict_repr wf))
        as [Hin|Hnin]; [|by apply H7].
      destruct (passes_filter F (d_name fwd1)) eqn:Hpass.
      * assert (entry d2 k j = entry d1 k j) as He.
        { destruct (Hres k j fwd1 Hin Hk Hpass) as [[Hcp He1]|[Hcp [c He1]]].
          - rewrite He1. by eapply use_custodian_loop_keeps.
          - rewrite He1. by eapply use_custodian_loop_command. }
        unfold entry in He. by rewrite Hk, Hk2 in He.
      * destruct (use_custodian_loop_frame _ _ _ _ _ Hloop2) as [_ Hframe].
        rewrite (Hframe k fwd1 Hk Hpass) in Hk2. by simplify_eq.
  - exfalso.
    destruct (use_custodian_loop_Raise fake_dirs dict_repr wf F (default ∅ cp)
                (get_runvasp_fws_and_tasks fake_dirs dict_repr wf) d1 d1 e)
      as (_ & Hcp & i & j & fwd0 & t0 & Hel & Hfwd0 & Hpass & Ht0 & Hbare); try done.
    + by apply follows_covers.
    + split; [done|]. intros i j. by left.
    + destruct (Hres i j fwd0 Hel Hfwd0 Hpass) as [[Hcp' _]|[_ [c He1]]]; [congruence|].
      unfold entry in He1. rewrite Hfwd0 in He1. simpl in He1. rewrite Ht0 in He1.
      injection He1 as ->. simpl in Hbare. by rewrite lookup_insert_eq in Hbare.
Qed.

End Idempotence.

Lemma use_custodian_idempotent_witness :
  use_custodian Sample.fake_dirs Sample.dict_repr Sample.custodian_static (Some "static") None
  = Ok Sample.custodian_static.
Proof.
  apply (use_custodian_idempotent Sample.fake_dirs Sample.dict_repr
           Sample.wf_relax_static Sample.custodian_static (Some "static") None).
  - repeat constructor.
  - vm_compute. reflexivity.
Defined.

Section FakeIdempotence.

Variable fake_dirs : list (string * string).
Variable dict_repr : gmap string pyval -> string.

Lemma scan_triples_ext (wf wf' : Workflow) :
  Forall2 (fun fw fw' =>
             name fw = name fw' /\
             is_runvasp_task dict_repr <$> tasks fw
             = is_runvasp_task dict_repr <$> tasks fw')
    (fws wf) (fws wf') ->
  scan_triples fake_dirs dict_repr wf = scan_triples fake_dirs dict_repr wf'.
Proof.
  intros H. unfold scan_triples, enumerate.
  eapply imap_bind_Forall2; [exact H|].
  intros i fw fw' [Hnm Hrun]. simpl.
  by rewrite Hnm, (run_indices_ext dict_repr _ _ Hrun).
Qed.

Lemma scan_triples_from_dict (wf : Workflow) (d : WfDict) :
  follows dict_repr wf d ->
  scan_triples fake_dirs dict_repr (from_dict d) = scan_triples fake_dirs dict_repr wf.
Proof.
  intros H. symmetry. apply scan_triples_ext. unfold from_dict. simpl.
  apply Forall2_fmap_r. eapply Forall2_impl; [exact H|]. by intros fw [? ? ?] [? ?].
Qed.

(** The assignments for a list of triples either leave an entry alone
    or decide it whatever it was. *)
Lemma final_entry_cases (ps : list (nat * string * nat)) (i j : nat) :
  (forall e, final_entry fake_dirs ps i j e = e) \/
  (exists v, forall e, final_entry fake_dirs ps i j e = v).
Proof.
  induction ps as [|[[i' job] j'] ps IH]; [by left|].
  unfold final_entry. cbn [foldl]. fold (final_entry fake_dirs ps i j).
  destruct IH as [Hid|[v Hv]].
  - destruct (decide ((i', j') = (i, j))) as [Heq|Hne].
    + right. exists (fake_entry fake_dirs job). intros e. apply Hid.
    + left. intros e. apply Hid.
  - right. exists v. intros e. apply Hv.
Qed.

Lemma final_entry_idem (ps : list (nat * string * nat)) (i j : nat) (e : option task) :
  final_entry fake_dirs ps i j (final_entry fake_dirs ps i j e)
  = final_entry fake_dirs ps i j e.
Proof.
  destruct (final_entry_cases ps i j) as [Hid|[v Hv]]; [by rewrite !Hid|].
  by rewrite !Hv.
Qed.

(** [make_fake_workflow] is idempotent on its results: applied to the
    workflow it returned for a mirrored workflow, it returns that workflow
    again. *)
Theorem make_fake_workflow_idempotent (wf wf1 : Workflow) :
  wf_mirrored wf ->
  make_fake_workflow fake_dirs dict_repr wf = Ok wf1 ->
  make_fake_workflow fake_dirs dict_repr wf1 = Ok wf1.
Proof.
  intros Hmir. rewrite !make_fake_workflow_flat.
  destruct (make_fake_loop_follows fake_dirs dict_repr wf
              (scan_triples fake_dirs dict_repr wf) (to_dict wf))
    as (d1 & Hloop1 & Hfol); [by apply follows_to_dict | by apply Forall_forall |].
  rewrite Hloop1. cbn [rbind]. intros Hx. injection Hx as Hx. subst wf1.
  rewrite to_dict_from_dict, (scan_triples_from_dict wf d1 Hfol).
  destruct (make_fake_loop_shape fake_dirs dict_repr wf
              (scan_triples fake_dirs dict_repr wf) d1)
    as (d2 & Hloop2 & Hl & Hn & Hlen & Hlook);
    [by apply (follows_covers dict_repr) | by apply Forall_forall |].
  rewrite Hloop2. cbn [rbind]. do 2 f_equal. apply WfDict_eq; try done.
  intros k fwd1 Hk.
  destruct (Hlook k fwd1 Hk) as (fwd2 & Hk2 & H1 & H2 & H3 & H4 & H5 & _).
  exists fwd2. repeat split; try done. intros j.
  pose proof (make_fake_loop_entry fake_dirs _ _ _ k j Hloop2) as He2.
  rewrite (make_fake_loop_entry fake_dirs _ _ _ k j Hloop1), final_entry_idem in He2.
  rewrite <- (make_fake_loop_entry fake_dirs _ _ _ k j Hloop1) in He2.
  unfold entry in He2. by rewrite Hk, Hk2 in He2.
Qed.

End FakeIdempotence.

Lemma make_fake_workflow_idempotent_witness :
  make_fake_workflow Sample.fake_dirs Sample.dict_repr Cases.faked_two_labels
  = Ok Cases.faked_two_labels.
Proof.
  apply (make_fake_workflow_idempotent Sample.fake_dirs Sample.dict_repr
           Cases.wf_two_labels Cases.faked_two_labels).
  - repeat constructor.
  - vm_compute. reflexivity.
Defined.

(** ** add_modify_incar_envchk *)

(** [add_modify_incar_envchk] never raises; in the workflow it returns
    every entry of a serialized task list is an entry of the input or the
    [ModifyIncar] task whose only parameter is "key_update" with the value
    ">>incar_update<<", and a Firework that fails the name filter is the
    Firework of the input. *)
Theorem add_modify_incar_envchk_entries (fake_dirs : list (string * string))
    (dict_repr : gmap string pyval -> string) (wf : Workflow) (F : option string) :
  exists wf',
    add_modify_incar_envchk fake_dirs dict_repr wf F = Ok wf' /\
    length (fws wf') = length (fws wf) /\
    forall i fw, fws wf !! i = Some fw ->
      exists fw', fws wf' !! i = Some fw' /\
        (passes_filter F (name fw) = false -> fw' = fw) /\
        Forall (fun t => t ∈ spec_tasks (spec fw) \/
                         t = ModifyIncar {[ "key_update" := PStr ">>incar_update<<" ]})
          (spec_tasks (spec fw')).
Proof.
  unfold add_modify_incar_envchk, add_modify_incar.
  destruct (add_modify_incar_loop {[ "key_update" := PStr ">>incar_update<<" ]} F _ wf
              (pairs_lt_length fake_dirs dict_repr wf))
    as (wf' & Hloop & _ & _ & Hlen & Hlook).
  exists wf'. split; [done|]. split; [done|]. intros i fw Hfw.
  eexists. split; [by apply Hlook|].
  destruct (passes_filter F (name fw)); simpl.
  - split; [done|]. apply insert_modify_incar_keeps.
  - split; [done|]. apply Forall_forall. by left.
Qed.
